(** * Face-identity matching and attendance resolution

    A shallow embedding of the enrollment tool ([Task 1/add_faces_gui.py])
    and of the recognition tool ([Task 1/recognize_faces_gui.py]), with the
    properties of the roster store, the enrollment pipeline, the matching
    loop and the attendance tables.

    Conventions.
    - A Python [str] is a [string]; its characters are the code points
      below 256.
    - A Python exception is [Raise e], where [e] is the text of [str(e)].
    - A stored face encoding is the JSON array of floats written by
      [enc[0].tolist()], a [list float].
    - [face_recognition], [tkinter] and [reportlab] are external: their
      functions are Section variables, their visible effects (message
      boxes, the label text, the built PDF) are fields of the
      application state. *)

From Stdlib Require Import Floats Ascii.
From stdpp Require Import base strings list gmap pretty.

Set Default Proof Using "Type".

(** ** Python builtins used by the two programs *)

Module Py.

(** [str.isspace] on one character (code points below 256). *)
Definition isspace (c : ascii) : bool :=
  let n := Ascii.N_of_ascii c in
  ((9 <=? n) && (n <=? 13) || (28 <=? n) && (n <=? 32)
   || (n =? 133) || (n =? 160))%N.

Fixpoint lstrip (s : string) : string :=
  match s with
  | EmptyString => EmptyString
  | String c s' => if isspace c then lstrip s' else s
  end.

Fixpoint rstrip (s : string) : string :=
  match s with
  | EmptyString => EmptyString
  | String c s' =>
      match rstrip s' with
      | EmptyString => if isspace c then EmptyString else String c EmptyString
      | t => String c t
      end
  end.

(** [s.strip()] *)
Definition strip (s : string) : string := rstrip (lstrip s).

(** A character with the Unicode digit property (code points below 256:
    [0]..[9] and the superscripts one, two and three). *)
Definition isdigit_char (c : ascii) : bool :=
  let n := Ascii.N_of_ascii c in
  ((48 <=? n) && (n <=? 57) || (n =? 178) || (n =? 179) || (n =? 185))%N.

Fixpoint all_digits (s : string) : bool :=
  match s with
  | EmptyString => true
  | String c s' => isdigit_char c && all_digits s'
  end.

(** [s.isdigit()]: at least one character, and all of them digits. *)
Definition isdigit (s : string) : bool :=
  match s with
  | EmptyString => false
  | _ => all_digits s
  end.

(** [not s] for a [str]. *)
Definition not_str (s : string) : bool :=
  match s with EmptyString => true | _ => false end.

(** [not l] for a [list]. *)
Definition not_list {A} (l : list A) : bool :=
  match l with [] => true | _ => false end.

(** The result of an expression that may raise. *)
Inductive result (A : Type) : Type :=
| Ok (a : A)
| Raise (e : string).
Global Arguments Ok {A} a.
Global Arguments Raise {A} e.

Global Instance result_ret : MRet result := λ A a, Ok a.
Global Instance result_bind : MBind result := λ A B f m,
  match m with
  | Ok a => f a
  | Raise e => Raise e
  end.

(** [try: body / except Exception as e: handler(e)] *)
Definition try_except {A} (body : result A) (handler : string → A) : A :=
  match body with
  | Ok a => a
  | Raise e => handler e
  end.

(** [for x in l: body], with a body that works on a state and may raise:
    an exception leaves the loop, with the state reached so far. *)
Fixpoint for_each {A S} (body : A → S → result unit * S) (l : list A) (s : S)
  : result unit * S :=
  match l with
  | [] => (Ok (), s)
  | x :: l' =>
      match body x s with
      | (Ok _, s') => for_each body l' s'
      | (Raise e, s') => (Raise e, s')
      end
  end.

End Py.

(** ** Data model *)

Definition encoding : Type := list float.

Module Employee.
(** One entry of [employees.json]. *)
Record t : Type := { id : string; name : string; encodings : list encoding }.
End Employee.

Abbreviation roster := (list Employee.t).

Definition ids (employees : roster) : list string := Employee.id <$> employees.

(** ** The roster store: the file [employees.json] *)

Module Store.

(** What [json.load] finds in the file: text that does not parse, or the
    document written by [json.dump(employees, f, indent=4)]. These are the
    files that the two programs leave behind; a file with JSON of another
    shape, which [load_employees] returns as it is, is in [JsonStore]
    below. *)
Inductive contents : Type :=
| Garbled
| Document (employees : roster).

(** What happens on [open(json_file, "w")] and the [json.dump] after it. *)
Inductive write_mode : Type :=
| Writes
| Open_raises (e : string)
| Dump_raises (e : string).

Record disk : Type := {
  file : option contents;        (* [None]: the file does not exist *)
  read_raises : option string;   (* [Some e]: opening it for reading raises *)
  on_write : write_mode
}.

Definition os_path_exists (d : disk) : bool :=
  match file d with Some _ => true | None => false end.

Definition open_r (d : disk) : Py.result contents :=
  match read_raises d with
  | Some e => Py.Raise e
  | None =>
      match file d with
      | Some c => Py.Ok c
      | None => Py.Raise "[Errno 2] No such file or directory: 'employees.json'"
      end
  end.

Definition json_load (f : contents) : Py.result roster :=
  match f with
  | Document employees => Py.Ok employees
  | Garbled => Py.Raise "Expecting value: line 1 column 1 (char 0)"
  end.

(** [load_employees], the same in both programs. *)
Definition load_employees (json_file : disk) : roster :=
  Py.try_except
    (if os_path_exists json_file then
       f ← open_r json_file; json_load f
     else Py.Ok [])
    (λ _, []).

(** The body of the [try] of [save_employees]: the disk afterwards, and
    whether an exception left the [with] block. A failed [json.dump]
    leaves a truncated file behind. *)
Definition write (employees : roster) (d : disk) : Py.result unit * disk :=
  match on_write d with
  | Writes =>
      (Py.Ok (), {| file := Some (Document employees);
                    read_raises := read_raises d; on_write := on_write d |})
  | Open_raises e => (Py.Raise e, d)
  | Dump_raises e =>
      (Py.Raise e, {| file := Some Garbled;
                      read_raises := read_raises d; on_write := on_write d |})
  end.

End Store.

(** ** The file [employees.json] with any text in it *)

Module Json.

(** A value as [json.load] returns it: [None], a [bool], an [int], a
    [float], a [str], a [list] or a [dict]. *)
#[warnings="-register-all"] Inductive value : Type :=
| Null
| Bool (b : bool)
| Int (n : Z)
| Float (x : float)
| Str (s : string)
| Array (items : list value)
| Object (members : list (string * value)).

(** The value that [json.load] gives back for the text that
    [json.dump(employees, f, indent=4)] writes. *)
Definition of_encoding (enc : encoding) : value := Array (Float <$> enc).

Definition of_employee (employee : Employee.t) : value :=
  Object [("id", Str (Employee.id employee));
          ("name", Str (Employee.name employee));
          ("encodings", Array (of_encoding <$> Employee.encodings employee))].

Definition of_roster (employees : roster) : value :=
  Array (of_employee <$> employees).

End Json.

Module JsonStore.

(** The text of the file, by what [json.load] does with it: it raises, on
    text that is not JSON, or it returns the value that the text denotes,
    of whatever shape. *)
Inductive contents : Type :=
| Garbled
| Parses (v : Json.value).

Record disk : Type := {
  file : option contents;        (* [None]: the file does not exist *)
  read_raises : option string    (* [Some e]: opening it for reading raises *)
}.

Definition os_path_exists (d : disk) : bool :=
  match file d with Some _ => true | None => false end.

Definition open_r (d : disk) : Py.result contents :=
  match read_raises d with
  | Some e => Py.Raise e
  | None =>
      match file d with
      | Some c => Py.Ok c
      | None => Py.Raise "[Errno 2] No such file or directory: 'employees.json'"
      end
  end.

Definition json_load (f : contents) : Py.result Json.value :=
  match f with
  | Parses v => Py.Ok v
  | Garbled => Py.Raise "Expecting value: line 1 column 1 (char 0)"
  end.

(** [load_employees], the same in both programs: nothing checks what
    [json.load] returns. *)
Definition load_employees (json_file : disk) : Json.value :=
  Py.try_except
    (if os_path_exists json_file then
       f ← open_r json_file; json_load f
     else Py.Ok (Json.Array []))
    (λ _, Json.Array []).

(** The files of [Store], those that the two programs write, as text. *)
Definition of_contents (c : Store.contents) : contents :=
  match c with
  | Store.Garbled => Garbled
  | Store.Document employees => Parses (Json.of_roster employees)
  end.

Definition of_disk (d : Store.disk) : disk :=
  {| file := of_contents <$> Store.file d;
     read_raises := Store.read_raises d |}.

(** A file that holds a JSON object, not an array of identity records. *)
Definition not_a_roster : disk :=
  {| file := Some (Parses (Json.Object [("id", Json.Str "1")]));
     read_raises := None |}.

End JsonStore.

(** ** tkinter message boxes *)

Inductive messagebox : Type :=
| showerror (title message : string)
| showwarning (title message : string)
| showinfo (title message : string).

(** ** The enrollment program, [add_faces_gui.py] *)

Module AddEmployeeApp.

Record app : Type := {
  name_entry : string;          (* text of the name field *)
  id_entry : string;            (* text of the id field *)
  json_file : Store.disk;       (* the file named by [self.json_file] *)
  shown : list messagebox       (* message boxes shown so far, oldest first *)
}.

Definition show (m : messagebox) (self : app) : app :=
  {| name_entry := name_entry self; id_entry := id_entry self;
     json_file := json_file self; shown := shown self ++ [m] |}.

Definition load_employees (self : app) : roster :=
  Store.load_employees (json_file self).

Definition save_employees (employees : roster) (self : app) : app :=
  let '(r, d) := Store.write employees (json_file self) in
  let self := {| name_entry := name_entry self; id_entry := id_entry self;
                 json_file := d; shown := shown self |} in
  match r with
  | Py.Ok _ => self
  | Py.Raise e => show (showerror "Error" ("Failed to save employees: " +:+ e)) self
  end.

(** A call that ended in [result] from [self] was rejected without any
    mutation: one error box was shown, the file is as it was, and the roster
    in memory, if it was loaded at all, is the loaded one. *)
Definition rejected (result : option roster * app) (self : app) : Prop :=
  (∃ message, result.2 = show (showerror "Error" message) self)
  ∧ json_file result.2 = json_file self
  ∧ (result.1 = None ∨ result.1 = Some (load_employees self)).

(** The uniqueness invariant, on the persisted document. *)
Definition unique_on_disk (d : Store.disk) : Prop :=
  ∀ employees, Store.file d = Some (Store.Document employees) → NoDup (ids employees).

Section Enrollment.

(** [face_recognition.load_image_file] and
    [face_recognition.face_encodings]. *)
Variable image : Type.
Variable load_image_file : string → Py.result image.
Variable face_encodings : image → Py.result (list encoding).

(** One turn of the loop over [file_paths]; the loop state is the list
    [encodings] and the application. *)
Definition process_image (st : list encoding * app) (file_path : string)
  : list encoding * app :=
  let '(encodings, self) := st in
  Py.try_except
    (image ← load_image_file file_path;
     enc ← face_encodings image;
     mret (match enc with
           | enc0 :: _ => (encodings ++ [enc0], self)
           | [] => (encodings,
                    show (showwarning "Warning"
                            ("No face detected in " +:+ file_path)) self)
           end))
    (λ e, (encodings,
           show (showerror "Error"
                   ("Failed to process " +:+ file_path +:+ ": " +:+ e)) self)).

(** The whole loop of lines 64-74, from an empty list [encodings]. *)
Definition process_images (file_paths : list string) (self : app)
  : list encoding * app :=
  foldl process_image ([], self) file_paths.

(** [upload_images]. [file_paths] is what the file dialog returned. The
    first component of the result is the list bound to the local
    variable [employees] when the function returns ([None] when it
    returns before the roster is loaded). *)
Definition upload_images (file_paths : list string) (self : app)
  : option roster * app :=
  if Py.not_list file_paths then (None, self) else
  let name := Py.strip (name_entry self) in
  let employee_id := Py.strip (id_entry self) in
  if Py.not_str name || Py.not_str employee_id then
    (None, show (showerror "Error" "Please enter both name and employee ID") self)
  else if negb (Py.isdigit employee_id) then
    (None, show (showerror "Error" "Employee ID must be a number") self)
  else
  let employees := load_employees self in
  if existsb (λ emp, String.eqb (Employee.id emp) employee_id) employees then
    (Some employees, show (showerror "Error" "Employee ID already exists") self)
  else
  let '(encodings, self) := process_images file_paths self in
  if Py.not_list encodings then
    (Some employees,
     show (showerror "Error" "No valid faces detected in any image") self)
  else
  let employees :=
    employees ++ [ {| Employee.id := employee_id; Employee.name := name;
                      Employee.encodings := encodings |} ] in
  let self := save_employees employees self in
  (Some employees,
   show (showinfo "Success"
           ("Employee " +:+ name +:+ " (ID: " +:+ employee_id
            +:+ ") added with " +:+ pretty (length encodings) +:+ " images"))
        self).

(** *** Notions used to state the properties of enrollment *)

(** What the specification says one image contributes: the first encoding
    found in it, nothing when there is none or when extraction fails. *)
Definition first_face (file_path : string) : option encoding :=
  match image ← load_image_file file_path; face_encodings image with
  | Py.Ok (enc0 :: _) => Some enc0
  | _ => None
  end.

(** The specification's three input checks, on the stripped fields. *)
Definition well_formed (self : app) : Prop :=
  Py.strip (name_entry self) ≠ "" ∧ Py.strip (id_entry self) ≠ ""
  ∧ Py.isdigit (Py.strip (id_entry self)) = true.

Definition duplicate (self : app) : Prop :=
  Py.strip (id_entry self) ∈ ids (load_employees self).

(** The identity an enrollment adds. *)
Definition new_employee (file_paths : list string) (self : app) : Employee.t :=
  {| Employee.id := Py.strip (id_entry self);
     Employee.name := Py.strip (name_entry self);
     Employee.encodings := omap first_face file_paths |}.

(** The stores that enrollment operations can produce: starting with no
    file or an empty roster, any number of calls of [upload_images], with
    any fields and any batch, and any change of what opening the file does
    in between. *)
Inductive reachable : Store.disk → Prop :=
| reach_none d : Store.file d = None → reachable d
| reach_empty d : Store.file d = Some (Store.Document []) → reachable d
| reach_upload file_paths self :
    reachable (json_file self) →
    reachable (json_file (upload_images file_paths self).2)
| reach_access d d' :
    reachable d → Store.file d' = Store.file d → reachable d'.

End Enrollment.

End AddEmployeeApp.


(** ** The recognition program, [recognize_faces_gui.py] *)

Module RecognizeFaceApp.

(** The reportlab flowables the report is made of (table styles left out). *)
Inductive flowable : Type :=
| Paragraph (text style : string)
| Table (data : list (list string))
| Spacer (width height : nat).

Record app : Type := {
  result_label : string;                   (* text of [self.result_label] *)
  json_file : Store.disk;                  (* the file named by [self.json_file] *)
  built : list (string * list flowable);   (* PDF files built so far, oldest first *)
  compared : nat   (* ghost: pairs (stored encoding, query encoding) whose
                      distance has been computed so far *)
}.

Definition config_text (text : string) (self : app) : app :=
  {| result_label := text; json_file := json_file self;
     built := built self; compared := compared self |}.

Definition write_pdf (pdf_file : string) (elements : list flowable) (self : app) : app :=
  {| result_label := result_label self; json_file := json_file self;
     built := built self ++ [(pdf_file, elements)]; compared := compared self |}.

Definition tick (n : nat) (self : app) : app :=
  {| result_label := result_label self; json_file := json_file self;
     built := built self; compared := compared self + n |}.

Definition load_employees (self : app) : roster :=
  Store.load_employees (json_file self).

(** [timestamp.replace('_', ' ')] *)
Fixpoint replace_underscores (s : string) : string :=
  match s with
  | EmptyString => EmptyString
  | String c s' =>
      String (if Ascii.eqb c "_" then " "%char else c) (replace_underscores s')
  end.

(** The default [tolerance] of [face_recognition.compare_faces]. *)
Definition tolerance : float := 0x1.3333333333333p-1%float.

(** Lines 107-112: the rows of the table of present employees and their
    number. *)
Definition present_step (recognized_ids : gset string)
    (st : list (list string) * nat) (employee : Employee.t) : list (list string) * nat :=
  let '(present_data, present_count) := st in
  if bool_decide (Employee.id employee ∈ recognized_ids) then
    (present_data ++ [[Employee.id employee; Employee.name employee]],
     present_count + 1)
  else (present_data, present_count).

Definition present_table (employees : roster) (recognized_ids : gset string)
  : list (list string) * nat :=
  foldl (present_step recognized_ids) ([["ID"; "Name"]], 0) employees.

(** Lines 134-139: the same for the absent employees. *)
Definition absent_step (recognized_ids : gset string)
    (st : list (list string) * nat) (employee : Employee.t) : list (list string) * nat :=
  let '(absent_data, absent_count) := st in
  if negb (bool_decide (Employee.id employee ∈ recognized_ids)) then
    (absent_data ++ [[Employee.id employee; Employee.name employee]],
     absent_count + 1)
  else (absent_data, absent_count).

Definition absent_table (employees : roster) (recognized_ids : gset string)
  : list (list string) * nat :=
  foldl (absent_step recognized_ids) ([["ID"; "Name"]], 0) employees.

(** *** Notions used to state the properties of the attendance tables *)

(** The table row of an identity. *)
Definition row (employee : Employee.t) : list string :=
  [Employee.id employee; Employee.name employee].

(** The specification's [resolve]: the identities whose id is in the
    recognized set, and the others, each in roster order. *)
Definition present (employees : roster) (recognized_ids : gset string) : roster :=
  filter (λ employee, Employee.id employee ∈ recognized_ids) employees.

Definition absent (employees : roster) (recognized_ids : gset string) : roster :=
  filter (λ employee, Employee.id employee ∉ recognized_ids) employees.

Section Recognition.

(** [face_recognition.load_image_file], [face_recognition.face_encodings]
    and [doc.build] of reportlab; and, for [face_recognition.face_distance],
    what numpy does with [known_encodings - face_to_compare]:
    [broadcast_error] gives the text of the exception it raises when the
    arrays do not fit each other (stored encodings or a query encoding of
    another length), [None] when it raises nothing, and [norm_diff] is then
    the norm it computes for the row of one stored encoding. *)
Variable image : Type.
Variable load_image_file : string → Py.result image.
Variable face_encodings : image → Py.result (list encoding).
Variable norm_diff : encoding → encoding → float.
Variable broadcast_error : list encoding → encoding → option string.
Variable doc_build : string → list flowable → Py.result unit.

(** [face_recognition.face_distance]: an empty array for an empty list,
    else [np.linalg.norm(face_encodings - face_to_compare, axis=1)], one
    distance per known encoding. *)
Definition face_distance (known_encodings : list encoding) (face_to_compare : encoding)
  : Py.result (list float) :=
  if (length known_encodings =? 0)%nat then Py.Ok []
  else
    match broadcast_error known_encodings face_to_compare with
    | Some e => Py.Raise e
    | None => Py.Ok ((λ known, norm_diff known face_to_compare) <$> known_encodings)
    end.

(** [face_recognition.compare_faces] with its default tolerance. *)
Definition compare_faces (known_encodings : list encoding) (face_to_check : encoding)
  : Py.result (list bool) :=
  match face_distance known_encodings face_to_check with
  | Py.Ok distances => Py.Ok ((λ d, PrimFloat.leb d tolerance) <$> distances)
  | Py.Raise e => Py.Raise e
  end.

(** Lines 65-69: the body of the inner loop. The state is the set
    [recognized_ids] and the application. An exception of [compare_faces]
    leaves the body before anything is changed. *)
Definition match_employee (unknown_encoding : encoding) (employee : Employee.t)
    (st : gset string * app) : Py.result unit * (gset string * app) :=
  let '(recognized_ids, self) := st in
  let known_encodings := Employee.encodings employee in
  match compare_faces known_encodings unknown_encoding with
  | Py.Raise e => (Py.Raise e, (recognized_ids, self))
  | Py.Ok matches =>
      let self := tick (length known_encodings) self in
      if bool_decide (true ∈ matches) then
        (Py.Ok (),
         ({[Employee.id employee]} ∪ recognized_ids,
          config_text ("Recognized: " +:+ Employee.name employee +:+ " (ID: "
                       +:+ Employee.id employee +:+ ")") self))
      else (Py.Ok (), (recognized_ids, self))
  end.

(** Lines 63-69: the two nested loops. *)
Definition match_faces (employees : roster) (unknown_encodings : list encoding)
    (st : gset string * app) : Py.result unit * (gset string * app) :=
  Py.for_each
    (λ unknown_encoding, Py.for_each (match_employee unknown_encoding) employees)
    unknown_encodings st.

(** [generate_attendance_report]; [timestamp] is the formatted
    [datetime.now()]. *)
Definition generate_attendance_report (employees : roster)
    (recognized_ids : gset string) (timestamp : string) (self : app) : app :=
  let pdf_file := "attendance_" +:+ timestamp +:+ ".pdf" in
  let elements :=
    [ Paragraph ("Attendance Report - " +:+ replace_underscores timestamp) "Title";
      Paragraph "Present Employees" "Heading2" ] in
  let '(present_data, present_count) := present_table employees recognized_ids in
  let elements :=
    if (present_count =? 0)%nat
    then elements ++ [Paragraph "No employees present" "Normal"]
    else elements ++ [Table present_data] in
  let elements := elements ++ [Spacer 1 20] in
  let elements := elements ++ [Paragraph "Absent Employees" "Heading2"] in
  let '(absent_data, absent_count) := absent_table employees recognized_ids in
  let elements :=
    if (absent_count =? 0)%nat
    then elements ++ [Paragraph "No employees absent" "Normal"]
    else elements ++ [Table absent_data] in
  Py.try_except
    (_ ← doc_build pdf_file elements;
     mret (config_text ("Attendance report saved as " +:+ pdf_file)
             (write_pdf pdf_file elements self)))
    (λ e, config_text ("Error generating PDF: " +:+ e) self).

(** [recognize_image]. [file_path] is what the file dialog returned. The
    first component of the result is the set bound to the local variable
    [recognized_ids] when the function returns ([None] when it returns
    before line 62). Each [Py.Raise] branch is the [except] clause of line
    74, entered with the state reached when the exception was raised. *)
Definition recognize_image (file_path timestamp : string) (self : app)
  : option (gset string) * app :=
  if Py.not_str file_path then (None, self) else
  let employees := load_employees self in
  if Py.not_list employees then
    (None, config_text "No employees registered" self)
  else
    match unknown_image ← load_image_file file_path;
          face_encodings unknown_image with
    | Py.Raise e => (None, config_text ("Error: " +:+ e) self)
    | Py.Ok unknown_encodings =>
        if (length unknown_encodings =? 0)%nat then
          (None, config_text "No faces detected" self)
        else
          match match_faces employees unknown_encodings (∅, self) with
          | (Py.Ok _, (recognized_ids, self)) =>
              (Some recognized_ids,
               generate_attendance_report employees recognized_ids timestamp self)
          | (Py.Raise e, (recognized_ids, self)) =>
              (Some recognized_ids, config_text ("Error: " +:+ e) self)
          end
    end.

(** *** Notions used to state the properties of matching *)

(** A stored encoding and a query encoding match: their distance is at
    most the tolerance. *)
Definition within_tolerance (known unknown : encoding) : Prop :=
  PrimFloat.leb (norm_diff known unknown) tolerance = true.

(** The specification's "recognized": some stored encoding of the identity
    matches some query encoding. *)
Definition matched (unknown_encodings : list encoding) (employee : Employee.t) : Prop :=
  ∃ known unknown,
    known ∈ Employee.encodings employee ∧ unknown ∈ unknown_encodings
    ∧ within_tolerance known unknown.

(** The stored encodings of the roster can be compared with the query
    encodings: no comparison of the loops raises. This is so when all
    encodings have the dimension of the extractor. *)
Definition comparable (employees : roster) (unknown_encodings : list encoding) : Prop :=
  ∀ employee unknown,
    employee ∈ employees → unknown ∈ unknown_encodings →
    Employee.encodings employee ≠ [] →
    broadcast_error (Employee.encodings employee) unknown = None.

(** numpy subtracts an array from arrays of its own length without an
    exception. *)
Definition subtracts_same_length : Prop :=
  ∀ known_encodings unknown,
    (∀ known, known ∈ known_encodings → length known = length unknown) →
    broadcast_error known_encodings unknown = None.

End Recognition.

(** The embeddings of the specification: all stored encodings and all query
    encodings have the dimension of the extractor. *)
Definition of_dimension (dimension : nat) (employees : roster)
    (unknown_encodings : list encoding) : Prop :=
  (∀ employee known, employee ∈ employees →
     known ∈ Employee.encodings employee → length known = dimension)
  ∧ (∀ unknown, unknown ∈ unknown_encodings → length unknown = dimension).

(** What a loop, or a part of one, does to the set and to the application,
    from the state [(recognized_ids, self)] to the result [r]: it adds only
    ids that satisfy [adds] and keeps those it has; it ends without an
    exception exactly when [fits] holds, and has then added every id that
    satisfies [adds] and computed [pairs] distances; it leaves the file and
    the built reports alone. *)
Definition loop_spec (adds : string → Prop) (fits : Prop) (pairs : nat)
    (recognized_ids : gset string) (self : app)
    (r : Py.result unit * (gset string * app)) : Prop :=
  (∀ i, i ∈ r.2.1 → i ∈ recognized_ids ∨ adds i)
  ∧ (∀ i, i ∈ recognized_ids → i ∈ r.2.1)
  ∧ (r.1 = Py.Ok () ↔ fits)
  ∧ (r.1 = Py.Ok () → ∀ i, adds i → i ∈ r.2.1)
  ∧ json_file r.2.2 = json_file self
  ∧ built r.2.2 = built self
  ∧ (r.1 = Py.Ok () → compared r.2.2 = compared self + pairs).

(** The number of stored encodings of a roster. *)
Definition stored (employees : roster) : nat :=
  sum_list ((λ employee, length (Employee.encodings employee)) <$> employees).

End RecognizeFaceApp.


(** ** What the programs show and build, described from outside *)

Module Described.

(** A string that does not start with whitespace. *)
Definition starts_clean (s : string) : Prop :=
  match s with
  | EmptyString => True
  | String c _ => Py.isspace c = false
  end.

(** An identity as [upload_images] writes it: the id passed [isdigit], the
    name is not empty and is stripped, and there is at least one encoding. *)
Definition enrolled_well (employee : Employee.t) : Prop :=
  Py.isdigit (Employee.id employee) = true
  ∧ Employee.name employee ≠ ""
  ∧ Py.strip (Employee.name employee) = Employee.name employee
  ∧ Employee.encodings employee ≠ [].

Definition all_enrolled_well (d : Store.disk) : Prop :=
  ∀ employees, Store.file d = Some (Store.Document employees) →
    Forall enrolled_well employees.

Section Enrollment.

Variable image : Type.
Variable load_image_file : string → Py.result image.
Variable face_encodings : image → Py.result (list encoding).

(** The message box that the loop over the batch shows for one image:
    none when a face is found. *)
Definition image_box (file_path : string) : option messagebox :=
  match load_image_file file_path ≫= face_encodings with
  | Py.Ok (_ :: _) => None
  | Py.Ok [] => Some (showwarning "Warning" ("No face detected in " +:+ file_path))
  | Py.Raise e =>
      Some (showerror "Error" ("Failed to process " +:+ file_path +:+ ": " +:+ e))
  end.

(** The box that ends an enrollment. *)
Definition success_box (file_paths : list string) (self : AddEmployeeApp.app)
  : messagebox :=
  showinfo "Success"
    ("Employee " +:+ Py.strip (AddEmployeeApp.name_entry self) +:+ " (ID: "
     +:+ Py.strip (AddEmployeeApp.id_entry self) +:+ ") added with "
     +:+ pretty (length (omap (AddEmployeeApp.first_face image load_image_file
                                 face_encodings) file_paths))
     +:+ " images").

End Enrollment.

Definition save_error_box (e : string) : messagebox :=
  showerror "Error" ("Failed to save employees: " +:+ e).

(** The name of the PDF file of a report. *)
Definition pdf_name (timestamp : string) : string :=
  "attendance_" +:+ timestamp +:+ ".pdf".

(** One half of the report: a table of the given identities under the header
    row, or a sentence when there is none. *)
Definition table_or (sentence : string) (employees : roster) : RecognizeFaceApp.flowable :=
  match employees with
  | [] => RecognizeFaceApp.Paragraph sentence "Normal"
  | _ => RecognizeFaceApp.Table (["ID"; "Name"] :: (RecognizeFaceApp.row <$> employees))
  end.

(** The six flowables of a report. *)
Definition report_elements (employees : roster) (recognized_ids : gset string)
    (timestamp : string) : list RecognizeFaceApp.flowable :=
  [ RecognizeFaceApp.Paragraph
      ("Attendance Report - " +:+ RecognizeFaceApp.replace_underscores timestamp)
      "Title";
    RecognizeFaceApp.Paragraph "Present Employees" "Heading2";
    table_or "No employees present" (RecognizeFaceApp.present employees recognized_ids);
    RecognizeFaceApp.Spacer 1 20;
    RecognizeFaceApp.Paragraph "Absent Employees" "Heading2";
    table_or "No employees absent" (RecognizeFaceApp.absent employees recognized_ids) ].

End Described.


(** ** A small world to run the programs in *)

Module Example.

(** An image file is given by the encodings of the faces in it. *)
Definition image : Type := list encoding.

Definition alice_face : encoding := [0.25; 0.5]%float.
Definition alice_again : encoding := [0.25; 0.75]%float.
Definition bob_face : encoding := [4; 4]%float.

Definition load_image_file (path : string) : Py.result image :=
  if String.eqb path "alice.jpg" then Py.Ok [alice_face; bob_face]
  else if String.eqb path "bob.jpg" then Py.Ok [bob_face]
  else if String.eqb path "query.jpg" then Py.Ok [alice_again]
  else if String.eqb path "wall.jpg" then Py.Ok []
  else Py.Raise "cannot identify image file".

Definition face_encodings (img : image) : Py.result (list encoding) := Py.Ok img.

Fixpoint squared_distance (a b : encoding) : float :=
  match a, b with
  | x :: a', y :: b' => ((x - y) * (x - y) + squared_distance a' b')%float
  | _, _ => 0%float
  end.

Definition norm_diff (a b : encoding) : float :=
  PrimFloat.sqrt (squared_distance a b).

(** In this world numpy refuses to subtract encodings of different
    lengths. *)
Definition broadcast_error (known_encodings : list encoding) (unknown : encoding)
  : option string :=
  if forallb (λ known, (length known =? length unknown)%nat) known_encodings
  then None
  else Some "operands could not be broadcast together".

Definition doc_build (pdf_file : string) (elements : list RecognizeFaceApp.flowable)
  : Py.result unit := Py.Ok ().

Definition alice : Employee.t :=
  {| Employee.id := "1"; Employee.name := "Alice"; Employee.encodings := [alice_face] |}.
Definition bob : Employee.t :=
  {| Employee.id := "2"; Employee.name := "Bob"; Employee.encodings := [bob_face] |}.

Definition no_file : Store.disk :=
  {| Store.file := None; Store.read_raises := None; Store.on_write := Store.Writes |}.

Definition two_employees : Store.disk :=
  {| Store.file := Some (Store.Document [alice; bob]);
     Store.read_raises := None; Store.on_write := Store.Writes |}.

(** The enrollment window with the fields filled in. *)
Definition enrolling (name id : string) (d : Store.disk) : AddEmployeeApp.app :=
  {| AddEmployeeApp.name_entry := name; AddEmployeeApp.id_entry := id;
     AddEmployeeApp.json_file := d; AddEmployeeApp.shown := [] |}.

(** The recognition window when it opens. *)
Definition recognizing (d : Store.disk) : RecognizeFaceApp.app :=
  {| RecognizeFaceApp.result_label := ""; RecognizeFaceApp.json_file := d;
     RecognizeFaceApp.built := []; RecognizeFaceApp.compared := 0 |}.

Definition upload_images :=
  AddEmployeeApp.upload_images image load_image_file face_encodings.

Definition recognize_image :=
  RecognizeFaceApp.recognize_image image load_image_file face_encodings
    norm_diff broadcast_error doc_build.

End Example.


(** More of the small world: files that cannot be written or read. *)

Module MoreExamples.
Import Example.

Definition denied : string := "[Errno 13] Permission denied: 'employees.json'".

Definition read_only : Store.disk :=
  {| Store.file := Some (Store.Document [alice; bob]);
     Store.read_raises := None; Store.on_write := Store.Open_raises denied |}.

Definition write_only : Store.disk :=
  {| Store.file := Some (Store.Document [alice; bob]);
     Store.read_raises := Some denied; Store.on_write := Store.Writes |}.

Definition carol : AddEmployeeApp.app := enrolling " Carol" "3 " two_employees.

Definition carol_batch : list string := ["alice.jpg"; "wall.jpg"; "torn.jpg"].

(** An identity whose stored encoding has another length than the faces
    of the images, and a file with it in front of Alice and Bob. *)
Definition dave : Employee.t :=
  {| Employee.id := "4"; Employee.name := "Dave";
     Employee.encodings := [[0.25; 0.5; 0.75]%float] |}.

Definition mixed_lengths : Store.disk :=
  {| Store.file := Some (Store.Document [dave; alice; bob]);
     Store.read_raises := None; Store.on_write := Store.Writes |}.

Definition alice_then_dave : Store.disk :=
  {| Store.file := Some (Store.Document [alice; dave; bob]);
     Store.read_raises := None; Store.on_write := Store.Writes |}.

End MoreExamples.


(** ** The document assistant, [Task 2/openai_doc_assistant.py] *)

Module DocumentSearchAssistant.

(** [a or b] for two optional strings: [a] unless it is [None] or empty. *)
Definition or_str (a b : option string) : option string :=
  match a with
  | Some (String _ _) => a
  | _ => b
  end.

(** [not x] for an optional string. *)
Definition not_opt_str (x : option string) : bool :=
  match x with
  | Some (String _ _) => false
  | _ => true
  end.

Definition starts_with_slash (s : string) : bool :=
  match s with
  | String c _ => Ascii.eqb c "/"
  | EmptyString => false
  end.

Fixpoint ends_with_slash (s : string) : bool :=
  match s with
  | EmptyString => false
  | String c EmptyString => Ascii.eqb c "/"
  | String _ s' => ends_with_slash s'
  end.

(** [os.path.join(a, b)] (POSIX). *)
Definition os_path_join (a b : string) : string :=
  if starts_with_slash b then b
  else if Py.not_str a || ends_with_slash a then a +:+ b
  else a +:+ "/" +:+ b.

Fixpoint has_slash (s : string) : bool :=
  match s with
  | EmptyString => false
  | String c s' => Ascii.eqb c "/" || has_slash s'
  end.

(** [os.path.basename(p)] (POSIX): what follows the last slash. *)
Fixpoint os_path_basename (p : string) : string :=
  match p with
  | EmptyString => EmptyString
  | String c p' =>
      if has_slash p' then os_path_basename p'
      else if Ascii.eqb c "/" then p' else p
  end.

(** A [dict] with [str] keys, in insertion order. *)
Definition dict : Type := list (string * string).

(** [d[k] = v]: a key that is present keeps its place. *)
Fixpoint dict_set (k v : string) (d : dict) : dict :=
  match d with
  | [] => [(k, v)]
  | (k', v') :: d' =>
      if String.eqb k' k then (k', v) :: d' else (k', v') :: dict_set k v d'
  end.

(** [d.get(k)] *)
Fixpoint dict_get (k : string) (d : dict) : option string :=
  match d with
  | [] => None
  | (k', v') :: d' => if String.eqb k' k then Some v' else dict_get k d'
  end.

Inductive level : Type := INFO | WARNING | ERROR.

(** The object and, in [log], the records sent to the module's logger.
    [service] is the state of the remote service behind [self.client]. *)
Record t (service : Type) : Type := {
  api_key : string;
  client : service;
  assistant_name : string;
  assistant_id : option string;
  thread_id : option string;
  uploaded_file_ids : list string;
  log : list (level * string)
}.
Global Arguments api_key {service} _.
Global Arguments client {service} _.
Global Arguments assistant_name {service} _.
Global Arguments assistant_id {service} _.
Global Arguments thread_id {service} _.
Global Arguments uploaded_file_ids {service} _.
Global Arguments log {service} _.

(** The argument of [process_questions]: a list, or one question that is
    not in a list. *)
Inductive questions_arg : Type :=
| One (question : string)
| Many (questions : list string).

Section Assistant.

Variable service : Type.

(** The environment: [os.getenv("OPENAI_API_KEY")], the constructor
    [OpenAI], [glob.glob], [open(path, "rb")], and the calls of the client
    that the modelled methods make. A call of the client returns its result
    and the state of the service after it. *)
Variable getenv_key : option string.
Variable OpenAI : string → service.
Variable glob : string → list string.
Variable open_rb : string → Py.result string.
Variable files_create : string → service → Py.result string * service.
Variable files_delete : string → service → Py.result unit * service.
Variable assistants_create :
  string → string → string → list string → service → Py.result string * service.
Variable threads_create : service → Py.result string * service.

(** The [try] block of [ask_question] with its [except] clause: it sends
    the question, starts a run, polls it against the clock and reads the
    answer; every exception and the timeout end in a returned text. It
    assigns no attribute of the object. Its arguments are the question, the
    timeout in seconds, the assistant and thread ids and the service; it
    gives the text returned, the records logged and the service
    afterwards. *)
Variable converse :
  string → nat → string → string → service
  → string * list (level * string) * service.

Definition logged (lvl : level) (message : string) (self : t service) : t service :=
  {| api_key := api_key self; client := client self;
     assistant_name := assistant_name self; assistant_id := assistant_id self;
     thread_id := thread_id self; uploaded_file_ids := uploaded_file_ids self;
     log := log self ++ [(lvl, message)] |}.

Definition with_client (c : service) (self : t service) : t service :=
  {| api_key := api_key self; client := c;
     assistant_name := assistant_name self; assistant_id := assistant_id self;
     thread_id := thread_id self; uploaded_file_ids := uploaded_file_ids self;
     log := log self |}.

Definition with_uploaded (file_ids : list string) (self : t service) : t service :=
  {| api_key := api_key self; client := client self;
     assistant_name := assistant_name self; assistant_id := assistant_id self;
     thread_id := thread_id self; uploaded_file_ids := file_ids;
     log := log self |}.

Definition with_assistant_id (id : string) (self : t service) : t service :=
  {| api_key := api_key self; client := client self;
     assistant_name := assistant_name self; assistant_id := Some id;
     thread_id := thread_id self; uploaded_file_ids := uploaded_file_ids self;
     log := log self |}.

Definition with_thread_id (id : string) (self : t service) : t service :=
  {| api_key := api_key self; client := client self;
     assistant_name := assistant_name self; assistant_id := assistant_id self;
     thread_id := Some id; uploaded_file_ids := uploaded_file_ids self;
     log := log self |}.

(** [__init__]; [records] is what was logged before the call. *)
Definition init (api_key_arg : option string) (name : string)
    (records : list (level * string)) : Py.result (t service) :=
  let key := or_str api_key_arg getenv_key in
  if not_opt_str key then
    Py.Raise "OpenAI API key is required. Set it in .env file or pass as parameter."
  else
    let key := default "" key in
    Py.Ok {| api_key := key; client := OpenAI key; assistant_name := name;
             assistant_id := None; thread_id := None; uploaded_file_ids := [];
             log := records
                    ++ [(INFO, "DocumentSearchAssistant initialized with name: "
                               +:+ name)] |}.

(** Lines 65-76: one turn of the loop of [upload_files]. *)
Definition upload_file (self : t service) (file_path : string) : t service :=
  match open_rb file_path with
  | Py.Raise e =>
      logged ERROR ("Error uploading file " +:+ file_path +:+ ": " +:+ e) self
  | Py.Ok file =>
      let filename := os_path_basename file_path in
      let '(response, c) := files_create file (client self) in
      let self := with_client c self in
      match response with
      | Py.Ok id =>
          logged INFO ("Successfully uploaded file: " +:+ filename
                       +:+ " (ID: " +:+ id +:+ ")")
            (with_uploaded (uploaded_file_ids self ++ [id]) self)
      | Py.Raise e =>
          logged ERROR ("Error uploading file " +:+ file_path +:+ ": " +:+ e) self
      end
  end.

(** [upload_files] *)
Definition upload_files (documents_dir file_pattern : string) (self : t service)
  : list string * t service :=
  let file_paths := glob (os_path_join documents_dir file_pattern) in
  if Py.not_list file_paths then
    ([], logged WARNING ("No files matching '" +:+ file_pattern
                         +:+ "' found in '" +:+ documents_dir +:+ "'") self)
  else
    let self :=
      logged INFO ("Found " +:+ pretty (length file_paths)
                   +:+ " files matching pattern '" +:+ file_pattern +:+ "'") self in
    let self := foldl upload_file self file_paths in
    let self :=
      logged INFO ("Total files uploaded: "
                   +:+ pretty (length (uploaded_file_ids self))) self in
    (uploaded_file_ids self, self).

Definition default_instructions : string :=
  "You are a document search assistant that answers questions based on the content "
  +:+ "of uploaded documents. Respond with detailed answers and cite specific sections "
  +:+ "from the documents when possible. If information cannot be found in the documents, "
  +:+ "clearly state that fact.".

(** [create_assistant]; [model] is given by the caller or is the default
    ["gpt-4-turbo"]. *)
Definition create_assistant (model : string) (instructions : option string)
    (self : t service) : Py.result string * t service :=
  let instructions :=
    if not_opt_str instructions then default_instructions
    else default "" instructions in
  let '(response, c) :=
    assistants_create (assistant_name self) instructions model
      (uploaded_file_ids self) (client self) in
  let self := with_client c self in
  match response with
  | Py.Ok id =>
      let self := with_assistant_id id self in
      (Py.Ok id,
       logged INFO ("Assistant created successfully with ID: " +:+ id) self)
  | Py.Raise e =>
      (Py.Raise e, logged ERROR ("Error creating assistant: " +:+ e) self)
  end.

(** [create_thread] *)
Definition create_thread (self : t service) : Py.result string * t service :=
  let '(response, c) := threads_create (client self) in
  let self := with_client c self in
  match response with
  | Py.Ok id =>
      let self := with_thread_id id self in
      (Py.Ok id, logged INFO ("Thread created successfully with ID: " +:+ id) self)
  | Py.Raise e =>
      (Py.Raise e, logged ERROR ("Error creating thread: " +:+ e) self)
  end.

(** [ask_question]: the two checks, then the [try] block. *)
Definition ask_question (question : string) (timeout : nat) (self : t service)
  : Py.result string * t service :=
  if not_opt_str (assistant_id self) then
    (Py.Raise "Assistant not created. Call create_assistant() first.", self)
  else if not_opt_str (thread_id self) then
    (Py.Raise "Thread not created. Call create_thread() first.", self)
  else
    let '(answer, records, c) :=
      converse question timeout (default "" (assistant_id self))
        (default "" (thread_id self)) (client self) in
    (Py.Ok answer,
     {| api_key := api_key self; client := c;
        assistant_name := assistant_name self; assistant_id := assistant_id self;
        thread_id := thread_id self; uploaded_file_ids := uploaded_file_ids self;
        log := log self ++ records |}).

(** Lines 218-221: the loop of [process_questions] from question number
    [i] on, [total] being [len(questions)]. [ask_question] is called with
    its default timeout; an exception of it leaves the loop and the
    function. *)
Fixpoint ask_each (total i : nat) (questions : list string) (results : dict)
    (self : t service) : Py.result dict * t service :=
  match questions with
  | [] => (Py.Ok results, self)
  | question :: questions' =>
      let self :=
        logged INFO ("Processing question " +:+ pretty i +:+ "/"
                     +:+ pretty total) self in
      match ask_question question 300 self with
      | (Py.Ok answer, self) =>
          ask_each total (S i) questions' (dict_set question answer results) self
      | (Py.Raise e, self) => (Py.Raise e, self)
      end
  end.

(** [process_questions] *)
Definition process_questions (questions : questions_arg) (self : t service)
  : Py.result dict * t service :=
  let questions :=
    match questions with
    | One question => [question]
    | Many questions => questions
    end in
  ask_each (length questions) 1 questions [] self.

(** Lines 234-240: one turn of the loop of [cleanup]; the state is the
    flag [success] and the object. *)
Definition delete_file (st : bool * t service) (file_id : string) : bool * t service :=
  let '(success, self) := st in
  let '(response, c) := files_delete file_id (client self) in
  let self := with_client c self in
  match response with
  | Py.Ok _ => (success, logged INFO ("Deleted file with ID: " +:+ file_id) self)
  | Py.Raise e =>
      (false, logged ERROR ("Error deleting file " +:+ file_id +:+ ": " +:+ e) self)
  end.

(** [cleanup] *)
Definition cleanup (self : t service) : bool * t service :=
  let '(success, self) := foldl delete_file (true, self) (uploaded_file_ids self) in
  (success, logged INFO "Cleanup completed" self).

End Assistant.

End DocumentSearchAssistant.


(** ** The script around the assistant: [main] *)

Module AssistantMain.
Import DocumentSearchAssistant.

(** What a run of [main] leaves behind: the records logged, the lines
    printed, the dictionary written to [results.json] if it was written, and
    the assistant object if it was constructed. *)
Record run (service : Type) : Type := {
  records : list (level * string);
  stdout : list string;
  results_json : option dict;
  assistant : option (t service)
}.
Global Arguments records {service} _.
Global Arguments stdout {service} _.
Global Arguments results_json {service} _.
Global Arguments assistant {service} _.

Definition documents_dir : string := "documents".

Definition questions : list string :=
  [ "What are the key points in the first document?";
    "Summarize the content about project management in the documents.";
    "What recommendations are made in the documents?" ].

Definition instructions : string :=
  "You are a helpful research assistant that answers questions based on the provided documents. "
  +:+ "Always cite the specific document and section when you provide information. "
  +:+ "If the information is not in the documents, clearly state that fact.".

(** ["-" * 80] *)
Definition rule : string := String.string_of_list_ascii (replicate 80 "-"%char).

(** The three [print] calls for one entry of the results. *)
Definition printed (entry : string * string) : list string :=
  [ String (Ascii.ascii_of_nat 10) ("Q: " +:+ entry.1); "A: " +:+ entry.2; rule ].

Section Main.

Variable service : Type.
Variable getenv_key : option string.
Variable OpenAI : string → service.
Variable glob : string → list string.
Variable open_rb : string → Py.result string.
Variable files_create : string → service → Py.result string * service.
Variable files_delete : string → service → Py.result unit * service.
Variable assistants_create :
  string → string → string → list string → service → Py.result string * service.
Variable threads_create : service → Py.result string * service.
Variable converse :
  string → nat → string → string → service
  → string * list (level * string) * service.

(** [open("results.json", "w")] and [json.dump(results, f, indent=2)]. *)
Variable write_results : dict → Py.result unit.

(** The [except] clause of [main]. *)
Definition failed (e : string) (out : list string) (written : option dict)
    (self : t service) : run service :=
  {| records := log self ++ [(ERROR, "Error in main execution: " +:+ e)];
     stdout := out; results_json := written; assistant := Some self |}.

(** [main]; [logged_before] is what the logger holds when it starts. *)
Definition main (logged_before : list (level * string)) : run service :=
  match init service getenv_key OpenAI None "Document Search Assistant"
          logged_before with
  | Py.Raise e =>
      {| records := logged_before ++ [(ERROR, "Error in main execution: " +:+ e)];
         stdout := []; results_json := None; assistant := None |}
  | Py.Ok self =>
      let self :=
        logged service INFO
          ("Uploading documents from directory: " +:+ documents_dir) self in
      let '(file_ids, self) :=
        upload_files service glob open_rb files_create documents_dir "*.docx" self in
      if Py.not_list file_ids then
        {| records := log self ++ [(ERROR, "No files were uploaded. Exiting.")];
           stdout := []; results_json := None; assistant := Some self |}
      else
        match create_assistant service assistants_create "gpt-4-turbo"
                (Some instructions) self with
        | (Py.Raise e, self) => failed e [] None self
        | (Py.Ok _, self) =>
            match create_thread service threads_create self with
            | (Py.Raise e, self) => failed e [] None self
            | (Py.Ok _, self) =>
                let self :=
                  logged service INFO
                    ("Processing " +:+ pretty (length questions) +:+ " questions")
                    self in
                match process_questions service converse (Many questions) self with
                | (Py.Raise e, self) => failed e [] None self
                | (Py.Ok results, self) =>
                    let out := results ≫= printed in
                    match write_results results with
                    | Py.Raise e => failed e out None self
                    | Py.Ok _ =>
                        let '(_, self) := cleanup service files_delete self in
                        {| records := log self; stdout := out;
                           results_json := Some results;
                           assistant := Some self |}
                    end
                end
            end
        end
  end.

End Main.

End AssistantMain.

(** ** What the assistant does with the service, described from outside *)

Module AssistantDescribed.
Import DocumentSearchAssistant.

Definition is_ok {A} (r : Py.result A) : bool :=
  match r with Py.Ok _ => true | Py.Raise _ => false end.

(** The values of the results that are not exceptions, in order. *)
Definition ok_values {A} (rs : list (Py.result A)) : list A :=
  omap (λ r, match r with Py.Ok a => Some a | Py.Raise _ => None end) rs.

(** The answer given to the last occurrence of a question. *)
Definition last_answer (question : string) (asked : list (string * string))
  : option string :=
  snd <$> last (filter (λ qa, qa.1 = question) asked).

(** The keys of a dictionary, in order. *)
Definition keys (d : dict) : list string := fst <$> d.

Section Service.

Variable service : Type.
Variable open_rb : string → Py.result string.
Variable files_create : string → service → Py.result string * service.
Variable files_delete : string → service → Py.result unit * service.
Variable converse :
  string → nat → string → string → service
  → string * list (level * string) * service.

(** Opening and uploading the given files one after the other: the result
    for each file, and the service afterwards. A file that cannot be opened
    is not sent to the service. *)
Fixpoint uploads (file_paths : list string) (c : service)
  : list (Py.result string) * service :=
  match file_paths with
  | [] => ([], c)
  | file_path :: file_paths' =>
      match open_rb file_path with
      | Py.Raise e =>
          let '(rs, c) := uploads file_paths' c in (Py.Raise e :: rs, c)
      | Py.Ok file =>
          let '(r, c) := files_create file c in
          let '(rs, c) := uploads file_paths' c in (r :: rs, c)
      end
  end.

(** Deleting the given files one after the other. *)
Fixpoint deletions (file_ids : list string) (c : service)
  : list (Py.result unit) * service :=
  match file_ids with
  | [] => ([], c)
  | file_id :: file_ids' =>
      let '(r, c) := files_delete file_id c in
      let '(rs, c) := deletions file_ids' c in (r :: rs, c)
  end.

(** Asking the given questions one after the other with the default
    timeout: each question with the text returned for it, and the service
    afterwards. *)
Fixpoint conversation (questions : list string) (assistant thread : string)
    (c : service) : list (string * string) * service :=
  match questions with
  | [] => ([], c)
  | question :: questions' =>
      let '(answer, _, c) := converse question 300 assistant thread c in
      let '(asked, c) := conversation questions' assistant thread c in
      ((question, answer) :: asked, c)
  end.

End Service.

End AssistantDescribed.

(** A small service to run the assistant on: its state is the list of the
    files it holds; it refuses empty files, and forgets how to delete the
    file called [file-2]. *)

Module AssistantExample.
Import DocumentSearchAssistant.

Definition service : Type := list string.

Definition glob (pattern : string) : list string :=
  if String.eqb pattern "documents/*.docx"
  then ["documents/a.docx"; "documents/empty.docx"; "documents/locked.docx";
        "documents/b.docx"]
  else [].

Definition open_rb (path : string) : Py.result string :=
  if String.eqb path "documents/a.docx" then Py.Ok "alpha"
  else if String.eqb path "documents/b.docx" then Py.Ok "beta"
  else if String.eqb path "documents/empty.docx" then Py.Ok ""
  else Py.Raise "[Errno 13] Permission denied".

Definition files_create (file : string) (c : service) : Py.result string * service :=
  if Py.not_str file then (Py.Raise "File is empty.", c)
  else let id := "file-" +:+ pretty (S (length c)) in (Py.Ok id, c ++ [id]).

Definition files_delete (file_id : string) (c : service) : Py.result unit * service :=
  if String.eqb file_id "file-2" then (Py.Raise "No such File object: file-2", c)
  else (Py.Ok (), filter (λ id, id ≠ file_id) c).

Definition assistants_create (name instructions model : string)
    (file_ids : list string) (c : service) : Py.result string * service :=
  (Py.Ok "asst-1", c).

Definition threads_create (c : service) : Py.result string * service :=
  (Py.Ok "thread-1", c).

Definition converse (question : string) (timeout : nat) (assistant thread : string)
    (c : service) : string * list (level * string) * service :=
  ("Answer " +:+ pretty (length c) +:+ " to: " +:+ question,
   [(INFO, "Message sent: " +:+ question)], c ++ [question]).

Definition fresh : t service :=
  {| api_key := "sk-test"; client := []; assistant_name := "Document Search Assistant";
     assistant_id := None; thread_id := None; uploaded_file_ids := []; log := [] |}.

Definition ready : t service :=
  {| api_key := "sk-test"; client := ["file-1"; "file-2"];
     assistant_name := "Document Search Assistant";
     assistant_id := Some "asst-1"; thread_id := Some "thread-1";
     uploaded_file_ids := ["file-1"; "file-2"]; log := [] |}.

End AssistantExample.


(** * Properties *)

(** ** The roster store *)

Module StoreFacts.
Import Store.

Lemma load_missing d : file d = None → load_employees d = [].
Proof. intros H. unfold load_employees, os_path_exists. by rewrite H. Qed.

Lemma load_unreadable d e : read_raises d = Some e → load_employees d = [].
Proof.
  intros H. unfold load_employees, os_path_exists, open_r. rewrite H.
  by destruct (file d).
Qed.

Lemma load_garbled d : file d = Some Garbled → load_employees d = [].
Proof.
  intros H. unfold load_employees, os_path_exists, open_r. rewrite H.
  by destruct (read_raises d).
Qed.

Lemma load_document d employees :
  file d = Some (Document employees) → read_raises d = None →
  load_employees d = employees.
Proof.
  intros H1 H2. unfold load_employees, os_path_exists, open_r.
  by rewrite H1, H2.
Qed.

(** What is loaded is on the disk, or is the empty roster. *)
Lemma load_cases d :
  load_employees d = [] ∨ file d = Some (Document (load_employees d)).
Proof.
  destruct (file d) as [[|r]|] eqn:Hf.
  - left. by apply load_garbled.
  - destruct (read_raises d) as [e|] eqn:Hr.
    + left. by eapply load_unreadable.
    + right. by rewrite (load_document d r).
  - left. by apply load_missing.
Qed.

(** On the files that the programs write, the two models of
    [load_employees] agree. *)
Lemma load_employees_of_disk d :
  JsonStore.load_employees (JsonStore.of_disk d)
  = Json.of_roster (load_employees d).
Proof.
  unfold JsonStore.load_employees, JsonStore.os_path_exists, JsonStore.open_r,
    JsonStore.of_disk, load_employees, os_path_exists, open_r.
  cbn [JsonStore.file JsonStore.read_raises].
  destruct (file d) as [[|employees]|], (read_raises d) as [e|]; done.
Qed.

(** C6, amended: [load_employees] never raises. It returns the empty list
    when the file does not exist, when opening it raises, and when its text
    is not JSON; otherwise it returns what [json.load] returns, whatever
    that is: the persisted roster for a file written by [save_employees],
    but also a value that is no roster, unchecked. On the files written
    by the programs this is the [load_employees] of [Store], which both
    programs have. *)
Theorem load_employees_returns_what_parses (d : JsonStore.disk) :
  (JsonStore.file d = None → JsonStore.load_employees d = Json.Array [])
  ∧ (∀ e, JsonStore.read_raises d = Some e →
       JsonStore.load_employees d = Json.Array [])
  ∧ (JsonStore.file d = Some JsonStore.Garbled →
     JsonStore.load_employees d = Json.Array [])
  ∧ (∀ v, JsonStore.file d = Some (JsonStore.Parses v) →
       JsonStore.read_raises d = None → JsonStore.load_employees d = v)
  ∧ (∀ employees,
       JsonStore.file d = Some (JsonStore.Parses (Json.of_roster employees)) →
       JsonStore.read_raises d = None →
       JsonStore.load_employees d = Json.of_roster employees)
  ∧ (∀ d0, d = JsonStore.of_disk d0 →
       JsonStore.load_employees d = Json.of_roster (load_employees d0)
       ∧ (∀ employees, file d0 = Some (Document employees) →
            read_raises d0 = None → load_employees d0 = employees)
       ∧ (file d0 = None ∨ file d0 = Some Garbled ∨ read_raises d0 ≠ None →
          load_employees d0 = [])
       ∧ (∀ a, AddEmployeeApp.json_file a = d0 →
            AddEmployeeApp.load_employees a = load_employees d0)
       ∧ (∀ a, RecognizeFaceApp.json_file a = d0 →
            RecognizeFaceApp.load_employees a = load_employees d0)).
Proof.
  unfold JsonStore.load_employees, JsonStore.os_path_exists, JsonStore.open_r.
  split_and!.
  - by intros ->.
  - intros e ->. by destruct (JsonStore.file d).
  - intros ->. by destruct (JsonStore.read_raises d).
  - by intros v -> ->.
  - by intros employees -> ->.
  - intros d0 ->. split_and!.
    + apply load_employees_of_disk.
    + intros. by apply load_document.
    + intros [?|[?|Hr]]; [by apply load_missing|by apply load_garbled|].
      destruct (read_raises d0) as [e|] eqn:He; [|done].
      by apply (load_unreadable d0 e).
    + by intros a <-.
    + by intros a <-.
Qed.

End StoreFacts.


(** ** Enrollment *)

Module EnrollmentFacts.
Import AddEmployeeApp.

Lemma not_str_true s : Py.not_str s = true ↔ s = "".
Proof. destruct s; simpl; split; congruence. Qed.

Lemma not_str_false s : Py.not_str s = false ↔ s ≠ "".
Proof. destruct s; simpl; split; congruence. Qed.

Lemma not_list_true {A} (l : list A) : Py.not_list l = true ↔ l = [].
Proof. destruct l; simpl; split; congruence. Qed.

Lemma not_list_false {A} (l : list A) : Py.not_list l = false ↔ l ≠ [].
Proof. destruct l; simpl; split; congruence. Qed.

(** [any(emp["id"] == employee_id for emp in employees)] *)
Lemma any_id_eq (employees : roster) (employee_id : string) :
  existsb (λ emp, String.eqb (Employee.id emp) employee_id) employees = true
  ↔ employee_id ∈ ids employees.
Proof.
  unfold ids. induction employees as [|emp employees IH]; simpl.
  - split; [congruence | by intros ?%elem_of_nil].
  - rewrite orb_true_iff, IH, elem_of_cons, String.eqb_eq. intuition congruence.
Qed.

Lemma show_json_file m self : json_file (show m self) = json_file self.
Proof. done. Qed.

Lemma show_shown m self : shown (show m self) = shown self ++ [m].
Proof. done. Qed.

Lemma save_employees_json_file employees self :
  json_file (save_employees employees self)
  = (Store.write employees (json_file self)).2.
Proof.
  unfold save_employees. destruct (Store.write _ _) as [[|e] d]; done.
Qed.

Section Facts.

Variable image : Type.
Variable load_image_file : string → Py.result image.
Variable face_encodings : image → Py.result (list encoding).

Local Abbreviation process_image := (process_image image load_image_file face_encodings).
Local Abbreviation process_images := (process_images image load_image_file face_encodings).
Local Abbreviation upload_images := (upload_images image load_image_file face_encodings).
Local Abbreviation first_face := (first_face image load_image_file face_encodings).
Local Abbreviation new_employee := (new_employee image load_image_file face_encodings).
Local Abbreviation reachable := (reachable image load_image_file face_encodings).

(** One turn of the loop adds what [first_face] says and touches neither
    the fields nor the file. *)
Lemma process_image_spec encodings self file_path :
  (process_image (encodings, self) file_path).1
    = encodings ++ option_list (first_face file_path)
  ∧ json_file (process_image (encodings, self) file_path).2 = json_file self
  ∧ name_entry (process_image (encodings, self) file_path).2 = name_entry self
  ∧ id_entry (process_image (encodings, self) file_path).2 = id_entry self.
Proof.
  unfold AddEmployeeApp.process_image, AddEmployeeApp.first_face.
  destruct (load_image_file file_path) as [img|e]; simpl.
  - destruct (face_encodings img) as [[|enc0 enc]|e]; simpl;
      rewrite ?app_nil_r; done.
  - by rewrite app_nil_r.
Qed.

Lemma foldl_process_image file_paths : ∀ encodings self,
  (foldl process_image (encodings, self) file_paths).1
    = encodings ++ omap first_face file_paths
  ∧ json_file (foldl process_image (encodings, self) file_paths).2 = json_file self
  ∧ name_entry (foldl process_image (encodings, self) file_paths).2 = name_entry self
  ∧ id_entry (foldl process_image (encodings, self) file_paths).2 = id_entry self.
Proof.
  induction file_paths as [|p ps IH]; intros encodings self; cbn [foldl].
  - by rewrite app_nil_r.
  - destruct (process_image_spec encodings self p) as (H1 & H2 & H3 & H4).
    destruct (process_image (encodings, self) p) as [encodings' self'].
    cbn [fst snd] in *. subst encodings'.
    destruct (IH (encodings ++ option_list (first_face p)) self')
      as (I1 & I2 & I3 & I4).
    rewrite I1, I2, I3, I4, H2, H3, H4, <- app_assoc.
    repeat split. f_equal. change (omap first_face (p :: ps))
      with (match first_face p with
            | Some enc0 => enc0 :: omap first_face ps
            | None => omap first_face ps
            end).
    by destruct (first_face p).
Qed.

Lemma process_images_spec file_paths self :
  (process_images file_paths self).1 = omap first_face file_paths
  ∧ json_file (process_images file_paths self).2 = json_file self.
Proof.
  unfold AddEmployeeApp.process_images.
  destruct (foldl_process_image file_paths [] self) as (H1 & H2 & _). done.
Qed.

(** The four exits of [upload_images] that reject, and the one that
    enrolls. *)
Lemma upload_images_cancel self : upload_images [] self = (None, self).
Proof. done. Qed.

Lemma upload_images_missing_field file_paths self :
  file_paths ≠ [] →
  Py.strip (name_entry self) = "" ∨ Py.strip (id_entry self) = "" →
  upload_images file_paths self
  = (None, show (showerror "Error" "Please enter both name and employee ID") self).
Proof.
  intros Hp%not_list_false H. unfold AddEmployeeApp.upload_images. rewrite Hp.
  assert (Py.not_str (Py.strip (name_entry self))
          || Py.not_str (Py.strip (id_entry self)) = true) as ->; [|done].
  apply orb_true_iff. by rewrite !not_str_true.
Qed.

Lemma upload_images_not_number file_paths self :
  file_paths ≠ [] →
  Py.strip (name_entry self) ≠ "" → Py.strip (id_entry self) ≠ "" →
  Py.isdigit (Py.strip (id_entry self)) = false →
  upload_images file_paths self
  = (None, show (showerror "Error" "Employee ID must be a number") self).
Proof.
  intros Hp%not_list_false Hn%not_str_false Hi%not_str_false Hd.
  unfold AddEmployeeApp.upload_images. by rewrite Hp, Hn, Hi, Hd.
Qed.

Lemma upload_images_duplicate file_paths self :
  file_paths ≠ [] → well_formed self → duplicate self →
  upload_images file_paths self
  = (Some (load_employees self),
     show (showerror "Error" "Employee ID already exists") self).
Proof.
  intros Hp%not_list_false (Hn%not_str_false & Hi%not_str_false & Hd) Hdup.
  unfold AddEmployeeApp.upload_images. rewrite Hp, Hn, Hi, Hd. simpl.
  apply any_id_eq in Hdup. by rewrite Hdup.
Qed.

Lemma upload_images_no_face file_paths self :
  file_paths ≠ [] → well_formed self → ¬ duplicate self →
  omap first_face file_paths = [] →
  upload_images file_paths self
  = (Some (load_employees self),
     show (showerror "Error" "No valid faces detected in any image")
          (process_images file_paths self).2).
Proof.
  intros Hp%not_list_false (Hn%not_str_false & Hi%not_str_false & Hd) Hdup He.
  unfold AddEmployeeApp.upload_images. rewrite Hp, Hn, Hi, Hd. simpl.
  destruct (existsb _ _) eqn:Hex; [by apply any_id_eq in Hex|].
  destruct (process_images_spec file_paths self) as [H1 _].
  destruct (process_images file_paths self) as [encodings self'].
  simpl in *. by rewrite H1, He.
Qed.

Lemma upload_images_enrolls file_paths self :
  file_paths ≠ [] → well_formed self → ¬ duplicate self →
  omap first_face file_paths ≠ [] →
  (upload_images file_paths self).1
    = Some (load_employees self ++ [new_employee file_paths self])
  ∧ json_file (upload_images file_paths self).2
    = (Store.write (load_employees self ++ [new_employee file_paths self])
         (json_file self)).2.
Proof.
  intros Hp%not_list_false (Hn%not_str_false & Hi%not_str_false & Hd) Hdup He.
  unfold AddEmployeeApp.upload_images. rewrite Hp, Hn, Hi, Hd. simpl.
  destruct (existsb _ _) eqn:Hex; [by apply any_id_eq in Hex|].
  destruct (process_images_spec file_paths self) as [H1 H2].
  destruct (process_images file_paths self) as [encodings self'].
  simpl in *. subst encodings. apply not_list_false in He. rewrite He. simpl.
  rewrite save_employees_json_file, H2. done.
Qed.

Local Ltac rejected_by exit :=
  rewrite exit by auto;
  split; [by eexists|]; split; [done|]; (by left) || (by right).

(** Every call takes one of the five exits. *)
Lemma upload_images_exits file_paths self :
  upload_images file_paths self = (None, self)
  ∨ rejected (upload_images file_paths self) self
  ∨ ((process_images file_paths self).1 = []
     ∧ upload_images file_paths self
       = (Some (load_employees self),
          show (showerror "Error" "No valid faces detected in any image")
               (process_images file_paths self).2))
  ∨ (file_paths ≠ [] ∧ well_formed self ∧ ¬ duplicate self
     ∧ (process_images file_paths self).1 ≠ []
     ∧ (upload_images file_paths self).1
       = Some (load_employees self ++ [new_employee file_paths self])
     ∧ json_file (upload_images file_paths self).2
       = (Store.write (load_employees self ++ [new_employee file_paths self])
            (json_file self)).2).
Proof.
  destruct file_paths as [|p ps]; [by left|]. right.
  set (file_paths := p :: ps). assert (file_paths ≠ []) as Hp by done.
  destruct (decide (Py.strip (name_entry self) = "")) as [Hn|Hn];
    [left; rejected_by upload_images_missing_field|].
  destruct (decide (Py.strip (id_entry self) = "")) as [Hi|Hi];
    [left; rejected_by upload_images_missing_field|].
  destruct (Py.isdigit (Py.strip (id_entry self))) eqn:Hd;
    [|left; rejected_by upload_images_not_number].
  assert (well_formed self) as Hwf by done.
  destruct (decide (duplicate self)) as [Hdup|Hdup];
    [left; rejected_by upload_images_duplicate|].
  right. destruct (process_images_spec file_paths self) as [H1 H2].
  destruct (decide (omap first_face file_paths = [])) as [He|He].
  - left. split; [by rewrite H1|]. by apply upload_images_no_face.
  - right. rewrite H1. repeat split; try done;
      by apply upload_images_enrolls.
Qed.

Lemma unique_on_disk_load d : unique_on_disk d → NoDup (ids (Store.load_employees d)).
Proof.
  intros H. destruct (StoreFacts.load_cases d) as [->|Hf]; [constructor|].
  by apply H.
Qed.

Lemma unique_on_disk_write d employees :
  unique_on_disk d → NoDup (ids employees) →
  unique_on_disk (Store.write employees d).2.
Proof.
  intros Hd He. unfold Store.write. destruct (Store.on_write d); simpl; [|done|].
  - intros r [= <-]. done.
  - intros r [=].
Qed.

Lemma reachable_unique_on_disk d : reachable d → unique_on_disk d.
Proof.
  induction 1 as [d Hf|d Hf|file_paths self _ IH|d d' _ IH Hf].
  - intros r. rewrite Hf. congruence.
  - intros r. rewrite Hf. intros [= <-]. constructor.
  - destruct (upload_images_exits file_paths self)
      as [->|[(_ & -> & _)|[[_ ->]|(_ & _ & Hdup & _ & _ & ->)]]]; try done.
    + simpl. by destruct (process_images_spec file_paths self) as [_ ->].
    + apply unique_on_disk_write; [done|].
      unfold ids. rewrite fmap_app. apply NoDup_app. split.
      * by apply unique_on_disk_load.
      * split; [|apply NoDup_singleton].
        intros i Hi ->%list_elem_of_singleton. by apply Hdup.
  - intros r. rewrite Hf. apply IH.
Qed.

(** C3: every store reachable by enrollment holds a roster without a
    repeated id, and so does every roster loaded from it; a call with a
    batch whose stripped id is already in the loaded roster, or whose
    stripped name or id is empty, or whose stripped id is not all digits, is
    rejected: one error box, the file as it was, the roster in memory (if
    loaded) the loaded one; for a well-formed duplicate the box says that
    the id exists; and with such fields no call, whatever the batch, changes
    the file or the roster in memory. *)
Theorem enrollment_keeps_ids_unique :
  (∀ d, reachable d →
     unique_on_disk d ∧ NoDup (ids (Store.load_employees d)))
  ∧ (∀ file_paths self, file_paths ≠ [] →
       duplicate self ∨ Py.strip (name_entry self) = ""
       ∨ Py.strip (id_entry self) = ""
       ∨ Py.isdigit (Py.strip (id_entry self)) = false →
       rejected (upload_images file_paths self) self)
  ∧ (∀ file_paths self, file_paths ≠ [] → well_formed self → duplicate self →
       upload_images file_paths self
       = (Some (load_employees self),
          show (showerror "Error" "Employee ID already exists") self))
  ∧ (∀ file_paths self,
       duplicate self ∨ Py.strip (name_entry self) = ""
       ∨ Py.strip (id_entry self) = ""
       ∨ Py.isdigit (Py.strip (id_entry self)) = false →
       json_file (upload_images file_paths self).2 = json_file self
       ∧ ((upload_images file_paths self).1 = None
          ∨ (upload_images file_paths self).1 = Some (load_employees self))).
Proof.
  assert (∀ file_paths self, file_paths ≠ [] →
            duplicate self ∨ Py.strip (name_entry self) = ""
            ∨ Py.strip (id_entry self) = ""
            ∨ Py.isdigit (Py.strip (id_entry self)) = false →
            rejected (upload_images file_paths self) self) as Hrejected;
    [|split_and!; [|done| |]].
  - intros file_paths self Hp Hbad.
    destruct (decide (Py.strip (name_entry self) = "")) as [Hn|Hn];
      [rejected_by upload_images_missing_field|].
    destruct (decide (Py.strip (id_entry self) = "")) as [Hi|Hi];
      [rejected_by upload_images_missing_field|].
    destruct (Py.isdigit (Py.strip (id_entry self))) eqn:Hd;
      [|rejected_by upload_images_not_number].
    destruct Hbad as [Hdup|[?|[?|?]]]; try congruence.
    assert (well_formed self) by done.
    rejected_by upload_images_duplicate.
  - intros d Hd%reachable_unique_on_disk.
    split; [done|by apply unique_on_disk_load].
  - intros. by apply upload_images_duplicate.
  - intros [|p ps] self Hbad; [by split; [|left]|].
    by destruct (Hrejected (p :: ps) self) as (_ & ? & ?).
Qed.

(** C4: when the loop over the batch collects no encoding, the file is as
    it was and no identity is added, and a call that passed the checks shows
    the error about no valid face; the file changes only in a call that
    passed every check and collected at least one encoding, and then by one
    write of the whole loaded roster with the new identity appended; the
    loop over the images itself never touches the file. *)
Theorem enrollment_is_atomic file_paths self :
  ((process_images file_paths self).1 = [] →
     json_file (upload_images file_paths self).2 = json_file self
     ∧ ((upload_images file_paths self).1 = None
        ∨ (upload_images file_paths self).1 = Some (load_employees self)))
  ∧ (file_paths ≠ [] → well_formed self → ¬ duplicate self →
     (process_images file_paths self).1 = [] →
     upload_images file_paths self
     = (Some (load_employees self),
        show (showerror "Error" "No valid faces detected in any image")
             (process_images file_paths self).2))
  ∧ (json_file (upload_images file_paths self).2 ≠ json_file self →
     file_paths ≠ [] ∧ well_formed self ∧ ¬ duplicate self
     ∧ (process_images file_paths self).1 ≠ []
     ∧ (upload_images file_paths self).1
       = Some (load_employees self ++ [new_employee file_paths self])
     ∧ json_file (upload_images file_paths self).2
       = (Store.write (load_employees self ++ [new_employee file_paths self])
            (json_file self)).2)
  ∧ (∀ encodings,
       json_file (foldl process_image (encodings, self) file_paths).2
       = json_file self).
Proof.
  destruct (process_images_spec file_paths self) as [H1 H2].
  split; [|split; [|split]].
  - intros He.
    destruct (upload_images_exits file_paths self)
      as [->|[(_ & ? & ?)|[[_ ->]|(_ & _ & _ & ? & _)]]]; simpl; auto; done.
  - intros Hp Hwf Hdup He. rewrite H1 in He. by apply upload_images_no_face.
  - intros Hne.
    destruct (upload_images_exits file_paths self)
      as [Hc|[(_ & ? & _)|[[_ Hc]|?]]]; try done;
      rewrite Hc in Hne; simpl in Hne; done.
  - intros encodings. by destruct (foldl_process_image file_paths encodings self)
      as (_ & ? & _).
Qed.

(** C7: the loop collects, in the order of the batch, the first encoding of
    every image in which extraction finds at least one, and nothing for the
    other images; an enrollment that passes the checks with at least one
    such image appends an identity holding exactly these encodings, at
    least one, and a store that can be written then holds it; whenever the
    roster in memory differs from the loaded one, it is the loaded one with
    that identity appended. *)
Theorem enrollment_stores_first_encodings file_paths self :
  (process_images file_paths self).1 = omap first_face file_paths
  ∧ (∀ p img enc0 rest,
       load_image_file p = Py.Ok img → face_encodings img = Py.Ok (enc0 :: rest) →
       first_face p = Some enc0)
  ∧ (∀ p, (∀ enc0 rest, load_image_file p ≫= face_encodings ≠ Py.Ok (enc0 :: rest)) →
       first_face p = None)
  ∧ (file_paths ≠ [] → well_formed self → ¬ duplicate self →
     omap first_face file_paths ≠ [] →
     (upload_images file_paths self).1
       = Some (load_employees self ++ [new_employee file_paths self])
     ∧ Employee.encodings (new_employee file_paths self) = omap first_face file_paths
     ∧ 1 ≤ length (Employee.encodings (new_employee file_paths self))
     ∧ (Store.on_write (json_file self) = Store.Writes →
        Store.file (json_file (upload_images file_paths self).2)
        = Some (Store.Document
                  (load_employees self ++ [new_employee file_paths self]))))
  ∧ (∀ employees, (upload_images file_paths self).1 = Some employees →
       employees = load_employees self
       ∨ (employees = load_employees self ++ [new_employee file_paths self]
          ∧ 1 ≤ length (Employee.encodings (new_employee file_paths self)))).
Proof.
  destruct (process_images_spec file_paths self) as [H1 H2].
  split; [done|]. split; [|split; [|split]].
  - intros p img enc0 rest Hl Hf. unfold AddEmployeeApp.first_face.
    by rewrite Hl; simpl; rewrite Hf.
  - intros p Hno. unfold AddEmployeeApp.first_face.
    destruct (load_image_file p ≫= face_encodings) as [[|enc0 rest]|e] eqn:E;
      [done| |done].
    by destruct (Hno enc0 rest).
  - intros Hp Hwf Hdup He.
    destruct (upload_images_enrolls file_paths self) as [E1 E2]; try done.
    split; [done|]. split; [done|]. split.
    + simpl. destruct (omap first_face file_paths); [done|simpl; lia].
    + intros Hw. rewrite E2. unfold Store.write. by rewrite Hw.
  - intros employees He.
    destruct (upload_images_exits file_paths self)
      as [Hc|[(_ & _ & [Hc|Hc])|[[_ Hc]|(_ & _ & _ & Hn & Hc & _)]]];
      rewrite Hc in He; simpl in He; try congruence.
    + left. congruence.
    + left. congruence.
    + right. split; [congruence|]. rewrite H1 in Hn. simpl.
      destruct (omap first_face file_paths); [done|simpl; lia].
Qed.

(** C9 (as amended): a call with an empty batch returns at once: the roster
    is not loaded, no image is read, the file and the fields are as they
    were, and no message box is shown. *)
Theorem empty_batch_returns_silently self :
  upload_images [] self = (None, self)
  ∧ shown (upload_images [] self).2 = shown self
  ∧ json_file (upload_images [] self).2 = json_file self.
Proof. done. Qed.

End Facts.

End EnrollmentFacts.


(** ** The attendance tables *)

Module AttendanceFacts.
Import RecognizeFaceApp.

Section Tables.

Variable recognized_ids : gset string.

Lemma foldl_present_step employees : ∀ data count,
  foldl (present_step recognized_ids) (data, count) employees
  = (data ++ (row <$> present employees recognized_ids),
     count + length (present employees recognized_ids)).
Proof.
  unfold present.
  induction employees as [|e employees IH]; intros data count; cbn [foldl].
  - by rewrite app_nil_r, Nat.add_0_r.
  - unfold present_step at 2. rewrite filter_cons. case_bool_decide as Hin.
    + rewrite decide_True by done. rewrite IH, fmap_cons, <- app_assoc.
      simpl. f_equal. lia.
    + rewrite decide_False by done. apply IH.
Qed.

Lemma foldl_absent_step employees : ∀ data count,
  foldl (absent_step recognized_ids) (data, count) employees
  = (data ++ (row <$> absent employees recognized_ids),
     count + length (absent employees recognized_ids)).
Proof.
  unfold absent.
  induction employees as [|e employees IH]; intros data count; cbn [foldl].
  - by rewrite app_nil_r, Nat.add_0_r.
  - unfold absent_step at 2. rewrite filter_cons. case_bool_decide as Hin; simpl.
    + rewrite decide_False by auto. apply IH.
    + rewrite decide_True by done. rewrite IH, fmap_cons, <- app_assoc.
      simpl. f_equal. lia.
Qed.

Lemma present_absent_length employees :
  length (present employees recognized_ids)
  + length (absent employees recognized_ids) = length employees.
Proof.
  unfold present, absent. induction employees as [|e employees IH]; [done|].
  rewrite !filter_cons.
  destruct (decide (Employee.id e ∈ recognized_ids)).
  - rewrite decide_False by auto. simpl. lia.
  - rewrite decide_True by auto. simpl. lia.
Qed.

Lemma present_absent_permutation employees :
  present employees recognized_ids ++ absent employees recognized_ids ≡ₚ employees.
Proof.
  unfold present, absent. induction employees as [|e employees IH]; [done|].
  rewrite !filter_cons.
  destruct (decide (Employee.id e ∈ recognized_ids)).
  - rewrite decide_False by auto. simpl. by f_equiv.
  - rewrite decide_True by auto. rewrite <- Permutation_middle. by f_equiv.
Qed.

End Tables.

Lemma present_table_spec employees recognized_ids :
  present_table employees recognized_ids
  = (["ID"; "Name"] :: (row <$> present employees recognized_ids),
     length (present employees recognized_ids)).
Proof. unfold present_table. by rewrite foldl_present_step. Qed.

Lemma absent_table_spec employees recognized_ids :
  absent_table employees recognized_ids
  = (["ID"; "Name"] :: (row <$> absent employees recognized_ids),
     length (absent employees recognized_ids)).
Proof. unfold absent_table. by rewrite foldl_absent_step. Qed.

(** Only the ids of the roster are ever looked up in the set. *)
Lemma present_absent_ext employees (S1 S2 : gset string) :
  (∀ e, e ∈ employees → (Employee.id e ∈ S1 ↔ Employee.id e ∈ S2)) →
  present employees S1 = present employees S2
  ∧ absent employees S1 = absent employees S2.
Proof.
  unfold present, absent. induction employees as [|e employees IH]; [done|].
  intros H. destruct IH as [IH1 IH2].
  { intros e' He'. apply H. by right. }
  rewrite !filter_cons, IH1, IH2.
  pose proof (H e (list_elem_of_here _ _)) as He.
  destruct (decide (Employee.id e ∈ S1)) as [H1|H1].
  - rewrite (decide_True (P := Employee.id e ∈ S2)) by tauto.
    rewrite !decide_False by tauto. done.
  - rewrite (decide_False (P := Employee.id e ∈ S2)) by tauto.
    rewrite !decide_True by tauto. done.
Qed.

Lemma row_inj e1 e2 : row e1 = row e2 → Employee.id e1 = Employee.id e2.
Proof. unfold row. congruence. Qed.

(** C1: the two loops of the report build, after the header row, the rows
    of the identities whose id is in the recognized set and the rows of
    the others, each in roster order; the two counts add up to the size of
    the roster; the two sequences together are the roster, every identity
    being in exactly one of them; and ids of the set that are not in the
    roster change nothing. *)
Theorem attendance_partition (employees : roster) (recognized_ids : gset string) :
  present_table employees recognized_ids
  = (["ID"; "Name"] :: (row <$> present employees recognized_ids),
     length (present employees recognized_ids))
  ∧ absent_table employees recognized_ids
    = (["ID"; "Name"] :: (row <$> absent employees recognized_ids),
       length (absent employees recognized_ids))
  ∧ present employees recognized_ids `sublist_of` employees
  ∧ absent employees recognized_ids `sublist_of` employees
  ∧ (∀ e, e ∈ present employees recognized_ids
          ↔ e ∈ employees ∧ Employee.id e ∈ recognized_ids)
  ∧ (∀ e, e ∈ absent employees recognized_ids
          ↔ e ∈ employees ∧ Employee.id e ∉ recognized_ids)
  ∧ (present_table employees recognized_ids).2
    + (absent_table employees recognized_ids).2 = length employees
  ∧ present employees recognized_ids ++ absent employees recognized_ids
    ≡ₚ employees
  ∧ (∀ e, e ∈ employees →
       (e ∈ present employees recognized_ids
        ∧ (e ∉ absent employees recognized_ids)
        ∧ row e ∉ (row <$> absent employees recognized_ids))
       ∨ (e ∈ absent employees recognized_ids
          ∧ (e ∉ present employees recognized_ids)
          ∧ row e ∉ (row <$> present employees recognized_ids)))
  ∧ present_table employees recognized_ids
    = present_table employees (recognized_ids ∩ list_to_set (ids employees))
  ∧ absent_table employees recognized_ids
    = absent_table employees (recognized_ids ∩ list_to_set (ids employees)).
Proof.
  assert (∀ e, e ∈ present employees recognized_ids
               ↔ e ∈ employees ∧ Employee.id e ∈ recognized_ids) as Hp.
  { intros e. unfold present. rewrite list_elem_of_filter. tauto. }
  assert (∀ e, e ∈ absent employees recognized_ids
               ↔ e ∈ employees ∧ Employee.id e ∉ recognized_ids) as Ha.
  { intros e. unfold absent. rewrite list_elem_of_filter. tauto. }
  destruct (present_absent_ext employees recognized_ids
              (recognized_ids ∩ list_to_set (ids employees))) as [E1 E2].
  { intros e He. rewrite elem_of_intersection, elem_of_list_to_set.
    unfold ids. rewrite list_elem_of_fmap. split; [|tauto].
    intros Hin. split; [done|]. by exists e. }
  split_and!.
  - apply present_table_spec.
  - apply absent_table_spec.
  - apply sublist_filter.
  - apply sublist_filter.
  - done.
  - done.
  - rewrite present_table_spec, absent_table_spec. simpl.
    apply present_absent_length.
  - apply present_absent_permutation.
  - intros e He. destruct (decide (Employee.id e ∈ recognized_ids)) as [Hin|Hin].
    + left. split; [by apply Hp|]. split; [by intros [_ ?]%Ha|].
      intros (e' & Hr%row_inj & He'%Ha)%list_elem_of_fmap.
      destruct He' as [_ He']. apply He'. by rewrite <- Hr.
    + right. split; [by apply Ha|]. split; [by intros [_ ?]%Hp|].
      intros (e' & Hr%row_inj & He'%Hp)%list_elem_of_fmap.
      destruct He' as [_ He']. apply Hin. by rewrite Hr.
  - by rewrite !present_table_spec, E1.
  - by rewrite !absent_table_spec, E2.
Qed.

End AttendanceFacts.


(** ** Matching *)

Module RecognitionFacts.
Import RecognizeFaceApp.

Lemma generate_attendance_report_json_file doc_build employees recognized_ids
    timestamp self :
  json_file (generate_attendance_report doc_build employees recognized_ids
               timestamp self) = json_file self.
Proof.
  unfold generate_attendance_report.
  destruct (present_table _ _) as [present_data present_count].
  destruct (absent_table _ _) as [absent_data absent_count].
  by destruct (doc_build _ _).
Qed.

Lemma stored_cons employee employees :
  stored (employee :: employees)
  = length (Employee.encodings employee) + stored employees.
Proof. done. Qed.

(** One turn of a loop, then the others; an exception ends the loop. *)
Lemma for_each_cons {A} (body : A → gset string * app
                                → Py.result unit * (gset string * app)) x l st :
  Py.for_each body (x :: l) st
  = match (body x st).1 with
    | Py.Ok _ => Py.for_each body l ((body x st).2.1, (body x st).2.2)
    | Py.Raise _ => body x st
    end.
Proof. simpl. by destruct (body x st) as [[[]|e] [recognized_ids self]]. Qed.

(** Two parts of a loop, one after the other. *)
Lemma loop_spec_seq adds1 fits1 pairs1 adds2 fits2 pairs2 recognized_ids self
    r1 r2 :
  loop_spec adds1 fits1 pairs1 recognized_ids self r1 →
  (r1.1 = Py.Ok () → loop_spec adds2 fits2 pairs2 r1.2.1 r1.2.2 r2) →
  loop_spec (λ i, adds1 i ∨ adds2 i) (fits1 ∧ fits2) (pairs1 + pairs2)
    recognized_ids self
    (match r1.1 with Py.Ok _ => r2 | Py.Raise _ => r1 end).
Proof.
  intros (A1 & A2 & A3 & A4 & A5 & A6 & A7) H2.
  destruct r1 as [[[]|e] [ids1 self1]]; cbn [fst snd] in *.
  - destruct (H2 eq_refl) as (B1 & B2 & B3 & B4 & B5 & B6 & B7).
    split_and!.
    + intros i [[?|?]%A1|?]%B1; auto.
    + auto.
    + rewrite B3. split; [intros ?; split; [by apply A3|done]|by intros [_ ?]].
    + intros Hok i [?|?]; [by apply B2, A4|by apply B4].
    + congruence.
    + congruence.
    + intros Hok. rewrite B7, A7 by done. lia.
  - split_and!; try done.
    + intros i [?|?]%A1; auto.
    + split; [done|]. by intros [?%A3 _].
Qed.

Lemma loop_spec_ext adds fits pairs adds' fits' pairs' recognized_ids self r :
  loop_spec adds fits pairs recognized_ids self r →
  (∀ i, adds i ↔ adds' i) → (fits ↔ fits') → pairs = pairs' →
  loop_spec adds' fits' pairs' recognized_ids self r.
Proof.
  intros (A1 & A2 & A3 & A4 & A5 & A6 & A7) Ha Hf <-.
  split_and!; try done.
  - intros i [?|?%Ha]%A1; auto.
  - by rewrite <- Hf.
  - intros Hok i ?%Ha. by apply A4.
Qed.

(** A loop that goes over nothing. *)
Lemma loop_spec_nil adds fits recognized_ids self :
  (∀ i, ¬ adds i) → fits →
  loop_spec adds fits 0 recognized_ids self (Py.Ok (), (recognized_ids, self)).
Proof.
  intros Ha Hf. unfold loop_spec. cbn [fst snd]. split_and!; try done.
  - auto.
  - intros _ i ?. by destruct (Ha i).
Qed.

(** When the body of a loop does the same to the set from any application
    state, so does the loop. *)
Lemma for_each_independent {A}
    (body : A → gset string * app → Py.result unit * (gset string * app)) l :
  (∀ x recognized_ids self self',
     (body x (recognized_ids, self)).1 = (body x (recognized_ids, self')).1
     ∧ (body x (recognized_ids, self)).2.1 = (body x (recognized_ids, self')).2.1) →
  ∀ recognized_ids self self',
    (Py.for_each body l (recognized_ids, self)).1
    = (Py.for_each body l (recognized_ids, self')).1
    ∧ (Py.for_each body l (recognized_ids, self)).2.1
      = (Py.for_each body l (recognized_ids, self')).2.1.
Proof.
  intros Hbody. induction l as [|x l IH]; intros recognized_ids self self';
    [done|].
  rewrite !for_each_cons. destruct (Hbody x recognized_ids self self') as [H1 H2].
  destruct (body x (recognized_ids, self)) as [[[]|e] [ids1 self1]],
    (body x (recognized_ids, self')) as [[[]|e'] [ids1' self1']];
    cbn [fst snd] in *; try done.
  subst ids1'. apply IH.
Qed.

Lemma comparable_nil_l broadcast_error unknown_encodings :
  comparable broadcast_error [] unknown_encodings.
Proof. by intros e u ?%elem_of_nil. Qed.

Lemma comparable_nil_r broadcast_error employees :
  comparable broadcast_error employees [].
Proof. by intros e u _ ?%elem_of_nil. Qed.

Lemma comparable_app_l broadcast_error employees employees' unknown_encodings :
  comparable broadcast_error (employees ++ employees') unknown_encodings
  ↔ comparable broadcast_error employees unknown_encodings
    ∧ comparable broadcast_error employees' unknown_encodings.
Proof.
  unfold comparable. split.
  - intros H. split; intros e u He; apply H; apply elem_of_app; auto.
  - intros [H1 H2] e u [?|?]%elem_of_app; auto.
Qed.

Lemma comparable_app_r broadcast_error employees unknown_encodings
    unknown_encodings' :
  comparable broadcast_error employees (unknown_encodings ++ unknown_encodings')
  ↔ comparable broadcast_error employees unknown_encodings
    ∧ comparable broadcast_error employees unknown_encodings'.
Proof.
  unfold comparable. split.
  - intros H. split; intros e u He Hu; apply H; try done; apply elem_of_app; auto.
  - intros [H1 H2] e u He [?|?]%elem_of_app; auto.
Qed.

Lemma comparable_ext broadcast_error employees employees' unknown_encodings
    unknown_encodings' :
  (∀ e, e ∈ employees' → e ∈ employees) →
  (∀ u, u ∈ unknown_encodings' → u ∈ unknown_encodings) →
  comparable broadcast_error employees unknown_encodings →
  comparable broadcast_error employees' unknown_encodings'.
Proof. intros He Hu H e u ? ?. apply H; auto. Qed.

(** A way to check it on given lists. *)
Lemma comparable_Forall broadcast_error employees unknown_encodings :
  Forall (λ e, Forall (λ u, broadcast_error (Employee.encodings e) u = None)
                 unknown_encodings) employees →
  comparable broadcast_error employees unknown_encodings.
Proof.
  intros H e u He Hu _. rewrite Forall_forall in H. specialize (H e He).
  rewrite Forall_forall in H. auto.
Qed.

(** Encodings of one dimension can be compared. *)
Lemma of_dimension_comparable broadcast_error dimension employees
    unknown_encodings :
  subtracts_same_length broadcast_error →
  of_dimension dimension employees unknown_encodings →
  comparable broadcast_error employees unknown_encodings.
Proof.
  intros Hsub [Hk Hu] e u He Hin _. apply Hsub. intros known Hknown.
  by rewrite (Hk e known), (Hu u).
Qed.

Section Loops.

Variable norm_diff : encoding → encoding → float.
Variable broadcast_error : list encoding → encoding → option string.

Local Abbreviation compare_faces := (compare_faces norm_diff broadcast_error).
Local Abbreviation match_employee := (match_employee norm_diff broadcast_error).
Local Abbreviation match_faces := (match_faces norm_diff broadcast_error).
Local Abbreviation within_tolerance := (within_tolerance norm_diff).
Local Abbreviation matched := (matched norm_diff).
Local Abbreviation comparable := (comparable broadcast_error).

(** [compare_faces] raises when numpy does; otherwise [True in matches]
    says that some known encoding is within the tolerance. *)
Lemma compare_faces_cases known_encodings unknown :
  match compare_faces known_encodings unknown with
  | Py.Ok matches =>
      (known_encodings ≠ [] → broadcast_error known_encodings unknown = None)
      ∧ (true ∈ matches
         ↔ ∃ known, known ∈ known_encodings ∧ within_tolerance known unknown)
  | Py.Raise e =>
      known_encodings ≠ [] ∧ broadcast_error known_encodings unknown = Some e
  end.
Proof.
  unfold RecognizeFaceApp.compare_faces, face_distance,
    RecognizeFaceApp.within_tolerance.
  destruct known_encodings as [|known0 known_encodings]; cbn [length Nat.eqb].
  - split; [done|]. split; [by intros ?%elem_of_nil|].
    by intros (known & ?%elem_of_nil & _).
  - destruct (broadcast_error _ _) as [e|]; [done|]. split; [done|].
    rewrite <- list_fmap_compose, list_elem_of_fmap. simpl.
    split; intros (known & H1 & H2); exists known; done.
Qed.

Lemma matched_singleton unknown employee :
  matched [unknown] employee
  ↔ ∃ known, known ∈ Employee.encodings employee ∧ within_tolerance known unknown.
Proof.
  unfold RecognizeFaceApp.matched. split.
  - intros (known & u & ? & ->%list_elem_of_singleton & ?). by exists known.
  - intros (known & ? & ?). exists known, unknown.
    split; [done|]. split; [apply list_elem_of_here|done].
Qed.

(** One turn of the inner loop. *)
Lemma match_employee_spec unknown employee recognized_ids self :
  loop_spec
    (λ i, Employee.id employee = i ∧ matched [unknown] employee)
    (Employee.encodings employee ≠ [] →
     broadcast_error (Employee.encodings employee) unknown = None)
    (length (Employee.encodings employee))
    recognized_ids self
    (match_employee unknown employee (recognized_ids, self)).
Proof.
  pose proof (compare_faces_cases (Employee.encodings employee) unknown) as Hc.
  unfold RecognizeFaceApp.match_employee.
  destruct (compare_faces _ _) as [matches|e].
  - destruct Hc as [Hfit Htrue]. rewrite <- matched_singleton in Htrue.
    case_bool_decide as Hin; unfold loop_spec; cbn [fst snd]; split_and!;
      try done.
    + intros i [->%elem_of_singleton|?]%elem_of_union; [|by left].
      right. split; [done|]. by apply Htrue.
    + intros i ?. apply elem_of_union. by right.
    + intros _ i [<- _]. apply elem_of_union. left. by apply elem_of_singleton.
    + auto.
    + intros _ i [_ ?%Htrue]. done.
  - destruct Hc as [Hne Hraise].
    unfold loop_spec; cbn [fst snd]; split_and!; try done; [auto|].
    split; [done|]. intros Hfit. rewrite Hfit in Hraise; done.
Qed.

Lemma matched_cons unknown unknown_encodings employee :
  matched (unknown :: unknown_encodings) employee
  ↔ matched [unknown] employee ∨ matched unknown_encodings employee.
Proof.
  unfold RecognizeFaceApp.matched. split.
  - intros (known & u & ? & [->|?]%elem_of_cons & ?).
    + left. exists known, unknown. split; [done|].
      split; [apply list_elem_of_here|done].
    + right. by exists known, u.
  - intros [(known & u & ? & ->%list_elem_of_singleton & ?)
           |(known & u & ? & ? & ?)].
    + exists known, unknown. split; [done|].
      split; [apply list_elem_of_here|done].
    + exists known, u. split; [done|]. split; [by right|done].
Qed.

Lemma comparable_cons_l employee employees unknown :
  comparable (employee :: employees) [unknown]
  ↔ (Employee.encodings employee ≠ [] →
     broadcast_error (Employee.encodings employee) unknown = None)
    ∧ comparable employees [unknown].
Proof.
  unfold RecognizeFaceApp.comparable. split.
  - intros H. split.
    + apply H; apply list_elem_of_here.
    + intros e u ? ?. apply H; [by right|done].
  - intros [H1 H2] e u [->|?]%elem_of_cons Hu; [|by apply H2].
    by apply list_elem_of_singleton in Hu as ->.
Qed.

Lemma comparable_cons_r employees unknown unknown_encodings :
  comparable employees (unknown :: unknown_encodings)
  ↔ comparable employees [unknown] ∧ comparable employees unknown_encodings.
Proof. apply (comparable_app_r _ _ [unknown]). Qed.

(** The inner loop, over the roster. *)
Lemma match_roster_spec unknown employees : ∀ recognized_ids self,
  loop_spec
    (λ i, ∃ employee, employee ∈ employees ∧ Employee.id employee = i
                      ∧ matched [unknown] employee)
    (comparable employees [unknown]) (stored employees)
    recognized_ids self
    (Py.for_each (match_employee unknown) employees (recognized_ids, self)).
Proof.
  induction employees as [|e employees IH]; intros recognized_ids self.
  - apply loop_spec_nil; [|apply comparable_nil_l].
    by intros i (e & ?%elem_of_nil & _).
  - rewrite for_each_cons.
    eapply loop_spec_ext;
      [eapply loop_spec_seq;
         [apply match_employee_spec|intros _; apply IH]| | |].
    + intros i. cbv beta. split.
      * intros [[? ?]|(e' & ? & ? & ?)].
        -- exists e. split; [apply list_elem_of_here|done].
        -- exists e'. split; [by right|done].
      * intros (e' & [->|?]%elem_of_cons & ? & ?); [by left|].
        right. by exists e'.
    + symmetry. apply comparable_cons_l.
    + by rewrite stored_cons.
Qed.

(** The two nested loops. *)
Lemma match_faces_spec employees unknown_encodings : ∀ recognized_ids self,
  loop_spec
    (λ i, ∃ employee, employee ∈ employees ∧ Employee.id employee = i
                      ∧ matched unknown_encodings employee)
    (comparable employees unknown_encodings)
    (length unknown_encodings * stored employees)
    recognized_ids self
    (match_faces employees unknown_encodings (recognized_ids, self)).
Proof.
  unfold RecognizeFaceApp.match_faces.
  induction unknown_encodings as [|u us IH]; intros recognized_ids self.
  - apply loop_spec_nil; [|apply comparable_nil_r].
    by intros i (e & _ & _ & known & u & _ & ?%elem_of_nil & _).
  - rewrite for_each_cons.
    eapply loop_spec_ext;
      [eapply loop_spec_seq;
         [apply match_roster_spec|intros _; apply IH]| | |].
    + intros i. cbv beta. split.
      * intros [(e & ? & ? & ?)|(e & ? & ? & ?)]; exists e;
          rewrite matched_cons; auto.
      * intros (e & ? & ? & [?|?]%matched_cons); [left|right]; by exists e.
    + symmetry. apply comparable_cons_r.
    + simpl. lia.
Qed.

(** The loops end without an exception exactly when the encodings can be
    compared. *)
Lemma match_faces_ok employees unknown_encodings recognized_ids self :
  (match_faces employees unknown_encodings (recognized_ids, self)).1 = Py.Ok ()
  ↔ comparable employees unknown_encodings.
Proof.
  by destruct (match_faces_spec employees unknown_encodings recognized_ids self)
    as (_ & _ & ? & _).
Qed.

(** The set of the loops that end without an exception. *)
Lemma match_faces_elem_of employees unknown_encodings recognized_ids self :
  comparable employees unknown_encodings →
  ∀ i, i ∈ (match_faces employees unknown_encodings (recognized_ids, self)).2.1
       ↔ i ∈ recognized_ids
         ∨ ∃ employee, employee ∈ employees ∧ Employee.id employee = i
                       ∧ matched unknown_encodings employee.
Proof.
  intros Hok i.
  destruct (match_faces_spec employees unknown_encodings recognized_ids self)
    as (H1 & H2 & H3 & H4 & _).
  apply H3 in Hok. split; [apply H1|]. intros [?|?]; [by apply H2|by apply H4].
Qed.

(** Whether the loops raise, and the set they reach, do not depend on the
    application state they start from. *)
Lemma match_faces_recognized_ids employees unknown_encodings recognized_ids
    self self' :
  (match_faces employees unknown_encodings (recognized_ids, self)).1
  = (match_faces employees unknown_encodings (recognized_ids, self')).1
  ∧ (match_faces employees unknown_encodings (recognized_ids, self)).2.1
    = (match_faces employees unknown_encodings (recognized_ids, self')).2.1.
Proof.
  unfold RecognizeFaceApp.match_faces. apply for_each_independent.
  intros u. apply for_each_independent.
  intros e ids a a'. unfold RecognizeFaceApp.match_employee.
  destruct (compare_faces _ _); [by case_bool_decide|done].
Qed.

End Loops.

(** In a roster without a repeated id, the id determines the identity. *)
Lemma unique_id (employees : roster) e1 e2 :
  NoDup (ids employees) → e1 ∈ employees → e2 ∈ employees →
  Employee.id e1 = Employee.id e2 → e1 = e2.
Proof.
  unfold ids. induction employees as [|e employees IH]; simpl.
  - by intros _ ?%elem_of_nil.
  - intros [Hnotin Hnodup]%NoDup_cons [->|H1]%elem_of_cons [->|H2]%elem_of_cons Heq;
      [done| | |by apply IH].
    + destruct Hnotin. rewrite Heq. apply list_elem_of_fmap. by exists e2.
    + destruct Hnotin. rewrite <- Heq. apply list_elem_of_fmap. by exists e1.
Qed.

Section Program.

Variable image : Type.
Variable load_image_file : string → Py.result image.
Variable face_encodings : image → Py.result (list encoding).
Variable norm_diff : encoding → encoding → float.
Variable broadcast_error : list encoding → encoding → option string.
Variable doc_build : string → list flowable → Py.result unit.

Local Abbreviation match_faces := (match_faces norm_diff broadcast_error).
Local Abbreviation matched := (matched norm_diff).
Local Abbreviation comparable := (comparable broadcast_error).
Local Abbreviation generate_attendance_report :=
  (generate_attendance_report doc_build).
Local Abbreviation recognize_image :=
  (recognize_image image load_image_file face_encodings norm_diff
     broadcast_error doc_build).

(** The exits of [recognize_image]. *)
Lemma recognize_image_cancel timestamp self :
  recognize_image "" timestamp self = (None, self).
Proof. done. Qed.

Lemma recognize_image_no_employees file_path timestamp self :
  file_path ≠ "" → load_employees self = [] →
  recognize_image file_path timestamp self
  = (None, config_text "No employees registered" self).
Proof.
  intros Hp%EnrollmentFacts.not_str_false Hl.
  unfold RecognizeFaceApp.recognize_image. cbv zeta. by rewrite Hp, Hl.
Qed.

Lemma recognize_image_error file_path timestamp self e :
  file_path ≠ "" → load_employees self ≠ [] →
  load_image_file file_path ≫= face_encodings = Py.Raise e →
  recognize_image file_path timestamp self
  = (None, config_text ("Error: " +:+ e) self).
Proof.
  intros Hp%EnrollmentFacts.not_str_false Hl%EnrollmentFacts.not_list_false He.
  unfold RecognizeFaceApp.recognize_image. cbv zeta. rewrite Hp, Hl.
  destruct (load_image_file file_path) as [img|e']; simpl in *; [|congruence].
  by rewrite He.
Qed.

Lemma recognize_image_no_faces file_path timestamp self :
  file_path ≠ "" → load_employees self ≠ [] →
  load_image_file file_path ≫= face_encodings = Py.Ok [] →
  recognize_image file_path timestamp self
  = (None, config_text "No faces detected" self).
Proof.
  intros Hp%EnrollmentFacts.not_str_false Hl%EnrollmentFacts.not_list_false He.
  unfold RecognizeFaceApp.recognize_image. cbv zeta. rewrite Hp, Hl.
  destruct (load_image_file file_path) as [img|e']; simpl in *; [|congruence].
  by rewrite He.
Qed.

(** Past line 62: what [recognize_image] does with the result of the
    loops. *)
Lemma recognize_image_loops file_path timestamp self unknown_encodings :
  file_path ≠ "" → load_employees self ≠ [] →
  load_image_file file_path ≫= face_encodings = Py.Ok unknown_encodings →
  unknown_encodings ≠ [] →
  recognize_image file_path timestamp self
  = let r := match_faces (load_employees self) unknown_encodings (∅, self) in
    (Some r.2.1,
     match r.1 with
     | Py.Ok _ =>
         generate_attendance_report (load_employees self) r.2.1 timestamp r.2.2
     | Py.Raise e => config_text ("Error: " +:+ e) r.2.2
     end).
Proof.
  intros Hp%EnrollmentFacts.not_str_false Hl%EnrollmentFacts.not_list_false He Hu.
  unfold RecognizeFaceApp.recognize_image. cbv zeta. rewrite Hp, Hl.
  destruct (load_image_file file_path) as [img|e']; simpl in *; [|congruence].
  rewrite He. destruct unknown_encodings as [|u us]; [done|].
  cbn [length Nat.eqb].
  by destruct (match_faces _ _ _) as [[[]|e] [recognized_ids self']].
Qed.

(** The loops end without an exception: the report is generated. *)
Lemma recognize_image_report file_path timestamp self unknown_encodings :
  file_path ≠ "" → load_employees self ≠ [] →
  load_image_file file_path ≫= face_encodings = Py.Ok unknown_encodings →
  unknown_encodings ≠ [] →
  comparable (load_employees self) unknown_encodings →
  recognize_image file_path timestamp self
  = (Some (match_faces (load_employees self) unknown_encodings (∅, self)).2.1,
     generate_attendance_report (load_employees self)
       (match_faces (load_employees self) unknown_encodings (∅, self)).2.1
       timestamp
       (match_faces (load_employees self) unknown_encodings (∅, self)).2.2).
Proof.
  intros Hp Hl He Hu Hok.
  rewrite (recognize_image_loops _ _ _ unknown_encodings) by done. cbv zeta.
  apply (match_faces_ok norm_diff broadcast_error _ _ ∅ self) in Hok.
  by rewrite Hok.
Qed.

(** A comparison raises: the [except] clause sets the label, no report. *)
Lemma recognize_image_raise file_path timestamp self unknown_encodings e :
  file_path ≠ "" → load_employees self ≠ [] →
  load_image_file file_path ≫= face_encodings = Py.Ok unknown_encodings →
  unknown_encodings ≠ [] →
  (match_faces (load_employees self) unknown_encodings (∅, self)).1 = Py.Raise e →
  recognize_image file_path timestamp self
  = (Some (match_faces (load_employees self) unknown_encodings (∅, self)).2.1,
     config_text ("Error: " +:+ e)
       (match_faces (load_employees self) unknown_encodings (∅, self)).2.2).
Proof.
  intros Hp Hl He Hu Hraise.
  rewrite (recognize_image_loops _ _ _ unknown_encodings) by done. cbv zeta.
  by rewrite Hraise.
Qed.

(** Every call takes one of these exits. *)
Lemma recognize_image_exits file_path timestamp self :
  (recognize_image file_path timestamp self).1 = None
  ∧ json_file (recognize_image file_path timestamp self).2 = json_file self
  ∧ compared (recognize_image file_path timestamp self).2 = compared self
  ∨ ∃ unknown_encodings,
      file_path ≠ "" ∧ load_employees self ≠ []
      ∧ load_image_file file_path ≫= face_encodings = Py.Ok unknown_encodings
      ∧ unknown_encodings ≠ []
      ∧ (recognize_image file_path timestamp self).1
        = Some (match_faces (load_employees self) unknown_encodings (∅, self)).2.1
      ∧ json_file (recognize_image file_path timestamp self).2 = json_file self.
Proof.
  destruct (decide (file_path = "")) as [->|Hp]; [by left|].
  destruct (decide (load_employees self = [])) as [Hl|Hl].
  { left. by rewrite recognize_image_no_employees. }
  destruct (load_image_file file_path ≫= face_encodings)
    as [unknown_encodings|e] eqn:He.
  - destruct (decide (unknown_encodings = [])) as [->|Hu].
    + left. by rewrite recognize_image_no_faces.
    + right. exists unknown_encodings.
      rewrite (recognize_image_loops _ _ _ unknown_encodings) by done.
      cbv zeta. cbn [fst snd].
      destruct (match_faces_spec norm_diff broadcast_error (load_employees self)
                  unknown_encodings ∅ self) as (_ & _ & _ & _ & Hj & _).
      split_and!; try done.
      destruct (match_faces _ _ _).1;
        [by rewrite generate_attendance_report_json_file|done].
  - left. by rewrite (recognize_image_error _ _ _ e).
Qed.

(** C2: when the stored encodings and the query encodings can be compared,
    the set built by the two loops holds exactly the ids of the identities
    of the roster with a stored encoding whose distance to some query
    encoding is at most the tolerance; in a roster without a repeated id, an
    identity's id is in the set exactly when the identity has such a pair;
    and for a non-empty loaded roster and an image with at least one face,
    [recognize_image] computes this set. The loops end without an exception
    exactly in this case; whatever the encodings, an id of the set has such
    a pair; and when a comparison raises, [recognize_image] stops the loops
    there and ends with the label "Error: ..." and without a report. The
    encodings can be compared when all have one dimension, as the
    embeddings of the specification, numpy subtracting arrays of one
    length. *)
Theorem recognized_iff_some_pair_matches
    (employees : roster) (unknown_encodings : list encoding) (self : app) :
  (comparable employees unknown_encodings →
   ∀ i, i ∈ (match_faces employees unknown_encodings (∅, self)).2.1
        ↔ ∃ employee known unknown,
            employee ∈ employees ∧ Employee.id employee = i
            ∧ known ∈ Employee.encodings employee ∧ unknown ∈ unknown_encodings
            ∧ PrimFloat.leb (norm_diff known unknown) tolerance = true)
  ∧ (comparable employees unknown_encodings →
     NoDup (ids employees) → ∀ employee, employee ∈ employees →
       (Employee.id employee
          ∈ (match_faces employees unknown_encodings (∅, self)).2.1
        ↔ matched unknown_encodings employee))
  ∧ (∀ file_path timestamp,
       file_path ≠ "" → load_employees self = employees → employees ≠ [] →
       load_image_file file_path ≫= face_encodings = Py.Ok unknown_encodings →
       unknown_encodings ≠ [] →
       comparable employees unknown_encodings →
       (recognize_image file_path timestamp self).1
       = Some (match_faces employees unknown_encodings (∅, self)).2.1)
  ∧ ((match_faces employees unknown_encodings (∅, self)).1 = Py.Ok ()
     ↔ comparable employees unknown_encodings)
  ∧ (∀ i, i ∈ (match_faces employees unknown_encodings (∅, self)).2.1 →
       ∃ employee known unknown,
         employee ∈ employees ∧ Employee.id employee = i
         ∧ known ∈ Employee.encodings employee ∧ unknown ∈ unknown_encodings
         ∧ PrimFloat.leb (norm_diff known unknown) tolerance = true)
  ∧ (∀ file_path timestamp e,
       file_path ≠ "" → load_employees self = employees → employees ≠ [] →
       load_image_file file_path ≫= face_encodings = Py.Ok unknown_encodings →
       unknown_encodings ≠ [] →
       (match_faces employees unknown_encodings (∅, self)).1 = Py.Raise e →
       (recognize_image file_path timestamp self).1
       = Some (match_faces employees unknown_encodings (∅, self)).2.1
       ∧ result_label (recognize_image file_path timestamp self).2
         = "Error: " +:+ e
       ∧ built (recognize_image file_path timestamp self).2 = built self)
  ∧ (∀ dimension,
       subtracts_same_length broadcast_error →
       of_dimension dimension employees unknown_encodings →
       comparable employees unknown_encodings).
Proof.
  pose proof (match_faces_elem_of norm_diff broadcast_error employees
                unknown_encodings ∅ self) as Hin.
  destruct (match_faces_spec norm_diff broadcast_error employees
              unknown_encodings ∅ self) as (Hsound & _ & Hok & _ & _ & Hb & _).
  split_and!.
  - intros Hc i. rewrite (Hin Hc). split.
    + intros [[]%not_elem_of_empty|(e & ? & ? & known & unknown & ? & ? & ?)].
      by exists e, known, unknown.
    + intros (e & known & unknown & ? & ? & ? & ? & ?). right.
      exists e. split; [done|]. split; [done|]. by exists known, unknown.
  - intros Hc Hnodup e He. rewrite (Hin Hc). split.
    + intros [[]%not_elem_of_empty|(e' & He' & Hid & Hm)].
      by rewrite <- (unique_id employees e' e).
    + intros Hm. right. by exists e.
  - intros file_path timestamp Hp <- Hl He Hu Hc.
    by rewrite (recognize_image_report _ _ _ unknown_encodings).
  - done.
  - intros i [[]%not_elem_of_empty|(e & ? & ? & known & unknown & ? & ? & ?)]%Hsound.
    by exists e, known, unknown.
  - intros file_path timestamp e Hp <- Hl He Hu Hraise.
    by rewrite (recognize_image_raise _ _ _ unknown_encodings e).
  - intros dimension. apply of_dimension_comparable.
Qed.

(** C5: on an empty roster, and on an empty sequence of query encodings,
    the loops leave the recognized set empty and compute no distance; and
    [recognize_image] does not even reach them: with no employee loaded, and
    with no face in the image, it returns at once, with its own label text
    for each case, no distance computed and no report built. *)
Theorem nothing_to_match_recognizes_nobody :
  (∀ unknown_encodings self,
     match_faces [] unknown_encodings (∅, self) = (Py.Ok (), (∅, self)))
  ∧ (∀ employees self,
       match_faces employees [] (∅, self) = (Py.Ok (), (∅, self)))
  ∧ (∀ file_path timestamp self,
       file_path ≠ "" → load_employees self = [] →
       recognize_image file_path timestamp self
       = (None, config_text "No employees registered" self))
  ∧ (∀ file_path timestamp self,
       file_path ≠ "" → load_employees self ≠ [] →
       load_image_file file_path ≫= face_encodings = Py.Ok [] →
       recognize_image file_path timestamp self
       = (None, config_text "No faces detected" self)).
Proof.
  split_and!.
  - intros unknown_encodings self. unfold RecognizeFaceApp.match_faces.
    induction unknown_encodings as [|u us IH]; [done|].
    cbn [Py.for_each]. apply IH.
  - done.
  - apply recognize_image_no_employees.
  - apply recognize_image_no_faces.
Qed.

(** C8: a second run of [recognize_image] on the same image, right after a
    first one, ends with the same recognized set; no run changes the file
    of the roster, nor what is loaded from it; and the set computed by the
    loops, and whether they end with an exception, depend on the roster and
    the query encodings alone, not on the state of the application. *)
Theorem matching_is_deterministic_and_pure
    (file_path timestamp timestamp' : string) (self : app) :
  (recognize_image file_path timestamp'
     (recognize_image file_path timestamp self).2).1
  = (recognize_image file_path timestamp self).1
  ∧ json_file (recognize_image file_path timestamp self).2 = json_file self
  ∧ load_employees (recognize_image file_path timestamp self).2
    = load_employees self
  ∧ (∀ employees unknown_encodings recognized_ids self',
       (match_faces employees unknown_encodings (recognized_ids, self)).2.1
       = (match_faces employees unknown_encodings (recognized_ids, self')).2.1
       ∧ (match_faces employees unknown_encodings (recognized_ids, self)).1
         = (match_faces employees unknown_encodings (recognized_ids, self')).1
       ∧ json_file
           (match_faces employees unknown_encodings (recognized_ids, self)).2.2
         = json_file self).
Proof.
  assert (json_file (recognize_image file_path timestamp self).2
          = json_file self) as Hj.
  { destruct (recognize_image_exits file_path timestamp self)
      as [(_ & ? & _)|(? & _ & _ & _ & _ & _ & ?)]; done. }
  assert (load_employees (recognize_image file_path timestamp self).2
          = load_employees self) as Hl.
  { unfold load_employees. by rewrite Hj. }
  split_and!; [|done|done|].
  - set (self1 := (recognize_image file_path timestamp self).2) in *.
    destruct (decide (file_path = "")) as [->|Hp]; [done|].
    destruct (decide (load_employees self = [])) as [He|He].
    { rewrite !recognize_image_no_employees by congruence. done. }
    destruct (load_image_file file_path ≫= face_encodings)
      as [unknown_encodings|e] eqn:Hu.
    + destruct (decide (unknown_encodings = [])) as [->|Hne].
      * rewrite !recognize_image_no_faces by congruence. done.
      * rewrite !(recognize_image_loops _ _ _ unknown_encodings) by congruence.
        cbv zeta. cbn [fst]. rewrite Hl. f_equal.
        apply match_faces_recognized_ids.
    + rewrite !(recognize_image_error _ _ _ e) by congruence. done.
  - intros employees unknown_encodings recognized_ids self'.
    destruct (match_faces_recognized_ids norm_diff broadcast_error employees
                unknown_encodings recognized_ids self self') as [H1 H2].
    split_and!; [done|done|].
    by destruct (match_faces_spec norm_diff broadcast_error employees
                   unknown_encodings recognized_ids self)
      as (_ & _ & _ & _ & ? & _).
Qed.

(** C10: every id of the set built by the loops is the id of an identity of
    the roster, one with at least one stored encoding; an id all of whose
    identities have no stored encoding is not in the set, so that in a
    roster without a repeated id an identity without a stored encoding is
    not recognized; and the set that [recognize_image] ends with, when it
    ends with one, holds ids of the loaded roster only. *)
Theorem recognized_ids_are_roster_ids
    (employees : roster) (unknown_encodings : list encoding) (self : app) :
  (match_faces employees unknown_encodings (∅, self)).2.1
    ⊆ list_to_set (ids employees)
  ∧ (∀ i, i ∈ (match_faces employees unknown_encodings (∅, self)).2.1 →
       ∃ employee, employee ∈ employees ∧ Employee.id employee = i
                   ∧ Employee.encodings employee ≠ [])
  ∧ (∀ i, (∀ employee, employee ∈ employees → Employee.id employee = i →
             Employee.encodings employee = []) →
       i ∉ (match_faces employees unknown_encodings (∅, self)).2.1)
  ∧ (NoDup (ids employees) → ∀ employee, employee ∈ employees →
       Employee.encodings employee = [] →
       Employee.id employee
         ∉ (match_faces employees unknown_encodings (∅, self)).2.1)
  ∧ (∀ file_path timestamp recognized_ids,
       (recognize_image file_path timestamp self).1 = Some recognized_ids →
       recognized_ids ⊆ list_to_set (ids (load_employees self))).
Proof.
  assert (∀ R U a i, i ∈ (match_faces R U (∅, a)).2.1 →
            ∃ employee, employee ∈ R ∧ Employee.id employee = i
                        ∧ Employee.encodings employee ≠ []) as Hsome.
  { intros R U a i.
    destruct (match_faces_spec norm_diff broadcast_error R U ∅ a) as [Hs _].
    intros [[]%not_elem_of_empty|(e & ? & ? & known & unknown & Hk & _)]%Hs.
    exists e. split; [done|]. split; [done|].
    intros Hnil. rewrite Hnil in Hk. by apply elem_of_nil in Hk. }
  assert (∀ R U a, (match_faces R U (∅, a)).2.1 ⊆ list_to_set (ids R)) as Hsub.
  { intros R U a. apply elem_of_subseteq. intros i (e & ? & <- & _)%Hsome.
    apply elem_of_list_to_set. unfold ids. apply list_elem_of_fmap. by exists e. }
  split_and!.
  - apply Hsub.
  - apply Hsome.
  - intros i Hnone (e & He & Hid & Hne)%Hsome. by apply Hne, Hnone.
  - intros Hnodup e He Hnil (e' & He' & Hid & Hne)%Hsome.
    by rewrite (unique_id employees e' e) in Hne.
  - intros file_path timestamp recognized_ids Hr.
    destruct (recognize_image_exits file_path timestamp self)
      as [(Hn & _)|(U & _ & _ & _ & _ & Hs & _)]; [congruence|].
    rewrite Hs in Hr. injection Hr as <-. apply Hsub.
Qed.

End Program.

End RecognitionFacts.


(** ** The programs on the small world *)

Module Runs.
Import Example MoreExamples.

(** The scenario of the specification: Alice and Bob enrolled, a query
    image with Alice's face. *)
Example recognize_alice :
  (recognize_image "query.jpg" "2026-01-05_0900" (recognizing two_employees)).1
  = Some {["1"]}.
Proof. vm_compute. reflexivity. Qed.

Example alice_present_bob_absent :
  RecognizeFaceApp.present_table [alice; bob] {["1"]}
    = ([["ID"; "Name"]; ["1"; "Alice"]], 1)
  ∧ RecognizeFaceApp.absent_table [alice; bob] {["1"]}
    = ([["ID"; "Name"]; ["2"; "Bob"]], 1).
Proof. split; vm_compute; reflexivity. Qed.

Example recognize_alice_label :
  RecognizeFaceApp.result_label
    (recognize_image "query.jpg" "2026-01-05_0900" (recognizing two_employees)).2
  = "Attendance report saved as attendance_2026-01-05_0900.pdf".
Proof. vm_compute. reflexivity. Qed.

(** A stored encoding of another length: the comparison with it raises and
    ends the loops. Alice, whose face is in the image, is in the set only
    if she was compared before; the label shows the exception and no report
    is built. *)
Example recognize_with_mixed_lengths :
  recognize_image "query.jpg" "2026-01-05_0900" (recognizing mixed_lengths)
  = (Some ∅,
     RecognizeFaceApp.config_text
       "Error: operands could not be broadcast together"
       (recognizing mixed_lengths)).
Proof. vm_compute. reflexivity. Qed.

Example recognize_alice_then_raise :
  (recognize_image "query.jpg" "2026-01-05_0900" (recognizing alice_then_dave)).1
  = Some {["1"]}
  ∧ RecognizeFaceApp.result_label
      (recognize_image "query.jpg" "2026-01-05_0900"
         (recognizing alice_then_dave)).2
    = "Error: operands could not be broadcast together"
  ∧ RecognizeFaceApp.built
      (recognize_image "query.jpg" "2026-01-05_0900"
         (recognizing alice_then_dave)).2 = [].
Proof. split_and!; vm_compute; reflexivity. Qed.

Example strip_and_isdigit :
  Py.strip "  Carol Ann " = "Carol Ann" ∧ Py.strip "   " = ""
  ∧ Py.isdigit "0042" = true ∧ Py.isdigit "" = false
  ∧ Py.isdigit "4 2" = false ∧ Py.isdigit "-1" = false.
Proof. repeat split. Qed.

(** Three images, one without a face: two encodings stored, one warning. *)
Example enroll_carol :
  upload_images ["alice.jpg"; "wall.jpg"; "bob.jpg"]
    (enrolling " Carol " "3 " two_employees)
  = (Some [alice; bob;
           {| Employee.id := "3"; Employee.name := "Carol";
              Employee.encodings := [alice_face; bob_face] |}],
     {| AddEmployeeApp.name_entry := " Carol "; AddEmployeeApp.id_entry := "3 ";
        AddEmployeeApp.json_file :=
          {| Store.file :=
               Some (Store.Document
                       [alice; bob;
                        {| Employee.id := "3"; Employee.name := "Carol";
                           Employee.encodings := [alice_face; bob_face] |}]);
             Store.read_raises := None; Store.on_write := Store.Writes |};
        AddEmployeeApp.shown :=
          [showwarning "Warning" "No face detected in wall.jpg";
           showinfo "Success" "Employee Carol (ID: 3) added with 2 images"] |}).
Proof. vm_compute. reflexivity. Qed.

(** Three images without a usable face: an error, the store as it was. *)
Example enroll_nobody :
  upload_images ["wall.jpg"; "torn.jpg"; "wall.jpg"]
    (enrolling "Carol" "3" two_employees)
  = (Some [alice; bob],
     {| AddEmployeeApp.name_entry := "Carol"; AddEmployeeApp.id_entry := "3";
        AddEmployeeApp.json_file := two_employees;
        AddEmployeeApp.shown :=
          [showwarning "Warning" "No face detected in wall.jpg";
           showerror "Error" "Failed to process torn.jpg: cannot identify image file";
           showwarning "Warning" "No face detected in wall.jpg";
           showerror "Error" "No valid faces detected in any image"] |}).
Proof. vm_compute. reflexivity. Qed.

End Runs.


(** ** The properties at concrete inputs *)

Module Instances.
Import Example.

Lemma attendance_partition_witness :
  (alice ∈ RecognizeFaceApp.present [alice; bob] {["1"; "7"]}
   ∧ (alice ∉ RecognizeFaceApp.absent [alice; bob] {["1"; "7"]})
   ∧ RecognizeFaceApp.row alice
       ∉ (RecognizeFaceApp.row <$> RecognizeFaceApp.absent [alice; bob] {["1"; "7"]}))
  ∨ (alice ∈ RecognizeFaceApp.absent [alice; bob] {["1"; "7"]}
     ∧ (alice ∉ RecognizeFaceApp.present [alice; bob] {["1"; "7"]})
     ∧ RecognizeFaceApp.row alice
         ∉ (RecognizeFaceApp.row <$> RecognizeFaceApp.present [alice; bob] {["1"; "7"]})).
Proof.
  destruct (AttendanceFacts.attendance_partition [alice; bob] {["1"; "7"]})
    as (_ & _ & _ & _ & _ & _ & _ & _ & H & _).
  apply H. constructor.
Defined.

Lemma recognized_iff_some_pair_matches_witness :
  (recognize_image "query.jpg" "2026-01-05_0900" (recognizing two_employees)).1
  = Some (RecognizeFaceApp.match_faces norm_diff broadcast_error
            [alice; bob] [alice_again] (∅, recognizing two_employees)).2.1
  ∧ (Employee.id alice
       ∈ (RecognizeFaceApp.match_faces norm_diff broadcast_error
            [alice; bob] [alice_again] (∅, recognizing two_employees)).2.1
     ↔ RecognizeFaceApp.matched norm_diff [alice_again] alice).
Proof.
  destruct (RecognitionFacts.recognized_iff_some_pair_matches
              image load_image_file face_encodings norm_diff broadcast_error
              doc_build [alice; bob] [alice_again] (recognizing two_employees))
    as (_ & H2 & H3 & _ & _ & _ & H7).
  assert (RecognizeFaceApp.comparable broadcast_error [alice; bob] [alice_again])
    as Hc.
  { apply (H7 2).
    - intros known_encodings unknown Hlen. unfold broadcast_error.
      rewrite (proj2 (forallb_forall _ known_encodings)); [reflexivity|].
      intros known Hin%list_elem_of_In. apply Nat.eqb_eq. by apply Hlen.
    - split.
      + intros e known He Hknown.
        repeat (apply elem_of_cons in He as [->|He];
                [by apply list_elem_of_singleton in Hknown as ->|]).
        by apply elem_of_nil in He.
      + by intros unknown ->%list_elem_of_singleton. }
  split.
  - apply H3;
      [discriminate|reflexivity|discriminate|reflexivity|discriminate|exact Hc].
  - apply H2; [exact Hc| |constructor].
    vm_compute. repeat constructor; intros Hin; vm_compute in Hin;
      repeat (apply elem_of_cons in Hin as [Hin|Hin]; [discriminate Hin|]);
      by apply elem_of_nil in Hin.
Defined.

Lemma enrollment_keeps_ids_unique_witness :
  AddEmployeeApp.rejected
    (upload_images ["alice.jpg"] (enrolling "Alice" " 1" two_employees))
    (enrolling "Alice" " 1" two_employees).
Proof.
  destruct (EnrollmentFacts.enrollment_keeps_ids_unique
              image load_image_file face_encodings) as (_ & H & _).
  apply H; [discriminate|]. left. vm_compute. constructor.
Defined.

Lemma enrollment_is_atomic_witness :
  AddEmployeeApp.json_file
    (upload_images ["wall.jpg"; "torn.jpg"] (enrolling "Carol" "3" two_employees)).2
  = two_employees
  ∧ ((upload_images ["wall.jpg"; "torn.jpg"]
        (enrolling "Carol" "3" two_employees)).1 = None
     ∨ (upload_images ["wall.jpg"; "torn.jpg"]
          (enrolling "Carol" "3" two_employees)).1 = Some [alice; bob]).
Proof.
  destruct (EnrollmentFacts.enrollment_is_atomic
              image load_image_file face_encodings
              ["wall.jpg"; "torn.jpg"] (enrolling "Carol" "3" two_employees))
    as (H & _).
  apply H. reflexivity.
Defined.

Lemma nothing_to_match_recognizes_nobody_witness :
  recognize_image "query.jpg" "2026-01-05_0900" (recognizing no_file)
  = (None,
     RecognizeFaceApp.config_text "No employees registered" (recognizing no_file)).
Proof.
  destruct (RecognitionFacts.nothing_to_match_recognizes_nobody
              image load_image_file face_encodings norm_diff broadcast_error
              doc_build)
    as (_ & _ & H & _).
  apply H; [discriminate|reflexivity].
Defined.

Lemma load_employees_returns_what_parses_witness :
  JsonStore.load_employees (JsonStore.of_disk two_employees)
  = Json.of_roster [alice; bob]
  ∧ Store.load_employees two_employees = [alice; bob].
Proof.
  destruct (StoreFacts.load_employees_returns_what_parses
              (JsonStore.of_disk two_employees))
    as (_ & _ & _ & _ & H & H0).
  split.
  - apply H; reflexivity.
  - destruct (H0 two_employees eq_refl) as (_ & H1 & _).
    apply H1; reflexivity.
Defined.

(** C6 (as stated) fails: a file whose text is JSON but not an array of
    identity records is corrupt as a roster store, and [load_employees]
    returns its value, not the empty roster. *)
Lemma corrupt_store_is_returned :
  (∀ employees,
     JsonStore.file JsonStore.not_a_roster
     ≠ Some (JsonStore.Parses (Json.of_roster employees)))
  ∧ JsonStore.load_employees JsonStore.not_a_roster
    = Json.Object [("id", Json.Str "1")]
  ∧ JsonStore.load_employees JsonStore.not_a_roster ≠ Json.of_roster [].
Proof. split_and!; [intros employees|reflexivity|]; discriminate. Qed.

Lemma enrollment_stores_first_encodings_witness :
  (upload_images ["alice.jpg"; "wall.jpg"; "bob.jpg"]
     (enrolling "Carol" "3" two_employees)).1
  = Some ([alice; bob]
          ++ [AddEmployeeApp.new_employee image load_image_file face_encodings
                ["alice.jpg"; "wall.jpg"; "bob.jpg"]
                (enrolling "Carol" "3" two_employees)])
  ∧ Employee.encodings
      (AddEmployeeApp.new_employee image load_image_file face_encodings
         ["alice.jpg"; "wall.jpg"; "bob.jpg"] (enrolling "Carol" "3" two_employees))
    = [alice_face; bob_face]
  ∧ 1 ≤ length
          (Employee.encodings
             (AddEmployeeApp.new_employee image load_image_file face_encodings
                ["alice.jpg"; "wall.jpg"; "bob.jpg"]
                (enrolling "Carol" "3" two_employees)))
  ∧ (Store.on_write two_employees = Store.Writes →
     Store.file
       (AddEmployeeApp.json_file
          (upload_images ["alice.jpg"; "wall.jpg"; "bob.jpg"]
             (enrolling "Carol" "3" two_employees)).2)
     = Some (Store.Document
               ([alice; bob]
                ++ [AddEmployeeApp.new_employee image load_image_file face_encodings
                      ["alice.jpg"; "wall.jpg"; "bob.jpg"]
                      (enrolling "Carol" "3" two_employees)]))).
Proof.
  destruct (EnrollmentFacts.enrollment_stores_first_encodings
              image load_image_file face_encodings
              ["alice.jpg"; "wall.jpg"; "bob.jpg"]
              (enrolling "Carol" "3" two_employees))
    as (_ & _ & _ & H & _).
  apply H.
  - discriminate.
  - split; [discriminate|]. split; [discriminate|reflexivity].
  - vm_compute. intros Hin. inversion Hin as [|? ? ? Hin']; subst.
    inversion Hin' as [|? ? ? Hin'']; subst. inversion Hin''.
  - discriminate.
Defined.

Lemma recognized_ids_are_roster_ids_witness :
  ∃ employee, employee ∈ [alice; bob] ∧ Employee.id employee = "1"
              ∧ Employee.encodings employee ≠ [].
Proof.
  destruct (RecognitionFacts.recognized_ids_are_roster_ids
              image load_image_file face_encodings norm_diff broadcast_error
              doc_build
              [alice; bob] [alice_again] (recognizing two_employees))
    as (_ & H & _).
  apply H. vm_compute. reflexivity.
Defined.

(** C9 (as stated) fails: a call with an empty batch is not rejected the
    way the validation errors are, since it shows no message box at all. *)
Lemma empty_batch_is_not_reported :
  ¬ AddEmployeeApp.rejected
      (upload_images [] (enrolling "Carol" "3" two_employees))
      (enrolling "Carol" "3" two_employees).
Proof.
  intros [[message Hshown] _].
  apply (f_equal AddEmployeeApp.shown) in Hshown. discriminate Hshown.
Qed.

End Instances.


(** ** More on the Python builtins *)

Module PyFacts.
Import Described.

Lemma lstrip_starts_clean s : starts_clean (Py.lstrip s).
Proof.
  induction s as [|c s IH]; simpl; [done|].
  by destruct (Py.isspace c) eqn:Hc.
Qed.

Lemma lstrip_clean s : starts_clean s → Py.lstrip s = s.
Proof. destruct s as [|c s]; simpl; [done|]. by intros ->. Qed.

Lemma rstrip_starts_clean s : starts_clean s → starts_clean (Py.rstrip s).
Proof.
  destruct s as [|c s]; simpl; [done|]. intros Hc.
  destruct (Py.rstrip s); [by rewrite Hc|done].
Qed.

Lemma rstrip_cons c s :
  Py.rstrip (String c s)
  = match Py.rstrip s with
    | EmptyString => if Py.isspace c then EmptyString else String c EmptyString
    | t => String c t
    end.
Proof. done. Qed.

Lemma rstrip_rstrip s : Py.rstrip (Py.rstrip s) = Py.rstrip s.
Proof.
  induction s as [|c s IH]; [done|]. rewrite rstrip_cons.
  destruct (Py.rstrip s) as [|d t] eqn:Ht.
  - destruct (Py.isspace c) eqn:Hc; [done|]. rewrite rstrip_cons. simpl.
    by rewrite Hc.
  - by rewrite rstrip_cons, IH.
Qed.

(** [s.strip().strip() == s.strip()] *)
Lemma strip_strip s : Py.strip (Py.strip s) = Py.strip s.
Proof.
  unfold Py.strip.
  rewrite (lstrip_clean (Py.rstrip (Py.lstrip s)))
    by apply rstrip_starts_clean, lstrip_starts_clean.
  apply rstrip_rstrip.
Qed.

End PyFacts.


(** ** More on the store and on enrollment *)

Module EnrollmentMore.
Import AddEmployeeApp Described.

Lemma app_ext (a b : app) :
  name_entry a = name_entry b → id_entry a = id_entry b →
  json_file a = json_file b → shown a = shown b → a = b.
Proof. destruct a, b. simpl. by intros -> -> -> ->. Qed.

(** A failed save is reported and does not raise: when opening the file
    for writing raises, one error box with the exception text is shown and
    the file, hence what is loaded from it, is as before; when
    [json.dump] raises, the same box is shown and the file is left with
    text that does not parse, so that the next load gives the empty
    roster. *)
Theorem failed_save_is_reported (employees : roster) (self : app) (e : string) :
  (Store.on_write (json_file self) = Store.Open_raises e →
     save_employees employees self = show (save_error_box e) self
     ∧ load_employees (save_employees employees self) = load_employees self)
  ∧ (Store.on_write (json_file self) = Store.Dump_raises e →
     shown (save_employees employees self) = shown self ++ [save_error_box e]
     ∧ Store.file (json_file (save_employees employees self))
       = Some Store.Garbled
     ∧ load_employees (save_employees employees self) = []).
Proof.
  split; intros Hw; unfold save_employees, Store.write; rewrite Hw; simpl.
  - split; [|done]. by destruct self.
  - split; [done|]. split; [done|]. unfold load_employees. simpl.
    by apply StoreFacts.load_garbled.
Qed.

Section Facts.

Variable image : Type.
Variable load_image_file : string → Py.result image.
Variable face_encodings : image → Py.result (list encoding).

Local Abbreviation process_image := (process_image image load_image_file face_encodings).
Local Abbreviation process_images := (process_images image load_image_file face_encodings).
Local Abbreviation upload_images := (upload_images image load_image_file face_encodings).
Local Abbreviation first_face := (first_face image load_image_file face_encodings).
Local Abbreviation new_employee := (new_employee image load_image_file face_encodings).
Local Abbreviation reachable := (reachable image load_image_file face_encodings).
Local Abbreviation image_box := (image_box image load_image_file face_encodings).
Local Abbreviation success_box := (success_box image load_image_file face_encodings).

Lemma process_image_shown encodings self file_path :
  shown (process_image (encodings, self) file_path).2
  = shown self ++ option_list (image_box file_path).
Proof.
  unfold AddEmployeeApp.process_image, Described.image_box.
  destruct (load_image_file file_path) as [img|e]; simpl; [|done].
  destruct (face_encodings img) as [[|enc0 enc]|e]; simpl;
    rewrite ?app_nil_r; done.
Qed.

Lemma foldl_process_image_shown file_paths : ∀ encodings self,
  shown (foldl process_image (encodings, self) file_paths).2
  = shown self ++ omap image_box file_paths.
Proof.
  induction file_paths as [|p ps IH]; intros encodings self; cbn [foldl].
  - by rewrite app_nil_r.
  - pose proof (process_image_shown encodings self p) as H.
    destruct (process_image (encodings, self) p) as [encodings' self'].
    cbn [snd] in H. rewrite IH, H, <- app_assoc. f_equal.
    change (omap image_box (p :: ps))
      with (match image_box p with
            | Some box => box :: omap image_box ps
            | None => omap image_box ps
            end).
    by destruct (image_box p).
Qed.

(** The application after the loop over the batch. *)
Lemma process_images_state file_paths self :
  (process_images file_paths self).2
  = {| name_entry := name_entry self; id_entry := id_entry self;
       json_file := json_file self;
       shown := shown self ++ omap image_box file_paths |}.
Proof.
  unfold AddEmployeeApp.process_images.
  destruct (EnrollmentFacts.foldl_process_image image load_image_file
              face_encodings file_paths [] self) as (_ & H2 & H3 & H4).
  apply app_ext; simpl; try done. apply foldl_process_image_shown.
Qed.

Lemma image_box_first_face file_path :
  image_box file_path = None ↔ is_Some (first_face file_path).
Proof.
  unfold Described.image_box, AddEmployeeApp.first_face.
  destruct (load_image_file file_path ≫= face_encodings) as [[|enc0 enc]|e];
    split; try done; by intros [? ?].
Qed.

Lemma stored_plus_reported file_paths :
  length (omap first_face file_paths) + length (omap image_box file_paths)
  = length file_paths.
Proof.
  induction file_paths as [|p ps IH]; [done|].
  change (omap first_face (p :: ps))
    with (match first_face p with
          | Some enc0 => enc0 :: omap first_face ps
          | None => omap first_face ps
          end).
  change (omap image_box (p :: ps))
    with (match image_box p with
          | Some box => box :: omap image_box ps
          | None => omap image_box ps
          end).
  pose proof (image_box_first_face p) as H.
  destruct (first_face p) as [enc0|], (image_box p) as [box|]; simpl.
  - destruct H as [_ H]. discriminate H. by eexists.
  - lia.
  - lia.
  - destruct H as [H _]. by destruct H as [? ?].
Qed.

(** Every image of the batch is either stored or reported: the loop shows,
    in batch order, one box for each image in which no face was found (a
    warning) or whose processing raised (an error with the exception text),
    and none for the others, so that the encodings collected and the boxes
    shown are as many as the images. *)
Theorem every_image_is_stored_or_reported (file_paths : list string) (self : app) :
  shown (process_images file_paths self).2
  = shown self ++ omap image_box file_paths
  ∧ length (process_images file_paths self).1
    + length (omap image_box file_paths) = length file_paths
  ∧ (∀ file_path, image_box file_path = None ↔ is_Some (first_face file_path))
  ∧ (∀ file_path e,
       load_image_file file_path ≫= face_encodings = Py.Raise e →
       image_box file_path
       = Some (showerror "Error"
                 ("Failed to process " +:+ file_path +:+ ": " +:+ e)))
  ∧ (∀ file_path,
       load_image_file file_path ≫= face_encodings = Py.Ok [] →
       image_box file_path
       = Some (showwarning "Warning" ("No face detected in " +:+ file_path))).
Proof.
  split_and!.
  - by rewrite process_images_state.
  - destruct (EnrollmentFacts.process_images_spec image load_image_file
                face_encodings file_paths self) as [-> _].
    apply stored_plus_reported.
  - apply image_box_first_face.
  - intros file_path e H. unfold Described.image_box. by rewrite H.
  - intros file_path H. unfold Described.image_box. by rewrite H.
Qed.

(** The exit that enrolls, in full. *)
Lemma upload_images_enrolls_state file_paths self :
  file_paths ≠ [] → well_formed self → ¬ duplicate self →
  omap first_face file_paths ≠ [] →
  upload_images file_paths self
  = (Some (load_employees self ++ [new_employee file_paths self]),
     show (success_box file_paths self)
       (save_employees (load_employees self ++ [new_employee file_paths self])
          (process_images file_paths self).2)).
Proof.
  intros Hp%EnrollmentFacts.not_list_false
    (Hn%EnrollmentFacts.not_str_false & Hi%EnrollmentFacts.not_str_false & Hd)
    Hdup He.
  unfold AddEmployeeApp.upload_images. rewrite Hp, Hn, Hi, Hd. simpl.
  destruct (existsb _ _) eqn:Hex; [by apply EnrollmentFacts.any_id_eq in Hex|].
  pose proof (process_images_state file_paths self) as Hs.
  destruct (EnrollmentFacts.process_images_spec image load_image_file
              face_encodings file_paths self) as [H1 _].
  destruct (process_images file_paths self) as [encodings self'].
  cbn [fst snd] in *. subst encodings.
  apply EnrollmentFacts.not_list_false in He. rewrite He.
  assert (load_employees self' = load_employees self) as Hl
    by (by rewrite Hs).
  assert (name_entry self' = name_entry self) as Hn' by (by rewrite Hs).
  assert (id_entry self' = id_entry self) as Hi' by (by rewrite Hs).
  done.
Qed.

Lemma upload_images_writes file_paths self :
  file_paths ≠ [] → well_formed self → ¬ duplicate self →
  omap first_face file_paths ≠ [] →
  Store.on_write (json_file self) = Store.Writes →
  upload_images file_paths self
  = (Some (load_employees self ++ [new_employee file_paths self]),
     {| name_entry := name_entry self; id_entry := id_entry self;
        json_file :=
          {| Store.file :=
               Some (Store.Document
                       (load_employees self ++ [new_employee file_paths self]));
             Store.read_raises := Store.read_raises (json_file self);
             Store.on_write := Store.Writes |};
        shown := shown self ++ omap image_box file_paths
                 ++ [success_box file_paths self] |}).
Proof.
  intros Hp Hwf Hdup He Hw.
  rewrite upload_images_enrolls_state by done.
  rewrite process_images_state. unfold save_employees, Store.write.
  cbn [json_file]. rewrite Hw. unfold show.
  cbn [name_entry id_entry json_file shown].
  by rewrite <- app_assoc.
Qed.

Lemma upload_images_writes_load file_paths self :
  file_paths ≠ [] → well_formed self → ¬ duplicate self →
  omap first_face file_paths ≠ [] →
  Store.on_write (json_file self) = Store.Writes →
  Store.read_raises (json_file self) = None →
  load_employees (upload_images file_paths self).2
  = load_employees self ++ [new_employee file_paths self].
Proof.
  intros Hp Hwf Hdup He Hw Hr. rewrite upload_images_writes by done.
  unfold load_employees. cbn [snd json_file].
  by apply StoreFacts.load_document.
Qed.

(** A successful enrollment, in full: with both fields filled in, an
    all-digit id that is not yet in the loaded roster, at least one image
    with a face and a file that can be written, the call ends with the
    loaded roster and the new identity in memory and in the file, the fields
    untouched, and, after the boxes of the images without a usable face, one
    success box that gives the number of encodings stored; loading the file
    again, when it can be read, gives the old roster with the new identity
    at its end. *)
Theorem successful_enrollment (file_paths : list string) (self : app) :
  file_paths ≠ [] → well_formed self → ¬ duplicate self →
  omap first_face file_paths ≠ [] →
  Store.on_write (json_file self) = Store.Writes →
  upload_images file_paths self
  = (Some (load_employees self ++ [new_employee file_paths self]),
     {| name_entry := name_entry self; id_entry := id_entry self;
        json_file :=
          {| Store.file :=
               Some (Store.Document
                       (load_employees self ++ [new_employee file_paths self]));
             Store.read_raises := Store.read_raises (json_file self);
             Store.on_write := Store.Writes |};
        shown := shown self ++ omap image_box file_paths
                 ++ [success_box file_paths self] |})
  ∧ (Store.read_raises (json_file self) = None →
     load_employees (upload_images file_paths self).2
     = load_employees self ++ [new_employee file_paths self]).
Proof.
  intros Hp Hwf Hdup He Hw. split.
  - by apply upload_images_writes.
  - intros Hr. by apply upload_images_writes_load.
Qed.

(** A save that fails does not stop the enrollment from reporting success:
    under the conditions of a successful enrollment but with a file that
    cannot be opened for writing, the file is as before, and the call shows
    the error box of the failed save followed by the success box; when
    [json.dump] raises, the same two boxes are shown and the roster that
    was in the file is lost. *)
Theorem failed_save_still_reports_success
    (file_paths : list string) (self : app) (e : string) :
  file_paths ≠ [] → well_formed self → ¬ duplicate self →
  omap first_face file_paths ≠ [] →
  (Store.on_write (json_file self) = Store.Open_raises e →
     json_file (upload_images file_paths self).2 = json_file self
     ∧ shown (upload_images file_paths self).2
       = shown self ++ omap image_box file_paths
         ++ [save_error_box e; success_box file_paths self])
  ∧ (Store.on_write (json_file self) = Store.Dump_raises e →
     load_employees (upload_images file_paths self).2 = []
     ∧ shown (upload_images file_paths self).2
       = shown self ++ omap image_box file_paths
         ++ [save_error_box e; success_box file_paths self]).
Proof.
  intros Hp Hwf Hdup He.
  rewrite upload_images_enrolls_state by done.
  rewrite process_images_state. unfold save_employees, Store.write.
  cbn [json_file snd].
  split; intros Hw; rewrite Hw; unfold show, save_error_box;
    cbn [name_entry id_entry json_file shown];
    rewrite <- !app_assoc; split; try done.
  unfold load_employees. cbn [json_file]. by apply StoreFacts.load_garbled.
Qed.

(** An enrolled id cannot be enrolled again: after a successful enrollment
    into a file that can be written and read, every later call on that file
    with a batch, a name and the same id (up to surrounding whitespace) is
    rejected with the box saying that the id exists, and changes
    nothing. *)
Theorem enrolled_id_is_taken
    (file_paths file_paths' : list string) (self self' : app) :
  file_paths ≠ [] → well_formed self → ¬ duplicate self →
  omap first_face file_paths ≠ [] →
  Store.on_write (json_file self) = Store.Writes →
  Store.read_raises (json_file self) = None →
  json_file self' = json_file (upload_images file_paths self).2 →
  Py.strip (id_entry self') = Py.strip (id_entry self) →
  Py.strip (name_entry self') ≠ "" → file_paths' ≠ [] →
  upload_images file_paths' self'
  = (Some (load_employees self ++ [new_employee file_paths self]),
     show (showerror "Error" "Employee ID already exists") self').
Proof.
  intros Hp Hwf Hdup He Hw Hr Hj Hi Hn Hp'.
  pose proof (upload_images_writes_load file_paths self Hp Hwf Hdup He Hw Hr)
    as Hl.
  assert (load_employees self'
          = load_employees self ++ [new_employee file_paths self]) as Hl'.
  { unfold load_employees in *. by rewrite Hj. }
  rewrite <- Hl'. apply EnrollmentFacts.upload_images_duplicate; [done| |].
  - destruct Hwf as (_ & ? & ?). split; [done|]. by rewrite Hi.
  - unfold duplicate. rewrite Hl', Hi. unfold ids. rewrite fmap_app.
    apply elem_of_app. right. simpl. apply list_elem_of_here.
Qed.

(** A store that cannot be read is overwritten: when opening the file for
    reading raises, or its text does not parse, the roster is taken to be
    empty, so that an enrollment that succeeds replaces whatever the file
    held by a roster with the new identity alone. *)
Theorem unloadable_store_is_overwritten
    (file_paths : list string) (self : app) :
  file_paths ≠ [] → well_formed self → omap first_face file_paths ≠ [] →
  Store.on_write (json_file self) = Store.Writes →
  is_Some (Store.read_raises (json_file self))
  ∨ Store.file (json_file self) = Some Store.Garbled →
  (upload_images file_paths self).1 = Some [new_employee file_paths self]
  ∧ Store.file (json_file (upload_images file_paths self).2)
    = Some (Store.Document [new_employee file_paths self]).
Proof.
  intros Hp Hwf He Hw Hbad.
  assert (load_employees self = []) as Hl.
  { unfold load_employees. destruct Hbad as [[e Hr]|Hg].
    - by eapply StoreFacts.load_unreadable.
    - by apply StoreFacts.load_garbled. }
  assert (¬ duplicate self) as Hdup.
  { unfold duplicate. rewrite Hl. by intros ?%elem_of_nil. }
  rewrite upload_images_writes by done. by rewrite Hl.
Qed.

Lemma new_employee_enrolled_well file_paths self :
  well_formed self → omap first_face file_paths ≠ [] →
  enrolled_well (new_employee file_paths self).
Proof.
  intros (Hn & Hi & Hd) He. unfold enrolled_well. simpl.
  split; [done|]. split; [done|]. split; [apply PyFacts.strip_strip|done].
Qed.

Lemma all_enrolled_well_load d :
  all_enrolled_well d → Forall enrolled_well (Store.load_employees d).
Proof.
  intros H. destruct (StoreFacts.load_cases d) as [->|Hf]; [constructor|].
  by apply H.
Qed.

(** What enrollment writes is well formed: in every store reachable by
    enrollment, each identity has an all-digit id, a name that is not empty
    and has no whitespace around it, and at least one encoding; the same
    holds of every roster loaded from such a store. *)
Theorem reachable_stores_hold_enrolled_identities (d : Store.disk) :
  reachable d →
  all_enrolled_well d ∧ Forall enrolled_well (Store.load_employees d).
Proof.
  intros Hd. assert (all_enrolled_well d) as H;
    [|split; [done|by apply all_enrolled_well_load]].
  induction Hd as [d Hf|d Hf|file_paths self _ IH|d d' _ IH Hf].
  - intros r. rewrite Hf. congruence.
  - intros r. rewrite Hf. intros [= <-]. constructor.
  - destruct (EnrollmentFacts.upload_images_exits image load_image_file
                face_encodings file_paths self)
      as [->|[(_ & -> & _)|[[_ ->]|(_ & Hwf & _ & Hne & _ & ->)]]]; try done.
    + simpl. by rewrite process_images_state.
    + destruct (EnrollmentFacts.process_images_spec image load_image_file
                  face_encodings file_paths self) as [H1 _].
      rewrite H1 in Hne. unfold Store.write.
      destruct (Store.on_write (json_file self)); simpl; [|done|].
      * intros r [= <-]. apply Forall_app. split.
        -- by apply all_enrolled_well_load.
        -- apply Forall_singleton. by apply new_employee_enrolled_well.
      * intros r [=].
  - intros r. rewrite Hf. apply IH.
Qed.

(** Enrollment only appends: the roster in memory when a call returns
    starts with the loaded one; and as long as the file can be read and
    [json.dump] does not fail, the roster loaded after a call starts with
    the roster loaded before it and has at most one identity more. *)
Theorem enrollment_only_appends (file_paths : list string) (self : app) :
  (∀ employees, (upload_images file_paths self).1 = Some employees →
     load_employees self `prefix_of` employees)
  ∧ (Store.read_raises (json_file self) = None →
     (∀ e, Store.on_write (json_file self) ≠ Store.Dump_raises e) →
     load_employees self `prefix_of` load_employees (upload_images file_paths self).2
     ∧ length (load_employees (upload_images file_paths self).2)
       ≤ S (length (load_employees self))).
Proof.
  destruct (EnrollmentFacts.upload_images_exits image load_image_file
              face_encodings file_paths self)
    as [Hc|[(_ & Hj & Hm)|[[_ Hc]|(_ & _ & _ & _ & Hm & Hj)]]].
  - rewrite Hc. split; [by intros r [=]|]. intros _ _. split; [done|]. simpl. lia.
  - split.
    + intros r Hr. destruct Hm as [Hm|Hm]; rewrite Hm in Hr; [done|].
      by injection Hr as <-.
    + intros _ _. unfold load_employees in *. rewrite Hj. split; [done|lia].
  - rewrite Hc. split; [by intros r [= <-]|]. intros _ _.
    unfold load_employees. simpl. rewrite process_images_state. simpl.
    split; [done|lia].
  - split.
    + intros r Hr. rewrite Hm in Hr. injection Hr as <-. by apply prefix_app_r.
    + intros Hr Hd. unfold load_employees in *. rewrite Hj. unfold Store.write.
      destruct (Store.on_write (json_file self)) as [|e|e] eqn:Hw; simpl.
      * assert (∀ r rr ow, rr = None →
                  Store.load_employees
                    {| Store.file := Some (Store.Document r);
                       Store.read_raises := rr; Store.on_write := ow |} = r)
          as Hload by (intros; by apply StoreFacts.load_document).
        rewrite Hload by done.
        split; [by apply prefix_app_r|]. rewrite length_app. simpl. lia.
      * split; [done|lia].
      * by destruct (Hd e).
Qed.

End Facts.

End EnrollmentMore.


(** ** More on recognition and on the report *)

Module RecognitionMore.
Import RecognizeFaceApp Described.

Lemma table_or_sentence sentence (employees : roster) :
  table_or sentence employees = Paragraph sentence "Normal" ↔ employees = [].
Proof. destruct employees; simpl; split; congruence. Qed.


Section Report.

Variable doc_build : string → list flowable → Py.result unit.

Local Abbreviation generate_attendance_report :=
  (generate_attendance_report doc_build).

(** [generate_attendance_report] hands [report_elements] to [doc.build]. *)
Lemma generate_attendance_report_spec employees recognized_ids timestamp self :
  generate_attendance_report employees recognized_ids timestamp self
  = match doc_build (pdf_name timestamp)
            (report_elements employees recognized_ids timestamp) with
    | Py.Ok _ =>
        config_text ("Attendance report saved as " +:+ pdf_name timestamp)
          (write_pdf (pdf_name timestamp)
             (report_elements employees recognized_ids timestamp) self)
    | Py.Raise e => config_text ("Error generating PDF: " +:+ e) self
    end.
Proof.
  unfold RecognizeFaceApp.generate_attendance_report, report_elements.
  rewrite AttendanceFacts.present_table_spec, AttendanceFacts.absent_table_spec.
  fold (pdf_name timestamp).
  destruct (present employees recognized_ids) as [|p ps];
    destruct (absent employees recognized_ids) as [|a as'];
    cbn [length Nat.eqb Datatypes.app table_or];
    by destruct (doc_build _ _).
Qed.

(** The report, from the roster and the recognized set: the PDF is built
    from six flowables, the title with the underscores of the time stamp
    replaced by spaces, a heading and the table of the identities whose id is
    in the set, a spacer, a heading and the table of the other identities;
    a table without a row is replaced by a sentence, which happens for the
    first table exactly when no identity has its id in the set, and for the
    second exactly when all have. When [doc.build] raises, nothing is built
    and the label shows the exception. *)
Theorem report_is_built_from_the_partition
    (employees : roster) (recognized_ids : gset string) (timestamp : string)
    (self : app) :
  generate_attendance_report employees recognized_ids timestamp self
  = match doc_build (pdf_name timestamp)
            (report_elements employees recognized_ids timestamp) with
    | Py.Ok _ =>
        config_text ("Attendance report saved as " +:+ pdf_name timestamp)
          (write_pdf (pdf_name timestamp)
             (report_elements employees recognized_ids timestamp) self)
    | Py.Raise e => config_text ("Error generating PDF: " +:+ e) self
    end
  ∧ (report_elements employees recognized_ids timestamp !! 2
     = Some (Paragraph "No employees present" "Normal")
     ↔ ∀ e, e ∈ employees → Employee.id e ∉ recognized_ids)
  ∧ (report_elements employees recognized_ids timestamp !! 5
     = Some (Paragraph "No employees absent" "Normal")
     ↔ ∀ e, e ∈ employees → Employee.id e ∈ recognized_ids).
Proof.
  split_and!.
  - apply generate_attendance_report_spec.
  - unfold report_elements. cbn [lookup list_lookup].
    split.
    + intros [= H%table_or_sentence] e He Hin.
      assert (e ∈ present employees recognized_ids) as Hp
        by (unfold present; by apply list_elem_of_filter).
      rewrite H in Hp. by apply elem_of_nil in Hp.
    + intros H. f_equal. apply table_or_sentence.
      destruct (present employees recognized_ids) as [|p ps] eqn:Hp; [done|].
      assert (p ∈ present employees recognized_ids) as Hin
        by (rewrite Hp; apply list_elem_of_here).
      unfold present in Hin. apply list_elem_of_filter in Hin as [Hid Hin].
      by destruct (H p Hin).
  - unfold report_elements. cbn [lookup list_lookup].
    split.
    + intros [= H%table_or_sentence] e He.
      destruct (decide (Employee.id e ∈ recognized_ids)) as [|Hn]; [done|].
      assert (e ∈ absent employees recognized_ids) as Ha
        by (unfold absent; by apply list_elem_of_filter).
      rewrite H in Ha. by apply elem_of_nil in Ha.
    + intros H. f_equal. apply table_or_sentence.
      destruct (absent employees recognized_ids) as [|a as'] eqn:Ha; [done|].
      assert (a ∈ absent employees recognized_ids) as Hin
        by (rewrite Ha; apply list_elem_of_here).
      unfold absent in Hin. apply list_elem_of_filter in Hin as [Hid Hin].
      by destruct (Hid (H a Hin)).
Qed.

End Report.

Section Loops.

Variable norm_diff : encoding → encoding → float.
Variable broadcast_error : list encoding → encoding → option string.

Local Abbreviation match_faces := (match_faces norm_diff broadcast_error).
Local Abbreviation matched := (matched norm_diff).
Local Abbreviation comparable := (comparable broadcast_error).

Lemma matched_app unknown_encodings1 unknown_encodings2 employee :
  matched (unknown_encodings1 ++ unknown_encodings2) employee
  ↔ matched unknown_encodings1 employee ∨ matched unknown_encodings2 employee.
Proof.
  unfold RecognizeFaceApp.matched. split.
  - intros (known & u & ? & [?|?]%elem_of_app & ?);
      [left|right]; by exists known, u.
  - intros [(known & u & ? & ? & ?)|(known & u & ? & ? & ?)];
      exists known, u; (split; [done|]); (split; [|done]);
      apply elem_of_app; auto.
Qed.

Lemma matched_ext unknown_encodings unknown_encodings' employee :
  (∀ u, u ∈ unknown_encodings ↔ u ∈ unknown_encodings') →
  matched unknown_encodings employee → matched unknown_encodings' employee.
Proof.
  intros H (known & u & ? & ?%H & ?). by exists known, u.
Qed.

(** The recognized set accumulates: the loops only add to the set they
    start from, also when a comparison raises; and when the encodings can
    be compared, the set of a longer list of query encodings, or of a
    longer roster, is the union of the sets of its parts. *)
Theorem recognized_set_accumulates
    (employees employees' : roster) (unknown_encodings unknown_encodings' : list encoding)
    (recognized_ids : gset string) (self : app) :
  recognized_ids
    ⊆ (match_faces employees unknown_encodings (recognized_ids, self)).2.1
  ∧ (comparable employees (unknown_encodings ++ unknown_encodings') →
     (match_faces employees (unknown_encodings ++ unknown_encodings')
        (recognized_ids, self)).2.1
     = (match_faces employees unknown_encodings (recognized_ids, self)).2.1
       ∪ (match_faces employees unknown_encodings' (∅, self)).2.1)
  ∧ (comparable (employees ++ employees') unknown_encodings →
     (match_faces (employees ++ employees') unknown_encodings
        (recognized_ids, self)).2.1
     = (match_faces employees unknown_encodings (recognized_ids, self)).2.1
       ∪ (match_faces employees' unknown_encodings (∅, self)).2.1).
Proof.
  split_and!.
  - apply elem_of_subseteq. intros i Hi.
    by destruct (RecognitionFacts.match_faces_spec norm_diff broadcast_error
                   employees unknown_encodings recognized_ids self)
      as (_ & H & _); apply H.
  - intros Hc. pose proof Hc as [Hc1 Hc2]%RecognitionFacts.comparable_app_r.
    apply set_eq. intros i. rewrite elem_of_union.
    rewrite !RecognitionFacts.match_faces_elem_of by done.
    split.
    + intros [?|(e & ? & ? & [?|?]%matched_app)].
      * by left; left.
      * left. right. by exists e.
      * right. right. by exists e.
    + intros [[?|(e & ? & ? & ?)]|[[]%not_elem_of_empty|(e & ? & ? & ?)]].
      * by left.
      * right. exists e. rewrite matched_app. auto.
      * right. exists e. rewrite matched_app. auto.
  - intros Hc. pose proof Hc as [Hc1 Hc2]%RecognitionFacts.comparable_app_l.
    apply set_eq. intros i. rewrite elem_of_union.
    rewrite !RecognitionFacts.match_faces_elem_of by done.
    split.
    + intros [?|(e & [?|?]%elem_of_app & ? & ?)].
      * by left; left.
      * left. right. by exists e.
      * right. right. by exists e.
    + intros [[?|(e & ? & ? & ?)]|[[]%not_elem_of_empty|(e & ? & ? & ?)]].
      * by left.
      * right. exists e. rewrite elem_of_app. auto.
      * right. exists e. rewrite elem_of_app. auto.
Qed.

(** When the encodings can be compared, the recognized set does not depend
    on the order of the roster, on the order of the faces of the query
    image, or on repetitions in either: two rosters with the same identities
    and two lists with the same query encodings give the same set, and no
    exception in either order. *)
Theorem recognized_set_ignores_order
    (employees employees' : roster) (unknown_encodings unknown_encodings' : list encoding)
    (recognized_ids : gset string) (self self' : app) :
  (∀ e, e ∈ employees ↔ e ∈ employees') →
  (∀ u, u ∈ unknown_encodings ↔ u ∈ unknown_encodings') →
  comparable employees unknown_encodings →
  (match_faces employees unknown_encodings (recognized_ids, self)).2.1
  = (match_faces employees' unknown_encodings' (recognized_ids, self')).2.1
  ∧ (match_faces employees unknown_encodings (recognized_ids, self)).1
    = Py.Ok ()
  ∧ (match_faces employees' unknown_encodings' (recognized_ids, self')).1
    = Py.Ok ().
Proof.
  intros He Hu Hc.
  assert (comparable employees' unknown_encodings') as Hc'.
  { apply (RecognitionFacts.comparable_ext _ employees _ unknown_encodings);
      [intros e; apply He|intros u; apply Hu|done]. }
  split; [|split; by apply RecognitionFacts.match_faces_ok].
  apply set_eq. intros i.
  rewrite !RecognitionFacts.match_faces_elem_of by done.
  split; (intros [?|(e & Hin & ? & Hm)]; [by left|right; exists e]).
  - split; [by apply He|]. split; [done|]. by apply (matched_ext unknown_encodings).
  - split; [by apply He|]. split; [done|].
    apply (matched_ext unknown_encodings'); [|done]. intros u. by rewrite Hu.
Qed.

End Loops.

Section Program.

Variable image : Type.
Variable load_image_file : string → Py.result image.
Variable face_encodings : image → Py.result (list encoding).
Variable norm_diff : encoding → encoding → float.
Variable broadcast_error : list encoding → encoding → option string.
Variable doc_build : string → list flowable → Py.result unit.

Local Abbreviation match_faces := (match_faces norm_diff broadcast_error).
Local Abbreviation matched := (matched norm_diff).
Local Abbreviation comparable := (comparable broadcast_error).
Local Abbreviation recognize_image :=
  (recognize_image image load_image_file face_encodings norm_diff
     broadcast_error doc_build).

(** The state after a call that reaches the report. *)
Lemma recognize_image_report_state file_path timestamp self unknown_encodings :
  file_path ≠ "" → load_employees self ≠ [] →
  load_image_file file_path ≫= face_encodings = Py.Ok unknown_encodings →
  unknown_encodings ≠ [] →
  comparable (load_employees self) unknown_encodings →
  (recognize_image file_path timestamp self).2
  = match doc_build (pdf_name timestamp)
            (report_elements (load_employees self)
               (match_faces (load_employees self) unknown_encodings (∅, self)).2.1
               timestamp) with
    | Py.Ok _ =>
        config_text ("Attendance report saved as " +:+ pdf_name timestamp)
          (write_pdf (pdf_name timestamp)
             (report_elements (load_employees self)
                (match_faces (load_employees self) unknown_encodings (∅, self)).2.1
                timestamp)
             (match_faces (load_employees self) unknown_encodings (∅, self)).2.2)
    | Py.Raise e =>
        config_text ("Error generating PDF: " +:+ e)
          (match_faces (load_employees self) unknown_encodings (∅, self)).2.2
    end.
Proof.
  intros Hp Hl He Hu Hc.
  rewrite (RecognitionFacts.recognize_image_report _ _ _ _ _ _ _ _ _
             unknown_encodings) by done.
  cbn [snd]. apply generate_attendance_report_spec.
Qed.

(** A recognition that reaches the loops ends with the report, not with
    the name of who was recognized, when the encodings can be compared: for
    a non-empty loaded roster and an image with at least one face, when
    [doc.build] succeeds the label says where the report was saved and
    exactly one PDF, named after the time stamp and made of the report of the
    recognized set, is added to those built; when [doc.build] raises, the
    label shows that exception and no PDF is added. When a comparison
    raises, the label shows its exception and no PDF is added. *)
Theorem recognition_ends_with_the_report
    (file_path timestamp : string) (self : app) (unknown_encodings : list encoding) :
  file_path ≠ "" → load_employees self ≠ [] →
  load_image_file file_path ≫= face_encodings = Py.Ok unknown_encodings →
  unknown_encodings ≠ [] →
  (comparable (load_employees self) unknown_encodings →
   (doc_build (pdf_name timestamp)
      (report_elements (load_employees self)
         (match_faces (load_employees self) unknown_encodings (∅, self)).2.1
         timestamp) = Py.Ok () →
    result_label (recognize_image file_path timestamp self).2
    = "Attendance report saved as attendance_" +:+ timestamp +:+ ".pdf"
    ∧ built (recognize_image file_path timestamp self).2
      = built self
        ++ [(pdf_name timestamp,
             report_elements (load_employees self)
               (match_faces (load_employees self) unknown_encodings (∅, self)).2.1
               timestamp)])
   ∧ (∀ e, doc_build (pdf_name timestamp)
             (report_elements (load_employees self)
                (match_faces (load_employees self) unknown_encodings (∅, self)).2.1
                timestamp) = Py.Raise e →
        result_label (recognize_image file_path timestamp self).2
        = "Error generating PDF: " +:+ e
        ∧ built (recognize_image file_path timestamp self).2 = built self))
  ∧ (∀ e, (match_faces (load_employees self) unknown_encodings (∅, self)).1
          = Py.Raise e →
       result_label (recognize_image file_path timestamp self).2
       = "Error: " +:+ e
       ∧ built (recognize_image file_path timestamp self).2 = built self).
Proof.
  intros Hp Hl He Hu.
  destruct (RecognitionFacts.match_faces_spec norm_diff broadcast_error
              (load_employees self) unknown_encodings ∅ self)
    as (_ & _ & _ & _ & _ & Hb & _).
  split.
  - intros Hc.
    rewrite (recognize_image_report_state _ _ _ unknown_encodings) by done.
    split.
    + intros ->. cbn [config_text write_pdf result_label built]. by rewrite Hb.
    + intros e ->. cbn [config_text result_label built]. by rewrite Hb.
  - intros e Hraise.
    by rewrite (RecognitionFacts.recognize_image_raise _ _ _ _ _ _ _ _ _
                  unknown_encodings e).
Qed.

(** A call that ends without a recognized set builds no report and changes
    at most the label: it leaves the application as it was (no file chosen),
    or sets the label to the text for an empty roster, to the text for an
    image without a face, or to the text of the exception raised while
    reading the image or looking for faces. *)
Theorem recognition_without_a_set_changes_the_label_only
    (file_path timestamp : string) (self : app) :
  (recognize_image file_path timestamp self).1 = None →
  (file_path = "" ∧ (recognize_image file_path timestamp self).2 = self)
  ∨ (load_employees self = []
     ∧ (recognize_image file_path timestamp self).2
       = config_text "No employees registered" self)
  ∨ (load_image_file file_path ≫= face_encodings = Py.Ok []
     ∧ (recognize_image file_path timestamp self).2
       = config_text "No faces detected" self)
  ∨ (∃ e, load_image_file file_path ≫= face_encodings = Py.Raise e
          ∧ (recognize_image file_path timestamp self).2
            = config_text ("Error: " +:+ e) self).
Proof.
  intros Hnone.
  destruct (decide (file_path = "")) as [->|Hp]; [by left|]. right.
  destruct (decide (load_employees self = [])) as [Hl|Hl].
  { left. by rewrite RecognitionFacts.recognize_image_no_employees. }
  right.
  destruct (load_image_file file_path ≫= face_encodings)
    as [unknown_encodings|e] eqn:He.
  - destruct (decide (unknown_encodings = [])) as [->|Hu].
    + left. by rewrite RecognitionFacts.recognize_image_no_faces.
    + rewrite (RecognitionFacts.recognize_image_loops _ _ _ _ _ _ _ _ _
                 unknown_encodings) in Hnone by done.
      done.
  - right. exists e.
    by rewrite (RecognitionFacts.recognize_image_error _ _ _ _ _ _ _ _ _ e).
Qed.


End Program.

End RecognitionMore.


(** ** From enrollment to recognition *)

Module EndToEnd.

Section Programs.

Variable image : Type.
Variable load_image_file : string → Py.result image.
Variable face_encodings : image → Py.result (list encoding).
Variable norm_diff : encoding → encoding → float.
Variable broadcast_error : list encoding → encoding → option string.
Variable doc_build : string → list RecognizeFaceApp.flowable → Py.result unit.

Local Abbreviation upload_images :=
  (AddEmployeeApp.upload_images image load_image_file face_encodings).
Local Abbreviation first_face :=
  (AddEmployeeApp.first_face image load_image_file face_encodings).
Local Abbreviation new_employee :=
  (AddEmployeeApp.new_employee image load_image_file face_encodings).
Local Abbreviation recognize_image :=
  (RecognizeFaceApp.recognize_image image load_image_file face_encodings
     norm_diff broadcast_error doc_build).

(** Who was enrolled is recognized: after an enrollment that succeeds on
    a file that can be written and read, the recognition program, reading
    the same file, recognizes the new id in every image with a face within
    the tolerance of the first face of one of the enrollment images,
    provided the encodings of the file can be compared with the faces of
    that image. *)
Theorem enrolled_face_is_recognized
    (file_paths : list string) (self : AddEmployeeApp.app)
    (enrolled_path : string) (known : encoding)
    (window : RecognizeFaceApp.app) (file_path timestamp : string)
    (unknown_encodings : list encoding) (unknown : encoding) :
  AddEmployeeApp.well_formed self → ¬ AddEmployeeApp.duplicate self →
  Store.on_write (AddEmployeeApp.json_file self) = Store.Writes →
  Store.read_raises (AddEmployeeApp.json_file self) = None →
  enrolled_path ∈ file_paths → first_face enrolled_path = Some known →
  RecognizeFaceApp.json_file window
  = AddEmployeeApp.json_file (upload_images file_paths self).2 →
  file_path ≠ "" →
  load_image_file file_path ≫= face_encodings = Py.Ok unknown_encodings →
  unknown ∈ unknown_encodings →
  PrimFloat.leb (norm_diff known unknown) RecognizeFaceApp.tolerance = true →
  RecognizeFaceApp.comparable broadcast_error
    (RecognizeFaceApp.load_employees window) unknown_encodings →
  ∃ recognized_ids,
    (recognize_image file_path timestamp window).1 = Some recognized_ids
    ∧ Py.strip (AddEmployeeApp.id_entry self) ∈ recognized_ids.
Proof.
  intros Hwf Hdup Hw Hr Hin Hff Hj Hp He Hu Hle Hc.
  assert (file_paths ≠ []) as Hfp.
  { intros ->. by apply elem_of_nil in Hin. }
  assert (known ∈ omap first_face file_paths) as Hk.
  { apply list_elem_of_omap. by exists enrolled_path. }
  assert (omap first_face file_paths ≠ []) as Hne.
  { intros Hnil. rewrite Hnil in Hk. by apply elem_of_nil in Hk. }
  assert (RecognizeFaceApp.load_employees window
          = AddEmployeeApp.load_employees self ++ [new_employee file_paths self])
    as Hl.
  { unfold RecognizeFaceApp.load_employees. rewrite Hj.
    by apply (EnrollmentMore.upload_images_writes_load image load_image_file
                face_encodings). }
  assert (unknown_encodings ≠ []) as Hune.
  { intros ->. by apply elem_of_nil in Hu. }
  eexists. split.
  - rewrite (RecognitionFacts.recognize_image_report _ _ _ _ _ _ _ _ _
               unknown_encodings); [done|done| |done|done|done].
    rewrite Hl. by destruct (AddEmployeeApp.load_employees self).
  - apply RecognitionFacts.match_faces_elem_of; [done|].
    right. exists (new_employee file_paths self). split.
    + rewrite Hl. apply elem_of_app. right. apply list_elem_of_here.
    + split; [done|]. by exists known, unknown.
Qed.

End Programs.

End EndToEnd.


(** ** The further properties at concrete inputs *)

Module MoreInstances.
Import Example MoreExamples.

Local Ltac not_in_list :=
  let H := fresh in
  intros H; vm_compute in H;
  repeat (apply elem_of_cons in H as [H|H]; [discriminate H|]);
  by apply elem_of_nil in H.

Local Ltac carol_is_well_formed :=
  split; [discriminate|split; [discriminate|reflexivity]].

Lemma failed_save_is_reported_witness :
  AddEmployeeApp.save_employees [bob] (enrolling "Carol" "3" read_only)
  = AddEmployeeApp.show (Described.save_error_box denied)
      (enrolling "Carol" "3" read_only)
  ∧ AddEmployeeApp.load_employees
      (AddEmployeeApp.save_employees [bob] (enrolling "Carol" "3" read_only))
    = AddEmployeeApp.load_employees (enrolling "Carol" "3" read_only).
Proof.
  destruct (EnrollmentMore.failed_save_is_reported [bob]
              (enrolling "Carol" "3" read_only) denied) as [H _].
  apply H. reflexivity.
Defined.

Lemma every_image_is_stored_or_reported_witness :
  Described.image_box image load_image_file face_encodings "torn.jpg"
  = Some (showerror "Error"
            ("Failed to process " +:+ "torn.jpg" +:+ ": "
             +:+ "cannot identify image file")).
Proof.
  destruct (EnrollmentMore.every_image_is_stored_or_reported
              image load_image_file face_encodings carol_batch carol)
    as (_ & _ & _ & H & _).
  apply H. reflexivity.
Defined.

Lemma successful_enrollment_witness :
  upload_images carol_batch carol
  = (Some (AddEmployeeApp.load_employees carol
           ++ [AddEmployeeApp.new_employee image load_image_file face_encodings
                 carol_batch carol]),
     {| AddEmployeeApp.name_entry := AddEmployeeApp.name_entry carol;
        AddEmployeeApp.id_entry := AddEmployeeApp.id_entry carol;
        AddEmployeeApp.json_file :=
          {| Store.file :=
               Some (Store.Document
                       (AddEmployeeApp.load_employees carol
                        ++ [AddEmployeeApp.new_employee image load_image_file
                              face_encodings carol_batch carol]));
             Store.read_raises :=
               Store.read_raises (AddEmployeeApp.json_file carol);
             Store.on_write := Store.Writes |};
        AddEmployeeApp.shown :=
          AddEmployeeApp.shown carol
          ++ omap (Described.image_box image load_image_file face_encodings)
               carol_batch
          ++ [Described.success_box image load_image_file face_encodings
                carol_batch carol] |})
  ∧ (Store.read_raises (AddEmployeeApp.json_file carol) = None →
     AddEmployeeApp.load_employees (upload_images carol_batch carol).2
     = AddEmployeeApp.load_employees carol
       ++ [AddEmployeeApp.new_employee image load_image_file face_encodings
             carol_batch carol]).
Proof.
  apply (EnrollmentMore.successful_enrollment image load_image_file
           face_encodings carol_batch carol).
  - discriminate.
  - carol_is_well_formed.
  - not_in_list.
  - discriminate.
  - reflexivity.
Defined.

Lemma failed_save_still_reports_success_witness :
  AddEmployeeApp.json_file
    (upload_images carol_batch (enrolling "Carol" "3" read_only)).2 = read_only
  ∧ AddEmployeeApp.shown
      (upload_images carol_batch (enrolling "Carol" "3" read_only)).2
    = [] ++ omap (Described.image_box image load_image_file face_encodings)
              carol_batch
      ++ [Described.save_error_box denied;
          Described.success_box image load_image_file face_encodings
            carol_batch (enrolling "Carol" "3" read_only)].
Proof.
  destruct (EnrollmentMore.failed_save_still_reports_success
              image load_image_file face_encodings
              carol_batch (enrolling "Carol" "3" read_only) denied) as [H _].
  - discriminate.
  - carol_is_well_formed.
  - not_in_list.
  - discriminate.
  - apply H. reflexivity.
Defined.

Lemma enrolled_id_is_taken_witness :
  upload_images ["bob.jpg"]
    (enrolling "Caroline" " 3" (AddEmployeeApp.json_file
                                  (upload_images carol_batch carol).2))
  = (Some (AddEmployeeApp.load_employees carol
           ++ [AddEmployeeApp.new_employee image load_image_file face_encodings
                 carol_batch carol]),
     AddEmployeeApp.show (showerror "Error" "Employee ID already exists")
       (enrolling "Caroline" " 3" (AddEmployeeApp.json_file
                                     (upload_images carol_batch carol).2))).
Proof.
  apply (EnrollmentMore.enrolled_id_is_taken image load_image_file
           face_encodings carol_batch ["bob.jpg"] carol).
  - discriminate.
  - carol_is_well_formed.
  - not_in_list.
  - discriminate.
  - reflexivity.
  - reflexivity.
  - reflexivity.
  - reflexivity.
  - discriminate.
  - discriminate.
Defined.

Lemma unloadable_store_is_overwritten_witness :
  (upload_images carol_batch (enrolling "Carol" "3" write_only)).1
  = Some [AddEmployeeApp.new_employee image load_image_file face_encodings
            carol_batch (enrolling "Carol" "3" write_only)]
  ∧ Store.file
      (AddEmployeeApp.json_file
         (upload_images carol_batch (enrolling "Carol" "3" write_only)).2)
    = Some (Store.Document
              [AddEmployeeApp.new_employee image load_image_file face_encodings
                 carol_batch (enrolling "Carol" "3" write_only)]).
Proof.
  apply (EnrollmentMore.unloadable_store_is_overwritten image load_image_file
           face_encodings carol_batch (enrolling "Carol" "3" write_only)).
  - discriminate.
  - carol_is_well_formed.
  - discriminate.
  - reflexivity.
  - left. by eexists.
Defined.

Lemma reachable_stores_hold_enrolled_identities_witness :
  Described.all_enrolled_well
    (AddEmployeeApp.json_file
       (upload_images carol_batch (enrolling "Carol" "3" no_file)).2)
  ∧ Forall Described.enrolled_well
      (Store.load_employees
         (AddEmployeeApp.json_file
            (upload_images carol_batch (enrolling "Carol" "3" no_file)).2)).
Proof.
  apply (EnrollmentMore.reachable_stores_hold_enrolled_identities
           image load_image_file face_encodings).
  apply (AddEmployeeApp.reach_upload image load_image_file face_encodings
           carol_batch (enrolling "Carol" "3" no_file)).
  apply AddEmployeeApp.reach_none. reflexivity.
Defined.

Lemma enrollment_only_appends_witness :
  AddEmployeeApp.load_employees carol
    `prefix_of` AddEmployeeApp.load_employees (upload_images carol_batch carol).2
  ∧ length (AddEmployeeApp.load_employees (upload_images carol_batch carol).2)
    ≤ S (length (AddEmployeeApp.load_employees carol)).
Proof.
  destruct (EnrollmentMore.enrollment_only_appends image load_image_file
              face_encodings carol_batch carol) as [_ H].
  apply H; [reflexivity|discriminate].
Defined.

Lemma report_is_built_from_the_partition_witness :
  Described.report_elements [alice; bob] {["1"; "2"]} "2026-01-05_0900" !! 5
  = Some (RecognizeFaceApp.Paragraph "No employees absent" "Normal").
Proof.
  destruct (RecognitionMore.report_is_built_from_the_partition doc_build
              [alice; bob] {["1"; "2"]} "2026-01-05_0900"
              (recognizing two_employees)) as (_ & _ & H).
  apply H. intros e He. vm_compute in He.
  apply elem_of_cons in He as [->|He]; [by vm_compute|].
  apply elem_of_cons in He as [->|He]; [by vm_compute|].
  by apply elem_of_nil in He.
Defined.

Lemma recognized_set_accumulates_witness :
  (RecognizeFaceApp.match_faces norm_diff broadcast_error [alice; bob]
     ([alice_again] ++ [bob_face]) (∅, recognizing two_employees)).2.1
  = (RecognizeFaceApp.match_faces norm_diff broadcast_error [alice; bob]
       [alice_again] (∅, recognizing two_employees)).2.1
    ∪ (RecognizeFaceApp.match_faces norm_diff broadcast_error [alice; bob]
         [bob_face] (∅, recognizing two_employees)).2.1.
Proof.
  destruct (RecognitionMore.recognized_set_accumulates norm_diff broadcast_error
              [alice; bob] [] [alice_again] [bob_face] ∅
              (recognizing two_employees)) as (_ & H & _).
  apply H. apply RecognitionFacts.comparable_Forall. repeat constructor.
Defined.

Lemma recognized_set_ignores_order_witness :
  (RecognizeFaceApp.match_faces norm_diff broadcast_error [alice; bob]
     [alice_again; bob_face] (∅, recognizing two_employees)).2.1
  = (RecognizeFaceApp.match_faces norm_diff broadcast_error [bob; alice; bob]
       [bob_face; alice_again] (∅, recognizing no_file)).2.1
  ∧ (RecognizeFaceApp.match_faces norm_diff broadcast_error [alice; bob]
       [alice_again; bob_face] (∅, recognizing two_employees)).1 = Py.Ok ()
  ∧ (RecognizeFaceApp.match_faces norm_diff broadcast_error [bob; alice; bob]
       [bob_face; alice_again] (∅, recognizing no_file)).1 = Py.Ok ().
Proof.
  apply RecognitionMore.recognized_set_ignores_order.
  - intros e. rewrite !elem_of_cons. tauto.
  - intros u. rewrite !elem_of_cons. tauto.
  - apply RecognitionFacts.comparable_Forall. repeat constructor.
Defined.

Lemma recognition_ends_with_the_report_witness :
  RecognizeFaceApp.result_label
    (recognize_image "query.jpg" "2026-01-05_0900" (recognizing two_employees)).2
  = "Attendance report saved as attendance_" +:+ "2026-01-05_0900" +:+ ".pdf"
  ∧ RecognizeFaceApp.built
      (recognize_image "query.jpg" "2026-01-05_0900" (recognizing two_employees)).2
    = RecognizeFaceApp.built (recognizing two_employees)
      ++ [(Described.pdf_name "2026-01-05_0900",
           Described.report_elements
             (RecognizeFaceApp.load_employees (recognizing two_employees))
             (RecognizeFaceApp.match_faces norm_diff broadcast_error
                (RecognizeFaceApp.load_employees (recognizing two_employees))
                [alice_again] (∅, recognizing two_employees)).2.1
             "2026-01-05_0900")].
Proof.
  destruct (RecognitionMore.recognition_ends_with_the_report
              image load_image_file face_encodings norm_diff broadcast_error
              doc_build "query.jpg" "2026-01-05_0900" (recognizing two_employees)
              [alice_again]) as [H _].
  - discriminate.
  - discriminate.
  - reflexivity.
  - discriminate.
  - destruct H as [H _].
    + apply RecognitionFacts.comparable_Forall. repeat constructor.
    + apply H. reflexivity.
Defined.

Lemma recognition_without_a_set_changes_the_label_only_witness :
  ("torn.jpg" = ""
   ∧ (recognize_image "torn.jpg" "2026-01-05_0900" (recognizing two_employees)).2
     = recognizing two_employees)
  ∨ (RecognizeFaceApp.load_employees (recognizing two_employees) = []
     ∧ (recognize_image "torn.jpg" "2026-01-05_0900" (recognizing two_employees)).2
       = RecognizeFaceApp.config_text "No employees registered"
           (recognizing two_employees))
  ∨ (load_image_file "torn.jpg" ≫= face_encodings = Py.Ok []
     ∧ (recognize_image "torn.jpg" "2026-01-05_0900" (recognizing two_employees)).2
       = RecognizeFaceApp.config_text "No faces detected"
           (recognizing two_employees))
  ∨ (∃ e, load_image_file "torn.jpg" ≫= face_encodings = Py.Raise e
          ∧ (recognize_image "torn.jpg" "2026-01-05_0900"
               (recognizing two_employees)).2
            = RecognizeFaceApp.config_text ("Error: " +:+ e)
                (recognizing two_employees)).
Proof.
  apply (RecognitionMore.recognition_without_a_set_changes_the_label_only
           image load_image_file face_encodings norm_diff broadcast_error
           doc_build).
  reflexivity.
Defined.


Lemma enrolled_face_is_recognized_witness :
  ∃ recognized_ids,
    (recognize_image "query.jpg" "2026-01-05_0900"
       (recognizing (AddEmployeeApp.json_file (upload_images carol_batch carol).2))).1
    = Some recognized_ids
    ∧ Py.strip (AddEmployeeApp.id_entry carol) ∈ recognized_ids.
Proof.
  apply (EndToEnd.enrolled_face_is_recognized
           image load_image_file face_encodings norm_diff broadcast_error
           doc_build carol_batch carol "alice.jpg" alice_face
           (recognizing (AddEmployeeApp.json_file (upload_images carol_batch carol).2))
           "query.jpg" "2026-01-05_0900" [alice_again] alice_again).
  - carol_is_well_formed.
  - not_in_list.
  - reflexivity.
  - reflexivity.
  - constructor.
  - reflexivity.
  - reflexivity.
  - discriminate.
  - reflexivity.
  - constructor.
  - vm_compute. reflexivity.
  - apply RecognitionFacts.comparable_Forall. vm_compute. repeat constructor.
Defined.

End MoreInstances.


(** ** The document assistant *)

Module AssistantFacts.
Import DocumentSearchAssistant AssistantDescribed.

(** *** Dictionaries *)

Lemma dict_get_set_eq k v d : dict_get k (dict_set k v d) = Some v.
Proof.
  induction d as [|[k' v'] d IH]; simpl.
  - by rewrite String.eqb_refl.
  - destruct (String.eqb k' k) eqn:E; simpl; by rewrite E.
Qed.

Lemma dict_get_set_ne k k' v d :
  k ≠ k' → dict_get k' (dict_set k v d) = dict_get k' d.
Proof.
  intros Hne. induction d as [|[k'' v''] d IH]; simpl.
  - by apply String.eqb_neq in Hne as ->.
  - destruct (String.eqb k'' k) eqn:E; simpl; [|by rewrite IH].
    apply String.eqb_eq in E as ->. by apply String.eqb_neq in Hne as ->.
Qed.

Lemma keys_dict_set k v d :
  keys (dict_set k v d) = if decide (k ∈ keys d) then keys d else keys d ++ [k].
Proof.
  unfold keys. induction d as [|[k' v'] d IH]; [done|].
  cbn [dict_set]. destruct (String.eqb k' k) eqn:E; rewrite !fmap_cons; cbn [fst].
  - apply String.eqb_eq in E as ->. rewrite decide_True; [done|left].
  - apply String.eqb_neq in E. rewrite IH.
    destruct (decide (k ∈ fst <$> d)) as [Hin|Hin].
    + rewrite decide_True; [done|by right].
    + rewrite decide_False; [done|]. by intros [?|?]%elem_of_cons.
Qed.

Lemma last_answer_cons question q a asked :
  last_answer question ((q, a) :: asked)
  = match last_answer question asked with
    | Some a' => Some a'
    | None => if decide (q = question) then Some a else None
    end.
Proof.
  unfold last_answer. rewrite filter_cons. simpl.
  destruct (decide (q = question)) as [->|Hne];
    [|by destruct (snd <$> last _)].
  rewrite last_cons. by destruct (last _).
Qed.

(** Filling a dictionary with the answers, in order. *)
Lemma dict_get_fill question asked : ∀ d,
  dict_get question (foldl (λ d qa, dict_set qa.1 qa.2 d) d asked)
  = match last_answer question asked with
    | Some a => Some a
    | None => dict_get question d
    end.
Proof.
  induction asked as [|[q a] asked IH]; intros d; [done|].
  cbn [foldl fst snd]. rewrite IH, last_answer_cons.
  destruct (last_answer question asked); [done|].
  destruct (decide (q = question)) as [->|Hne].
  - apply dict_get_set_eq.
  - by apply dict_get_set_ne.
Qed.

Lemma keys_fill asked : ∀ d,
  NoDup (keys d) →
  NoDup (keys (foldl (λ d qa, dict_set qa.1 qa.2 d) d asked))
  ∧ ∀ k, k ∈ keys (foldl (λ d qa, dict_set qa.1 qa.2 d) d asked)
         ↔ k ∈ keys d ∨ k ∈ asked.*1.
Proof.
  induction asked as [|[q a] asked IH]; intros d Hd.
  - split; [done|]. intros k. simpl. split; [auto|].
    by intros [?|?%elem_of_nil].
  - cbn [foldl fst snd].
    assert (NoDup (keys (dict_set q a d))) as Hd'.
    { rewrite keys_dict_set. destruct (decide (q ∈ keys d)); [done|].
      apply NoDup_app. split; [done|]. split; [|apply NoDup_singleton].
      by intros k Hk ->%list_elem_of_singleton. }
    destruct (IH _ Hd') as [IH1 IH2]. split; [done|].
    intros k. rewrite IH2, keys_dict_set, fmap_cons, elem_of_cons. simpl.
    destruct (decide (q ∈ keys d)) as [Hin|Hin].
    + split; [intros [?|?]; auto|intros [?|[->|?]]; auto].
    + rewrite elem_of_app, list_elem_of_singleton.
      split; [intros [[?|?]|?]; auto|intros [?|[?|?]]; auto].
Qed.

Lemma ok_values_cons {A} (r : Py.result A) rs :
  ok_values (r :: rs)
  = match r with Py.Ok a => a :: ok_values rs | Py.Raise _ => ok_values rs end.
Proof. by destruct r. Qed.

Lemma length_ok_values {A} (rs : list (Py.result A)) :
  length (ok_values rs) ≤ length rs.
Proof.
  induction rs as [|r rs IH]; [done|]. rewrite ok_values_cons.
  destruct r; simpl; lia.
Qed.

Lemma ok_values_all {A} (rs : list (Py.result A)) :
  length (ok_values rs) = length rs ↔ forallb is_ok rs = true.
Proof.
  induction rs as [|r rs IH]; [done|]. rewrite ok_values_cons.
  pose proof (length_ok_values rs). destruct r; simpl.
  - rewrite <- IH. lia.
  - split; [lia|done].
Qed.

(** *** Uploading *)

Section Upload.

Variable service : Type.
Variable glob : string → list string.
Variable open_rb : string → Py.result string.
Variable files_create : string → service → Py.result string * service.

Local Abbreviation upload_file := (upload_file service open_rb files_create).
Local Abbreviation upload_files := (upload_files service glob open_rb files_create).
Local Abbreviation uploads := (uploads service open_rb files_create).

Lemma length_uploads file_paths : ∀ c,
  length (uploads file_paths c).1 = length file_paths.
Proof.
  induction file_paths as [|p ps IH]; intros c; [done|]. cbn [AssistantDescribed.uploads].
  destruct (open_rb p) as [file|e].
  - destruct (files_create file c) as [r c1]. specialize (IH c1).
    destruct (uploads ps c1). simpl in *. lia.
  - specialize (IH c). destruct (uploads ps c). simpl in *. lia.
Qed.

(** The loop of [upload_files]. *)
Lemma foldl_upload_file file_paths : ∀ self,
  uploaded_file_ids (foldl upload_file self file_paths)
  = uploaded_file_ids self ++ ok_values (uploads file_paths (client self)).1
  ∧ client (foldl upload_file self file_paths)
    = (uploads file_paths (client self)).2
  ∧ length (log (foldl upload_file self file_paths))
    = length (log self) + length file_paths
  ∧ assistant_id (foldl upload_file self file_paths) = assistant_id self
  ∧ thread_id (foldl upload_file self file_paths) = thread_id self.
Proof.
  induction file_paths as [|p ps IH]; intros self.
  - simpl. rewrite app_nil_r. split_and!; (done || lia).
  - cbn [foldl AssistantDescribed.uploads].
    destruct (IH (upload_file self p)) as (I1 & I2 & I3 & I4 & I5).
    rewrite I1, I2, I3, I4, I5. clear IH I1 I2 I3 I4 I5.
    unfold DocumentSearchAssistant.upload_file.
    destruct (open_rb p) as [file|e].
    + destruct (files_create file (client self)) as [[id|e] c]; simpl;
        destruct (uploads ps c) as [rs c']; simpl;
        rewrite ?ok_values_cons, ?length_app, <- ?app_assoc; simpl;
        split_and!; (done || lia).
    + simpl. destruct (uploads ps (client self)) as [rs c']; simpl.
      rewrite ?ok_values_cons, ?length_app; simpl. split_and!; (done || lia).
Qed.

(** What [upload_files] returns and keeps: when no file matches, it
    returns an empty list (not the ids uploaded by earlier calls), logs one
    warning and contacts nobody; otherwise it returns the list it keeps,
    which is the list it had followed by the ids of the files that could be
    opened and uploaded, in the order of [glob], a file that fails being
    skipped; it logs one record per file and two more, and leaves the
    assistant and the thread as they were. *)
Theorem upload_files_returns_the_accumulated_ids
    (documents_dir file_pattern : string) (self : t service) :
  (glob (os_path_join documents_dir file_pattern) = [] →
     upload_files documents_dir file_pattern self
     = ([], logged service WARNING
              ("No files matching '" +:+ file_pattern +:+ "' found in '"
               +:+ documents_dir +:+ "'") self))
  ∧ (glob (os_path_join documents_dir file_pattern) ≠ [] →
     (upload_files documents_dir file_pattern self).1
     = uploaded_file_ids self
       ++ ok_values (uploads (glob (os_path_join documents_dir file_pattern))
                       (client self)).1
     ∧ uploaded_file_ids (upload_files documents_dir file_pattern self).2
       = (upload_files documents_dir file_pattern self).1
     ∧ client (upload_files documents_dir file_pattern self).2
       = (uploads (glob (os_path_join documents_dir file_pattern))
            (client self)).2
     ∧ length (log (upload_files documents_dir file_pattern self).2)
       = length (log self)
         + length (glob (os_path_join documents_dir file_pattern)) + 2
     ∧ length (upload_files documents_dir file_pattern self).1
       ≤ length (uploaded_file_ids self)
         + length (glob (os_path_join documents_dir file_pattern))
     ∧ assistant_id (upload_files documents_dir file_pattern self).2
       = assistant_id self
     ∧ thread_id (upload_files documents_dir file_pattern self).2
       = thread_id self).
Proof.
  unfold DocumentSearchAssistant.upload_files.
  set (file_paths := glob (os_path_join documents_dir file_pattern)).
  split.
  - intros ->. done.
  - intros Hne%EnrollmentFacts.not_list_false. rewrite Hne. cbn [fst snd].
    set (self1 := logged service INFO _ self).
    destruct (foldl_upload_file file_paths self1) as (H1 & H2 & H3 & H4 & H5).
    cbn [uploaded_file_ids client log assistant_id thread_id logged].
    rewrite length_app, H1, H2, H3, H4, H5. subst self1.
    cbn [uploaded_file_ids client log assistant_id thread_id logged].
    rewrite !length_app. simpl.
    pose proof (length_ok_values (uploads file_paths (client self)).1) as Hle.
    rewrite length_uploads in Hle.
    split_and!; (done || lia).
Qed.

End Upload.

(** *** Cleaning up *)

Section Cleanup.

Variable service : Type.
Variable files_delete : string → service → Py.result unit * service.

Local Abbreviation delete_file := (delete_file service files_delete).
Local Abbreviation cleanup := (cleanup service files_delete).
Local Abbreviation deletions := (deletions service files_delete).

Lemma length_deletions file_ids : ∀ c,
  length (deletions file_ids c).1 = length file_ids.
Proof.
  induction file_ids as [|id ids IH]; intros c; [done|].
  cbn [AssistantDescribed.deletions].
  destruct (files_delete id c) as [r c1]. specialize (IH c1).
  destruct (deletions ids c1). simpl in *. lia.
Qed.

(** The loop of [cleanup]. *)
Lemma foldl_delete_file file_ids : ∀ success self,
  (foldl delete_file (success, self) file_ids).1
  = success && forallb is_ok (deletions file_ids (client self)).1
  ∧ client (foldl delete_file (success, self) file_ids).2
    = (deletions file_ids (client self)).2
  ∧ uploaded_file_ids (foldl delete_file (success, self) file_ids).2
    = uploaded_file_ids self
  ∧ length (log (foldl delete_file (success, self) file_ids).2)
    = length (log self) + length file_ids.
Proof.
  induction file_ids as [|id ids IH]; intros success self.
  - simpl. rewrite andb_true_r. split_and!; (done || lia).
  - cbn [foldl AssistantDescribed.deletions].
    unfold DocumentSearchAssistant.delete_file at 2 4 6 8.
    destruct (files_delete id (client self)) as [[[]|e] c]; cbn [with_client client];
      match goal with
      | |- context [foldl _ (?b, ?s) ids] =>
          destruct (IH b s) as (I1 & I2 & I3 & I4); rewrite I1, I2, I3, I4
      end;
      cbn [logged with_client client uploaded_file_ids log];
      destruct (deletions ids c) as [rs c']; simpl;
      rewrite ?length_app, ?andb_false_r; simpl; split_and!; (done || lia).
Qed.

(** [cleanup] tries every file and reports any failure: it asks for the
    deletion of each uploaded id once, in order, going on after a failure;
    it returns [True] exactly when every deletion succeeded, so for an
    object without uploaded files it returns [True]; it logs one record per
    id and a last one; and it does not forget the ids: the list of uploaded
    ids is the same afterwards, so that a second [cleanup] asks for the same
    deletions again. *)
Theorem cleanup_tries_every_file (self : t service) :
  (cleanup self).1
  = forallb is_ok (deletions (uploaded_file_ids self) (client self)).1
  ∧ length (deletions (uploaded_file_ids self) (client self)).1
    = length (uploaded_file_ids self)
  ∧ client (cleanup self).2
    = (deletions (uploaded_file_ids self) (client self)).2
  ∧ uploaded_file_ids (cleanup self).2 = uploaded_file_ids self
  ∧ length (log (cleanup self).2)
    = length (log self) + length (uploaded_file_ids self) + 1
  ∧ (cleanup (cleanup self).2).1
    = forallb is_ok
        (deletions (uploaded_file_ids self) (client (cleanup self).2)).1
  ∧ (uploaded_file_ids self = [] → (cleanup self).1 = true).
Proof.
  assert (∀ a : t service,
            (cleanup a).1
            = forallb is_ok (deletions (uploaded_file_ids a) (client a)).1
            ∧ client (cleanup a).2
              = (deletions (uploaded_file_ids a) (client a)).2
            ∧ uploaded_file_ids (cleanup a).2 = uploaded_file_ids a
            ∧ length (log (cleanup a).2)
              = length (log a) + length (uploaded_file_ids a) + 1) as H.
  { intros a. unfold DocumentSearchAssistant.cleanup.
    destruct (foldl_delete_file (uploaded_file_ids a) true a)
      as (H1 & H2 & H3 & H4).
    destruct (foldl delete_file (true, a) (uploaded_file_ids a)) as [b a'].
    cbn [fst snd logged client uploaded_file_ids log] in *.
    rewrite length_app. simpl. split_and!; (done || lia). }
  destruct (H self) as (H1 & H2 & H3 & H4).
  destruct (H (cleanup self).2) as (H1' & _).
  split_and!; try done.
  - apply length_deletions.
  - by rewrite H1', H3.
  - intros Hnil. rewrite H1, Hnil. done.
Qed.

End Cleanup.

(** *** Asking *)

Section Asking.

Variable service : Type.
Variable converse :
  string → nat → string → string → service
  → string * list (level * string) * service.

Local Abbreviation ask_question := (ask_question service converse).
Local Abbreviation ask_each := (ask_each service converse).
Local Abbreviation process_questions := (process_questions service converse).
Local Abbreviation conversation := (conversation service converse).

Lemma conversation_questions questions assistant thread : ∀ c,
  (conversation questions assistant thread c).1.*1 = questions.
Proof.
  induction questions as [|q qs IH]; intros c; [done|].
  cbn [AssistantDescribed.conversation].
  destruct (converse q 300 assistant thread c) as [[answer records] c1].
  specialize (IH c1). destruct (conversation qs assistant thread c1).
  cbn [fst snd] in *. by rewrite fmap_cons, IH.
Qed.

(** The loop of [process_questions] on an object with an assistant and a
    thread. *)
Lemma ask_each_ready questions : ∀ total i results (self : t service),
  not_opt_str (assistant_id self) = false →
  not_opt_str (thread_id self) = false →
  (ask_each total i questions results self).1
  = Py.Ok (foldl (λ d qa, dict_set qa.1 qa.2 d) results
             (conversation questions (default "" (assistant_id self))
                (default "" (thread_id self)) (client self)).1)
  ∧ client (ask_each total i questions results self).2
    = (conversation questions (default "" (assistant_id self))
         (default "" (thread_id self)) (client self)).2
  ∧ assistant_id (ask_each total i questions results self).2 = assistant_id self
  ∧ thread_id (ask_each total i questions results self).2 = thread_id self
  ∧ uploaded_file_ids (ask_each total i questions results self).2
    = uploaded_file_ids self.
Proof.
  induction questions as [|q qs IH]; intros total i results self Ha Ht; [done|].
  cbn [DocumentSearchAssistant.ask_each AssistantDescribed.conversation].
  unfold DocumentSearchAssistant.ask_question.
  cbn [logged assistant_id thread_id client]. rewrite Ha, Ht.
  destruct (converse q 300 (default "" (assistant_id self))
              (default "" (thread_id self)) (client self))
    as [[answer records] c1].
  match goal with
  | |- context [ask_each total (S i) qs ?r ?s] =>
      destruct (IH total (S i) r s) as (I1 & I2 & I3 & I4 & I5); [done|done|];
      rewrite I1, I2, I3, I4, I5
  end.
  cbn [assistant_id thread_id client uploaded_file_ids].
  destruct (conversation qs _ _ c1) as [asked c']. done.
Qed.

(** [process_questions] needs the assistant and the thread only when there
    is a question: on an object whose assistant id or thread id is unset or
    empty, it returns an empty dictionary for an empty list, and for any
    other argument it logs that it processes question 1 and raises the
    [ValueError] of [ask_question], the one about the assistant when both
    are missing, without contacting the service. *)
Theorem process_questions_needs_a_session (self : t service) :
  not_opt_str (assistant_id self) = true ∨ not_opt_str (thread_id self) = true →
  process_questions (Many []) self = (Py.Ok [], self)
  ∧ (∀ question questions,
       process_questions (Many (question :: questions)) self
       = (Py.Raise
            (if not_opt_str (assistant_id self)
             then "Assistant not created. Call create_assistant() first."
             else "Thread not created. Call create_thread() first."),
          logged service INFO
            ("Processing question 1/" +:+ pretty (S (length questions))) self))
  ∧ (∀ question,
       process_questions (One question) self
       = process_questions (Many [question]) self).
Proof.
  intros Hno. split_and!; [done| |done].
  intros question questions. unfold DocumentSearchAssistant.process_questions.
  cbn [DocumentSearchAssistant.ask_each length].
  unfold DocumentSearchAssistant.ask_question.
  cbn [logged assistant_id thread_id].
  destruct (not_opt_str (assistant_id self)) eqn:Ha; [done|].
  destruct Hno as [?|Ht]; [done|]. by rewrite Ht.
Qed.

(** [process_questions] on an object with an assistant and a thread: it
    does not raise; it asks every question once, in order; the dictionary
    it returns has each distinct question as a key, once, and maps it to
    the answer given to its last occurrence; the assistant, the thread and
    the uploaded ids are as before. *)
Theorem process_questions_keeps_the_last_answer
    (questions : list string) (self : t service) :
  not_opt_str (assistant_id self) = false →
  not_opt_str (thread_id self) = false →
  ∃ results,
    (process_questions (Many questions) self).1 = Py.Ok results
    ∧ (∀ question,
         dict_get question results
         = last_answer question
             (conversation questions (default "" (assistant_id self))
                (default "" (thread_id self)) (client self)).1)
    ∧ (conversation questions (default "" (assistant_id self))
         (default "" (thread_id self)) (client self)).1.*1 = questions
    ∧ NoDup (keys results)
    ∧ (∀ question, question ∈ keys results ↔ question ∈ questions)
    ∧ client (process_questions (Many questions) self).2
      = (conversation questions (default "" (assistant_id self))
           (default "" (thread_id self)) (client self)).2
    ∧ assistant_id (process_questions (Many questions) self).2 = assistant_id self
    ∧ thread_id (process_questions (Many questions) self).2 = thread_id self
    ∧ uploaded_file_ids (process_questions (Many questions) self).2
      = uploaded_file_ids self.
Proof.
  intros Ha Ht. unfold DocumentSearchAssistant.process_questions.
  destruct (ask_each_ready questions (length questions) 1 [] self Ha Ht)
    as (H1 & H2 & H3 & H4 & H5).
  eexists. split; [exact H1|].
  pose proof (conversation_questions questions (default "" (assistant_id self))
                (default "" (thread_id self)) (client self)) as Hq.
  destruct (keys_fill (conversation questions (default "" (assistant_id self))
                         (default "" (thread_id self)) (client self)).1 [])
    as [Hnd Hk]; [constructor|].
  split_and!; try done.
  - intros question. rewrite dict_get_fill. by destruct (last_answer _ _).
  - intros question. rewrite Hk, Hq. split; [|auto].
    by intros [?%elem_of_nil|?].
Qed.

End Asking.

(** *** Setting up *)

Section Setup.

Variable service : Type.
Variable getenv_key : option string.
Variable OpenAI : string → service.
Variable assistants_create :
  string → string → string → list string → service → Py.result string * service.
Variable threads_create : service → Py.result string * service.
Variable converse :
  string → nat → string → string → service
  → string * list (level * string) * service.

Local Abbreviation init := (init service getenv_key OpenAI).
Local Abbreviation create_assistant := (create_assistant service assistants_create).
Local Abbreviation create_thread := (create_thread service threads_create).
Local Abbreviation ask_question := (ask_question service converse).

(** Which key the constructor takes: a non-empty key passed as argument
    wins; without one ([None] or the empty string) the key of the
    environment is taken; when that is missing or empty too the
    constructor raises; a constructed object has the key it took, no
    assistant, no thread and no uploaded file. *)
Theorem init_takes_the_argument_then_the_environment
    (api_key_arg : option string) (name : string) (records : list (level * string)) :
  (∀ key, api_key_arg = Some key → key ≠ "" →
     ∃ self, init api_key_arg name records = Py.Ok self ∧ api_key self = key)
  ∧ (api_key_arg = None ∨ api_key_arg = Some "" →
     ∀ key, getenv_key = Some key → key ≠ "" →
       ∃ self, init api_key_arg name records = Py.Ok self ∧ api_key self = key)
  ∧ (api_key_arg = None ∨ api_key_arg = Some "" →
     getenv_key = None ∨ getenv_key = Some "" →
     init api_key_arg name records
     = Py.Raise
         "OpenAI API key is required. Set it in .env file or pass as parameter.")
  ∧ (∀ self, init api_key_arg name records = Py.Ok self →
       api_key self ≠ "" ∧ client self = OpenAI (api_key self)
       ∧ assistant_id self = None ∧ thread_id self = None
       ∧ uploaded_file_ids self = []).
Proof.
  unfold DocumentSearchAssistant.init. split_and!.
  - intros key -> Hkey. destruct key; [done|]. by eexists.
  - intros [->| ->] key -> Hkey; (destruct key; [done|]); by eexists.
  - by intros [->| ->] [->| ->].
  - intros self. destruct (or_str api_key_arg getenv_key) as [[|c key]|];
      try done. by intros [= <-].
Qed.

(** Setting up a session: [create_assistant] asks the service for an
    assistant with the name of the object, the instructions given (the
    default ones when there are none or they are empty) and the ids
    uploaded so far; [create_assistant] and [create_thread] store the id
    they get and return it, or log and raise again the exception of the
    service and leave the id as it was; and once both have returned an id
    that is not empty, [ask_question] does not raise. *)
Theorem session_setup (model : string) (instructions : option string)
    (self : t service) :
  (create_assistant model instructions self).1
  = (assistants_create (assistant_name self)
       (if not_opt_str instructions then default_instructions
        else default "" instructions)
       model (uploaded_file_ids self) (client self)).1
  ∧ (∀ id, (create_assistant model instructions self).1 = Py.Ok id →
       assistant_id (create_assistant model instructions self).2 = Some id)
  ∧ (∀ e, (create_assistant model instructions self).1 = Py.Raise e →
       assistant_id (create_assistant model instructions self).2
       = assistant_id self
       ∧ log (create_assistant model instructions self).2
         = log self ++ [(ERROR, "Error creating assistant: " +:+ e)])
  ∧ (∀ id, (create_thread self).1 = Py.Ok id →
       thread_id (create_thread self).2 = Some id
       ∧ assistant_id (create_thread self).2 = assistant_id self)
  ∧ (∀ e, (create_thread self).1 = Py.Raise e →
       thread_id (create_thread self).2 = thread_id self
       ∧ log (create_thread self).2
         = log self ++ [(ERROR, "Error creating thread: " +:+ e)])
  ∧ (∀ assistant thread question timeout,
       (create_assistant model instructions self).1 = Py.Ok assistant →
       (create_thread (create_assistant model instructions self).2).1
       = Py.Ok thread →
       assistant ≠ "" → thread ≠ "" →
       ∃ answer,
         (ask_question question timeout
            (create_thread (create_assistant model instructions self).2).2).1
         = Py.Ok answer).
Proof.
  assert (∀ a : t service, ∀ id, (create_thread a).1 = Py.Ok id →
            thread_id (create_thread a).2 = Some id
            ∧ assistant_id (create_thread a).2 = assistant_id a) as Hthread.
  { intros a id. unfold DocumentSearchAssistant.create_thread.
    destruct (threads_create (client a)) as [[id'|e] c]; simpl; [|done].
    by intros [= ->]. }
  assert (∀ id, (create_assistant model instructions self).1 = Py.Ok id →
            assistant_id (create_assistant model instructions self).2 = Some id)
    as Hassistant.
  { intros id. unfold DocumentSearchAssistant.create_assistant.
    destruct (assistants_create _ _ _ _ _) as [[id'|e] c]; simpl; [|done].
    by intros [= ->]. }
  split_and!.
  - unfold DocumentSearchAssistant.create_assistant.
    by destruct (assistants_create _ _ _ _ _) as [[id'|e] c].
  - done.
  - intros e. unfold DocumentSearchAssistant.create_assistant.
    destruct (assistants_create _ _ _ _ _) as [[id'|e'] c]; simpl; [done|].
    by intros [= ->].
  - apply Hthread.
  - intros e. unfold DocumentSearchAssistant.create_thread.
    destruct (threads_create (client self)) as [[id'|e'] c]; simpl; [done|].
    by intros [= ->].
  - intros assistant thread question timeout Ha Ht Hane Htne.
    destruct (Hthread _ _ Ht) as [Ht' Ha']. rewrite (Hassistant _ Ha) in Ha'.
    unfold DocumentSearchAssistant.ask_question. rewrite Ha', Ht'.
    destruct assistant; [done|]. destruct thread; [done|].
    cbn [not_opt_str]. destruct (converse _ _ _ _ _) as [[answer records] c].
    by eexists.
Qed.

End Setup.

End AssistantFacts.


(** ** The script around the assistant *)

Module AssistantMainFacts.
Import DocumentSearchAssistant AssistantDescribed AssistantMain.

(** Filling an empty dictionary with answers to distinct questions keeps
    their order. *)
Lemma keys_fill_distinct asked : ∀ d,
  NoDup (keys d ++ asked.*1) →
  keys (foldl (λ d qa, dict_set qa.1 qa.2 d) d asked) = keys d ++ asked.*1.
Proof.
  induction asked as [|[q a] asked IH]; intros d Hd.
  - simpl. by rewrite app_nil_r.
  - cbn [foldl fst snd]. rewrite fmap_cons in Hd. cbn [fst] in Hd.
    assert (q ∉ keys d) as Hq.
    { apply NoDup_app in Hd as (_ & Hd & _). intros Hin.
      apply (Hd q Hin). left. }
    assert (keys (dict_set q a d) = keys d ++ [q]) as Hk.
    { rewrite AssistantFacts.keys_dict_set. by rewrite decide_False. }
    rewrite IH; rewrite Hk, <- app_assoc; [done|]. exact Hd.
Qed.

Section Main.

Variable service : Type.
Variable getenv_key : option string.
Variable OpenAI : string → service.
Variable glob : string → list string.
Variable open_rb : string → Py.result string.
Variable files_create : string → service → Py.result string * service.
Variable files_delete : string → service → Py.result unit * service.
Variable assistants_create :
  string → string → string → list string → service → Py.result string * service.
Variable threads_create : service → Py.result string * service.
Variable converse :
  string → nat → string → string → service
  → string * list (level * string) * service.
Variable write_results : dict → Py.result unit.

Local Abbreviation main_with files_delete :=
  (main service getenv_key OpenAI glob open_rb files_create files_delete
     assistants_create threads_create converse write_results).

(** [main] deletes the uploaded files only after [results.json] is
    written: a run that does not write the file (no key, no document
    uploaded, an exception while creating the assistant or the thread, while
    asking, or while writing) asks for no deletion at all, its outcome being
    the same whatever deleting would do; so the files uploaded before an
    exception stay with the service. *)
Theorem main_deletes_only_after_writing
    (files_delete' : string → service → Py.result unit * service)
    (logged_before : list (level * string)) :
  results_json (main_with files_delete logged_before) = None →
  main_with files_delete logged_before = main_with files_delete' logged_before.
Proof.
  unfold main.
  destruct (init _ _ _ _ _ _) as [self0|e]; [|done].
  destruct (upload_files _ _ _ _ _ _ _) as [file_ids self1].
  destruct (Py.not_list file_ids); [done|].
  destruct (create_assistant _ _ _ _ _) as [[a|e] self2]; [|done].
  destruct (create_thread _ _ _) as [[th|e] self3]; [|done].
  destruct (process_questions _ _ _ _) as [[results|e] self4]; [|done].
  destruct (write_results results) as [[]|e]; [|done].
  destruct (cleanup _ _ _) as [ok self5]. done.
Qed.

Local Abbreviation main :=
  (main service getenv_key OpenAI glob open_rb files_create files_delete
     assistants_create threads_create converse write_results).
Local Abbreviation upload_files := (upload_files service glob open_rb files_create).
Local Abbreviation uploads := (uploads service open_rb files_create).
Local Abbreviation create_assistant := (create_assistant service assistants_create).
Local Abbreviation create_thread := (create_thread service threads_create).
Local Abbreviation process_questions := (process_questions service converse).
Local Abbreviation cleanup := (cleanup service files_delete).

Lemma upload_files_outcome documents_dir file_pattern (self : t service) :
  uploaded_file_ids (upload_files documents_dir file_pattern self).2
  = uploaded_file_ids self
    ++ ok_values (uploads (glob (os_path_join documents_dir file_pattern))
                    (client self)).1
  ∧ client (upload_files documents_dir file_pattern self).2
    = (uploads (glob (os_path_join documents_dir file_pattern)) (client self)).2
  ∧ assistant_id (upload_files documents_dir file_pattern self).2
    = assistant_id self
  ∧ thread_id (upload_files documents_dir file_pattern self).2 = thread_id self
  ∧ ((upload_files documents_dir file_pattern self).1 = []
     ∨ (upload_files documents_dir file_pattern self).1
       = uploaded_file_ids (upload_files documents_dir file_pattern self).2).
Proof.
  unfold DocumentSearchAssistant.upload_files.
  destruct (glob (os_path_join documents_dir file_pattern)) as [|p ps] eqn:Hg.
  - simpl. rewrite app_nil_r. split_and!; try done. by left.
  - cbn [Py.not_list fst snd].
    destruct (AssistantFacts.foldl_upload_file service open_rb files_create
                (p :: ps)
                (logged service INFO
                   ("Found " +:+ pretty (length (p :: ps))
                    +:+ " files matching pattern '" +:+ file_pattern +:+ "'")
                   self))
      as (H1 & H2 & _ & H4 & H5).
    cbn [uploaded_file_ids client assistant_id thread_id logged] in *.
    rewrite H1, H2, H4, H5. split_and!; try done. by right.
Qed.

Lemma create_assistant_outcome model instructions (self : t service) :
  uploaded_file_ids (create_assistant model instructions self).2
  = uploaded_file_ids self
  ∧ ∀ id, (create_assistant model instructions self).1 = Py.Ok id →
          assistant_id (create_assistant model instructions self).2 = Some id.
Proof.
  unfold DocumentSearchAssistant.create_assistant.
  destruct (assistants_create _ _ _ _ _) as [[id'|e] c]; simpl; split; try done.
  by intros id [= ->].
Qed.

Lemma create_thread_outcome (self : t service) :
  uploaded_file_ids (create_thread self).2 = uploaded_file_ids self
  ∧ assistant_id (create_thread self).2 = assistant_id self
  ∧ ∀ id, (create_thread self).1 = Py.Ok id →
          thread_id (create_thread self).2 = Some id.
Proof.
  unfold DocumentSearchAssistant.create_thread.
  destruct (threads_create _) as [[id'|e] c]; simpl; split_and!; try done.
  by intros id [= ->].
Qed.

Lemma process_questions_unready question questions' (self : t service) :
  not_opt_str (assistant_id self) = true ∨ not_opt_str (thread_id self) = true →
  ∃ e, (process_questions (Many (question :: questions')) self).1 = Py.Raise e.
Proof.
  intros Hno. unfold DocumentSearchAssistant.process_questions.
  cbn [ask_each]. unfold ask_question. cbn [logged assistant_id thread_id].
  destruct (not_opt_str (assistant_id self)) eqn:Ha; [by eexists|].
  destruct Hno as [?|Ht]; [done|]. rewrite Ht. by eexists.
Qed.

Lemma questions_distinct : NoDup questions.
Proof.
  unfold questions. repeat (apply NoDup_cons; split);
    [| |apply not_elem_of_nil|apply NoDup_nil_2];
    intros H; repeat (apply elem_of_cons in H as [H|H]; [discriminate H|]);
    by apply elem_of_nil in H.
Qed.

(** When [main] writes [results.json]: the file holds one answer for each
    of the three questions, in their order; each entry was printed, in three
    lines; at least one file had been uploaded; and the run ended with
    [cleanup]. *)
Theorem main_writes_all_answers
    (logged_before : list (level * string)) (results : dict) :
  results_json (main logged_before) = Some results →
  keys results = questions
  ∧ stdout (main logged_before) = results ≫= printed
  ∧ length (stdout (main logged_before)) = 9
  ∧ ∃ self, assistant (main logged_before) = Some self
            ∧ uploaded_file_ids self ≠ []
            ∧ records (main logged_before) = log self
            ∧ last (log self) = Some (INFO, "Cleanup completed").
Proof.
  unfold AssistantMain.main.
  destruct (init _ _ _ _ _ _) as [self0|e]; [|done].
  set (self0' := logged service INFO _ self0).
  destruct (upload_files_outcome documents_dir "*.docx" self0')
    as (_ & _ & _ & _ & Hids).
  destruct (upload_files documents_dir "*.docx" self0') as [file_ids self1].
  cbn [fst snd] in Hids.
  destruct (Py.not_list file_ids) eqn:Hnl; [done|].
  apply EnrollmentFacts.not_list_false in Hnl.
  destruct Hids as [?|Hids]; [done|]. subst file_ids.
  destruct (create_assistant_outcome "gpt-4-turbo" (Some instructions) self1)
    as [Hu2 Ha2].
  destruct (create_assistant "gpt-4-turbo" (Some instructions) self1)
    as [[a|e] self2]; [|done].
  cbn [fst snd] in *. specialize (Ha2 a eq_refl).
  destruct (create_thread_outcome self2) as (Hu3 & Ha3 & Ht3).
  destruct (create_thread self2) as [[th|e] self3]; [|done].
  cbn [fst snd] in *. specialize (Ht3 th eq_refl).
  set (self3' := logged service INFO _ self3).
  assert (assistant_id self3' = Some a) as Ha by (by rewrite <- Ha2, <- Ha3).
  assert (thread_id self3' = Some th) as Ht by done.
  assert (uploaded_file_ids self3' = uploaded_file_ids self1) as Hu
    by (by rewrite <- Hu2, <- Hu3).
  destruct (not_opt_str (assistant_id self3')) eqn:Hra.
  { destruct (process_questions_unready
                "What are the key points in the first document?"
                (tail questions) self3') as [e He]; [by left|].
    change (Many (_ :: tail questions)) with (Many questions) in He.
    destruct (process_questions (Many questions) self3') as [[r|e'] self4];
      [done|done]. }
  destruct (not_opt_str (thread_id self3')) eqn:Hrt.
  { destruct (process_questions_unready
                "What are the key points in the first document?"
                (tail questions) self3') as [e He]; [by right|].
    change (Many (_ :: tail questions)) with (Many questions) in He.
    destruct (process_questions (Many questions) self3') as [[r|e'] self4];
      [done|done]. }
  destruct (AssistantFacts.ask_each_ready service converse questions
              (length questions) 1 [] self3' Hra Hrt) as (H1 & _ & _ & _ & H5).
  change (ask_each service converse (length questions) 1 questions [] self3')
    with (process_questions (Many questions) self3') in *.
  destruct (process_questions (Many questions) self3') as [[r|e] self4];
    [|done].
  cbn [fst snd] in *. injection H1 as ->.
  destruct (write_results _) as [[]|e]; [|done].
  destruct (AssistantFacts.foldl_delete_file service files_delete
              (uploaded_file_ids self4) true self4) as (_ & _ & Hu5 & _).
  unfold DocumentSearchAssistant.cleanup.
  destruct (foldl _ (true, self4) (uploaded_file_ids self4)) as [ok self5].
  cbn [fst snd results_json stdout records assistant] in *.
  intros [= <-].
  assert (keys (foldl (λ d qa, dict_set qa.1 qa.2 d) []
                  (conversation service converse questions
                     (default "" (assistant_id self3'))
                     (default "" (thread_id self3')) (client self3')).1)
          = questions) as Hk.
  { rewrite keys_fill_distinct;
      rewrite (AssistantFacts.conversation_questions service converse);
      [done|apply questions_distinct]. }
  split; [done|]. split; [done|]. split.
  - destruct (foldl (λ d qa, dict_set qa.1 qa.2 d) [] _)
      as [|e1 [|e2 [|e3 [|e4 rest]]]]; try discriminate Hk. done.
  - eexists. split; [done|]. cbn [logged uploaded_file_ids log].
    split; [by rewrite Hu5, H5, Hu|]. split; [done|]. apply last_snoc.
Qed.

(** [main] stops early without a key or without documents: when the
    environment gives no key (or an empty one), the run logs the error of
    the constructor and does nothing else; when there is a key but no
    document could be uploaded (none matches [documents/*.docx], or none
    could be opened and sent), the run ends with the error record about no
    uploaded file, having printed and written nothing, created no assistant
    and no thread, and contacted the service for the uploads only. *)
Theorem main_stops_without_key_or_documents
    (logged_before : list (level * string)) :
  (getenv_key = None ∨ getenv_key = Some "" →
     main logged_before
     = {| records :=
            logged_before
            ++ [(ERROR,
                 "Error in main execution: OpenAI API key is required. Set it in .env file or pass as parameter.")];
          stdout := []; results_json := None; assistant := None |})
  ∧ (∀ key, getenv_key = Some key → key ≠ "" →
       ok_values (uploads (glob "documents/*.docx") (OpenAI key)).1 = [] →
       ∃ self, assistant (main logged_before) = Some self
               ∧ assistant_id self = None ∧ thread_id self = None
               ∧ uploaded_file_ids self = []
               ∧ client self = (uploads (glob "documents/*.docx") (OpenAI key)).2
               ∧ last (records (main logged_before))
                 = Some (ERROR, "No files were uploaded. Exiting.")
               ∧ stdout (main logged_before) = []
               ∧ results_json (main logged_before) = None).
Proof.
  unfold AssistantMain.main, init. split.
  - by intros [->| ->].
  - intros key -> Hkey Hnone. destruct key as [|c key]; [done|].
    cbn [or_str not_opt_str default].
    set (self0' := logged service INFO _ _).
    destruct (upload_files_outcome documents_dir "*.docx" self0')
      as (H1 & H2 & H3 & H4 & Hids).
    change (os_path_join documents_dir "*.docx") with "documents/*.docx" in *.
    change (client self0') with (OpenAI (String c key)) in *.
    change (uploaded_file_ids self0') with (@nil string) in *.
    change (assistant_id self0') with (@None string) in *.
    change (thread_id self0') with (@None string) in *.
    rewrite Hnone in H1. cbn [Datatypes.app] in H1.
    destruct (upload_files documents_dir "*.docx" self0') as [file_ids self1].
    cbn [fst snd] in *.
    assert (file_ids = []) as -> by (destruct Hids; congruence).
    cbn [Py.not_list]. eexists. cbn [assistant records stdout results_json].
    split; [done|]. split_and!; try done. apply last_snoc.
Qed.

End Main.

End AssistantMainFacts.


(** ** The assistant on the small service *)

Module AssistantRuns.
Import DocumentSearchAssistant AssistantDescribed AssistantMain AssistantExample.

Example paths :
  os_path_join "documents" "*.docx" = "documents/*.docx"
  ∧ os_path_join "documents/" "*.docx" = "documents/*.docx"
  ∧ os_path_join "documents" "/tmp/x" = "/tmp/x"
  ∧ os_path_join "" "*.docx" = "*.docx"
  ∧ os_path_basename "documents/sub/a.docx" = "a.docx"
  ∧ os_path_basename "a.docx" = "a.docx"
  ∧ os_path_basename "documents/" = "".
Proof. repeat split. Qed.

Example upload_four_files :
  upload_files service glob open_rb files_create "documents" "*.docx" fresh
  = (["file-1"; "file-2"],
     {| api_key := "sk-test"; client := ["file-1"; "file-2"];
        assistant_name := "Document Search Assistant";
        assistant_id := None; thread_id := None;
        uploaded_file_ids := ["file-1"; "file-2"];
        log :=
          [ (INFO, "Found 4 files matching pattern '*.docx'");
            (INFO, "Successfully uploaded file: a.docx (ID: file-1)");
            (ERROR, "Error uploading file documents/empty.docx: File is empty.");
            (ERROR, "Error uploading file documents/locked.docx: [Errno 13] Permission denied");
            (INFO, "Successfully uploaded file: b.docx (ID: file-2)");
            (INFO, "Total files uploaded: 2") ] |}).
Proof. vm_compute. reflexivity. Qed.

Example cleanup_with_one_failure :
  cleanup service files_delete ready
  = (false,
     {| api_key := "sk-test"; client := ["file-2"];
        assistant_name := "Document Search Assistant";
        assistant_id := Some "asst-1"; thread_id := Some "thread-1";
        uploaded_file_ids := ["file-1"; "file-2"];
        log :=
          [ (INFO, "Deleted file with ID: file-1");
            (ERROR, "Error deleting file file-2: No such File object: file-2");
            (INFO, "Cleanup completed") ] |}).
Proof. vm_compute. reflexivity. Qed.

Example a_question_asked_twice :
  (process_questions service converse (Many ["why"; "how"; "why"]) ready).1
  = Py.Ok [("why", "Answer 4 to: why"); ("how", "Answer 3 to: how")].
Proof. vm_compute. reflexivity. Qed.

Example main_on_the_small_service :
  results_json
    (main service (Some "sk-test") (λ _, []) glob open_rb files_create files_delete
       assistants_create threads_create converse (λ _, Py.Ok ()) [])
  = Some [ ("What are the key points in the first document?",
            "Answer 2 to: What are the key points in the first document?");
           ("Summarize the content about project management in the documents.",
            "Answer 3 to: Summarize the content about project management in the documents.");
           ("What recommendations are made in the documents?",
            "Answer 4 to: What recommendations are made in the documents?") ].
Proof. vm_compute. reflexivity. Qed.

End AssistantRuns.

(** ** The properties of the assistant at concrete inputs *)

Module AssistantInstances.
Import DocumentSearchAssistant AssistantDescribed AssistantMain AssistantExample.

Lemma upload_files_returns_the_accumulated_ids_witness :
  upload_files service glob open_rb files_create "documents" "*.pdf" ready
  = ([], logged service WARNING
           ("No files matching '" +:+ "*.pdf" +:+ "' found in '"
            +:+ "documents" +:+ "'") ready).
Proof.
  destruct (AssistantFacts.upload_files_returns_the_accumulated_ids
              service glob open_rb files_create "documents" "*.pdf" ready)
    as [H _].
  apply H. reflexivity.
Defined.

Lemma cleanup_tries_every_file_witness :
  (cleanup service files_delete fresh).1 = true.
Proof.
  destruct (AssistantFacts.cleanup_tries_every_file service files_delete fresh)
    as (_ & _ & _ & _ & _ & _ & H).
  apply H. reflexivity.
Defined.

Lemma process_questions_needs_a_session_witness :
  process_questions service converse (Many []) fresh = (Py.Ok [], fresh)
  ∧ (∀ question questions,
       process_questions service converse (Many (question :: questions)) fresh
       = (Py.Raise
            (if not_opt_str (assistant_id fresh)
             then "Assistant not created. Call create_assistant() first."
             else "Thread not created. Call create_thread() first."),
          logged service INFO
            ("Processing question 1/" +:+ pretty (S (length questions))) fresh))
  ∧ (∀ question,
       process_questions service converse (One question) fresh
       = process_questions service converse (Many [question]) fresh).
Proof.
  apply (AssistantFacts.process_questions_needs_a_session service converse fresh).
  left. reflexivity.
Defined.

Lemma process_questions_keeps_the_last_answer_witness :
  ∃ results,
    (process_questions service converse (Many ["why"; "how"; "why"]) ready).1
    = Py.Ok results
    ∧ (∀ question,
         dict_get question results
         = last_answer question
             (conversation service converse ["why"; "how"; "why"]
                (default "" (assistant_id ready))
                (default "" (thread_id ready)) (client ready)).1)
    ∧ (conversation service converse ["why"; "how"; "why"]
         (default "" (assistant_id ready))
         (default "" (thread_id ready)) (client ready)).1.*1
      = ["why"; "how"; "why"]
    ∧ NoDup (keys results)
    ∧ (∀ question, question ∈ keys results ↔ question ∈ ["why"; "how"; "why"])
    ∧ client (process_questions service converse (Many ["why"; "how"; "why"]) ready).2
      = (conversation service converse ["why"; "how"; "why"]
           (default "" (assistant_id ready))
           (default "" (thread_id ready)) (client ready)).2
    ∧ assistant_id
        (process_questions service converse (Many ["why"; "how"; "why"]) ready).2
      = assistant_id ready
    ∧ thread_id
        (process_questions service converse (Many ["why"; "how"; "why"]) ready).2
      = thread_id ready
    ∧ uploaded_file_ids
        (process_questions service converse (Many ["why"; "how"; "why"]) ready).2
      = uploaded_file_ids ready.
Proof.
  apply (AssistantFacts.process_questions_keeps_the_last_answer
           service converse ["why"; "how"; "why"] ready); reflexivity.
Defined.

Lemma init_takes_the_argument_then_the_environment_witness :
  ∃ self,
    init service (Some "sk-env") (λ _, []) (Some "") "Helper" [] = Py.Ok self
    ∧ api_key self = "sk-env".
Proof.
  destruct (AssistantFacts.init_takes_the_argument_then_the_environment
              service (Some "sk-env") (λ _, []) (Some "") "Helper" [])
    as (_ & H & _).
  apply (H (or_intror eq_refl) "sk-env"); [reflexivity|discriminate].
Defined.

Lemma session_setup_witness :
  ∃ answer,
    (ask_question service converse "why" 300
       (create_thread service threads_create
          (create_assistant service assistants_create "gpt-4-turbo" None fresh).2).2).1
    = Py.Ok answer.
Proof.
  destruct (AssistantFacts.session_setup service assistants_create threads_create
              converse "gpt-4-turbo" None fresh) as (_ & _ & _ & _ & _ & H).
  apply (H "asst-1" "thread-1"); [reflexivity|reflexivity|discriminate|discriminate].
Defined.

Lemma main_deletes_only_after_writing_witness :
  main service (Some "sk-test") (λ _, []) glob open_rb files_create files_delete
    assistants_create (λ c, (Py.Raise "Rate limit reached", c)) converse
    (λ _, Py.Ok ()) []
  = main service (Some "sk-test") (λ _, []) glob open_rb files_create
      (λ _ c, (Py.Ok (), [])) assistants_create
      (λ c, (Py.Raise "Rate limit reached", c)) converse (λ _, Py.Ok ()) [].
Proof.
  apply AssistantMainFacts.main_deletes_only_after_writing. reflexivity.
Defined.

Lemma main_writes_all_answers_witness :
  length
    (stdout
       (main service (Some "sk-test") (λ _, []) glob open_rb files_create
          files_delete assistants_create threads_create converse
          (λ _, Py.Ok ()) [])) = 9.
Proof.
  destruct (AssistantMainFacts.main_writes_all_answers
              service (Some "sk-test") (λ _, []) glob open_rb files_create
              files_delete assistants_create threads_create converse
              (λ _, Py.Ok ()) []
              [ ("What are the key points in the first document?",
                 "Answer 2 to: What are the key points in the first document?");
                ("Summarize the content about project management in the documents.",
                 "Answer 3 to: Summarize the content about project management in the documents.");
                ("What recommendations are made in the documents?",
                 "Answer 4 to: What recommendations are made in the documents?") ])
    as (_ & _ & H & _).
  - vm_compute. reflexivity.
  - exact H.
Defined.

Lemma main_stops_without_key_or_documents_witness :
  main service None (λ _, []) glob open_rb files_create files_delete
    assistants_create threads_create converse (λ _, Py.Ok ()) []
  = {| records :=
         [] ++ [(ERROR,
                 "Error in main execution: OpenAI API key is required. Set it in .env file or pass as parameter.")];
       stdout := []; results_json := None; assistant := None |}.
Proof.
  destruct (AssistantMainFacts.main_stops_without_key_or_documents
              service None (λ _, []) glob open_rb files_create files_delete
              assistants_create threads_create converse (λ _, Py.Ok ()) [])
    as [H _].
  apply H. left. reflexivity.
Defined.

End AssistantInstances.
